(** * tenper: a tmux wrapper with virtualenv support

    A shallow embedding of [tenper.py], a Python 2 program ([raw_input],
    [iteritems]).  The program is a sequence of filesystem operations,
    prompts and external commands driven by a per-project configuration.
    The embedding threads an explicit [world] through a monad of state and
    exceptions:
    - the filesystem, a finite map from the path strings the program builds
      to files and directories;
    - standard input, the lines still to be read (reading past the last
      one raises [EOFError]), and standard output;
    - the log of the external processes started, in order.
    What lies outside the program is a [host] record: the home directory
    and the environment of the process, [os.path.expandvars], the YAML
    loader, and the answers and effects of the external processes.  The
    configuration is the record the template of the program lays out. *)

From Stdlib Require Import ZArith Ascii String List Lia DecimalString.
From stdpp Require Import gmap strings list fin_maps.

Local Open Scope string_scope.
Local Open Scope list_scope.
Local Open Scope Z_scope.

(** ** Python values and exceptions *)

(** The exceptions the program can meet.  [Exception] is the plain
    [Exception(msg)] of [config_for]; [SystemExit] is argparse leaving the
    process (help or usage error); [NotModelled] marks an input outside the
    fragment of [str.format] or of argparse modelled below. *)
Inductive exn : Type :=
  | Exception (msg : string)
  | KeyError (key : string)
  | IndexError
  | ValueError
  | EOFError
  | OSError (path : string)
  | IOError (path : string)
  | YAMLError
  | CalledProcessError (cmd : string)
  | SystemExit
  | NotModelled (what : string).

Inductive result (A : Type) : Type :=
  | Ok (a : A)
  | Raise (e : exn).
Arguments Ok {A} a.
Arguments Raise {A} e.

Definition result_map {A B} (f : A -> B) (r : result A) : result B :=
  match r with
  | Ok a => Ok (f a)
  | Raise e => Raise e
  end.

Definition result_bind {A B} (r : result A) (f : A -> result B) : result B :=
  match r with
  | Ok a => f a
  | Raise e => Raise e
  end.

(** Values passed as keyword arguments to [str.format]. *)
Inductive pyval : Type :=
  | PStr (s : string)
  | PInt (z : Z)
  | PNone.

(** [str(z)] for an integer. *)
Definition str_of_Z (z : Z) : string := NilZero.string_of_int (Z.to_int z).

(** [str(v)], which is what a replacement field [{name}] renders. *)
Definition py_str (v : pyval) : string :=
  match v with
  | PStr s => s
  | PInt z => str_of_Z z
  | PNone => "None"
  end.

(** ** String primitives *)

(** [s.split(sep)] for a one-character separator: always at least one
    segment, empty segments between adjacent separators. *)
Fixpoint split_on (sep : ascii) (s : string) : list string :=
  match s with
  | EmptyString => [EmptyString]
  | String c rest =>
      if Ascii.eqb c sep then EmptyString :: split_on sep rest
      else match split_on sep rest with
           | p :: ps => String c p :: ps
           | [] => [String c EmptyString]
           end
  end.

(** [sep.join(parts)]. *)
Fixpoint join (sep : string) (parts : list string) : string :=
  match parts with
  | [] => EmptyString
  | [p] => p
  | p :: ps => p +:+ sep +:+ join sep ps
  end.

Definition is_digit (c : ascii) : bool :=
  let n := nat_of_ascii c in (Nat.leb 48 n && Nat.leb n 57)%bool.

Definition is_alpha (c : ascii) : bool :=
  let n := nat_of_ascii c in
  ((Nat.leb 65 n && Nat.leb n 90) || (Nat.leb 97 n && Nat.leb n 122))%bool.

Fixpoint string_forallb (p : ascii -> bool) (s : string) : bool :=
  match s with
  | EmptyString => true
  | String c rest => (p c && string_forallb p rest)%bool
  end.

Fixpoint string_existsb (p : ascii -> bool) (s : string) : bool :=
  match s with
  | EmptyString => false
  | String c rest => (p c || string_existsb p rest)%bool
  end.

(** [s + c] for a character [c]. *)
Fixpoint snoc (s : string) (c : ascii) : string :=
  match s with
  | EmptyString => String c EmptyString
  | String a rest => String a (snoc rest c)
  end.

Definition kwargs : Type := list (string * pyval).

Fixpoint kw_lookup (name : string) (kw : kwargs) : option pyval :=
  match kw with
  | [] => None
  | (k, v) :: rest => if String.eqb k name then Some v else kw_lookup name rest
  end.

Definition digit_value (c : ascii) : Z := Z.of_nat (nat_of_ascii c) - 48.

Fixpoint digits_value (acc : Z) (s : string) : Z :=
  match s with
  | EmptyString => acc
  | String c rest => digits_value (10 * acc + digit_value c) rest
  end.

(** The largest index [str.format] reads from a field name, on a 64-bit
    build. *)
Definition PY_SSIZE_T_MAX : Z := 9223372036854775807.

(** A replacement field [{name}] under keyword arguments only: an empty or
    numeric name is positional and there are no positional arguments
    ([IndexError], or [ValueError] when the number is too large to be an
    index); a name with a conversion, format spec, attribute or index is
    outside the modelled fragment (no template of the program has one). *)
Definition special_field_char (c : ascii) : bool :=
  (Ascii.eqb c "!" || Ascii.eqb c ":" || Ascii.eqb c "." || Ascii.eqb c "["
   || Ascii.eqb c "{")%bool.

Definition render_field (name : string) (kw : kwargs) : result string :=
  if string_forallb is_digit name then
    if PY_SSIZE_T_MAX <? digits_value 0 name then Raise ValueError
    else Raise IndexError
  else if string_existsb special_field_char name then Raise (NotModelled name)
  else match kw_lookup name kw with
       | Some v => Ok (py_str v)
       | None => Raise (KeyError name)
       end.

(** [s.format] with keyword arguments [kw]: [field] is [Some name] while
    inside the braces of a replacement field. *)
Fixpoint format_from (kw : kwargs) (field : option string) (s : string)
  : result string :=
  match field with
  | None =>
      match s with
      | EmptyString => Ok EmptyString
      | String "{" (String "{" rest) => result_map (String "{") (format_from kw None rest)
      | String "{" rest => format_from kw (Some EmptyString) rest
      | String "}" (String "}" rest) => result_map (String "}") (format_from kw None rest)
      | String "}" _ => Raise ValueError
      | String c rest => result_map (String c) (format_from kw None rest)
      end
  | Some name =>
      match s with
      | EmptyString => Raise ValueError
      | String "}" rest =>
          result_bind (render_field name kw) (fun v =>
          result_map (String.append v) (format_from kw None rest))
      | String c rest => format_from kw (Some (snoc name c)) rest
      end
  end.

Definition format (s : string) (kw : kwargs) : result string :=
  format_from kw None s.

(** [[f(x) for x in xs]] where [f] may raise. *)
Fixpoint map_result {A B} (f : A -> result B) (xs : list A) : result (list B) :=
  match xs with
  | [] => Ok []
  | x :: rest =>
      result_bind (f x) (fun y =>
      result_map (cons y) (map_result f rest))
  end.

(** [command_list] (lines 59-78): split first, then format each
    segment. *)
Definition command_list (template : string) (kw : kwargs) : result (list string) :=
  map_result (fun part => format part kw) (split_on " " template).

(** [s.startswith(p)] is [String.prefix p s]; [s.endswith(suf)]: *)
Definition ends_with (suf s : string) : bool :=
  (Nat.leb (String.length suf) (String.length s)
   && String.eqb (substring (String.length s - String.length suf)
                            (String.length suf) s) suf)%bool.

(** [s[0:-n]]. *)
Definition drop_last (n : nat) (s : string) : string :=
  substring 0 (String.length s - n) s.

(** [s] without the prefix [p], when it has it. *)
Fixpoint strip_prefix (p s : string) : option string :=
  match p with
  | EmptyString => Some s
  | String a p' =>
      match s with
      | EmptyString => None
      | String b s' => if Ascii.eqb a b then strip_prefix p' s' else None
      end
  end.

Definition is_space (c : ascii) : bool :=
  let n := nat_of_ascii c in (Nat.eqb n 32 || (Nat.leb 9 n && Nat.leb n 13))%bool.

Fixpoint lstrip (s : string) : string :=
  match s with
  | EmptyString => EmptyString
  | String c rest => if is_space c then lstrip rest else s
  end.

Fixpoint rstrip_with (p : ascii -> bool) (s : string) : string :=
  match s with
  | EmptyString => EmptyString
  | String c rest =>
      match rstrip_with p rest with
      | EmptyString => if p c then EmptyString else String c EmptyString
      | r => String c r
      end
  end.

(** [s.strip()]. *)
Definition strip (s : string) : string := rstrip_with is_space (lstrip s).

(** [int(s)] in base ten: surrounding whitespace, an optional sign, then
    one digit at least; [ValueError] otherwise. *)
Definition py_int (s : string) : result Z :=
  let unsigned (d : string) : result Z :=
    match d with
    | EmptyString => Raise ValueError
    | _ => if string_forallb is_digit d then Ok (digits_value 0 d)
           else Raise ValueError
    end in
  match strip s with
  | String "-" d => result_map Z.opp (unsigned d)
  | String "+" d => unsigned d
  | d => unsigned d
  end.

(** ** Paths *)

(** [os.path.join(a, b)] of posixpath. *)
Definition path_join (a b : string) : string :=
  if String.prefix "/" b then b
  else if (String.eqb a EmptyString || ends_with "/" a)%bool then a +:+ b
  else a +:+ "/" +:+ b.

Definition is_slash (c : ascii) : bool := Ascii.eqb c "/".

(** [p[:p.rfind('/') + 1]]. *)
Fixpoint upto_last_slash (p : string) : string :=
  match p with
  | EmptyString => EmptyString
  | String c rest =>
      if string_existsb is_slash p then String c (upto_last_slash rest)
      else EmptyString
  end.

(** [os.path.dirname(p)] of posixpath. *)
Definition dirname (p : string) : string :=
  let head := upto_last_slash p in
  if string_forallb is_slash head then head else rstrip_with is_slash head.

(** ** The world *)

Inductive node : Type :=
  | File (contents : string)
  | Dir.

(** External processes started by the program. *)
Inductive event : Type :=
  | Call (argv : list string)
  | CheckOutput (cmd : string).

(** What the program writes to standard output. *)
Inductive output : Type :=
  | Printed (line : string)
  | Prompted (prompt : string).

(** The filesystem is keyed by the path strings the program builds; the
    entries of a directory [d] are the keys [d/name]. *)
Record world : Type := World {
  fs : gmap string node;
  stdin : list string;
  stdout : list output;
  log : list event
}.

Definition set_fs (m : gmap string node) (w : world) : world :=
  World m (stdin w) (stdout w) (log w).
Definition set_stdin (l : list string) (w : world) : world :=
  World (fs w) l (stdout w) (log w).
Definition add_stdout (o : output) (w : world) : world :=
  World (fs w) (stdin w) (stdout w ++ [o]) (log w).
Definition add_log (e : event) (w : world) : world :=
  World (fs w) (stdin w) (stdout w) (log w ++ [e]).

(** ** The configuration record

    The parsed configuration as the template lays it out.  A key read with
    [.get] is optional; [virtualenv] is [None] when the key is absent or
    its value is falsy; [environment] lists the items of the mapping in the
    order [iteritems] yields them (empty when absent or falsy); [w_panes]
    is empty when the key is absent, and an empty pane stands for a falsy
    item. *)
Record virtualenv_section : Type := {
  python_binary : option string;
  site_packages : option bool;
  venv_path : option string
}.

Record window : Type := {
  w_name : string;
  w_layout : option string;
  w_panes : list string
}.

Record config : Type := {
  session_name : string;
  virtualenv : option virtualenv_section;
  project_root : string;
  environment : list (string * string);
  windows : list window
}.

(** ** The host

    What the program takes from outside itself.  The answer of an external
    process may depend on everything run before it and on the filesystem,
    which it may change. *)
Record host : Type := {
  home : string;
  environ : string -> option string;
  expandvars : string -> string;
  yaml_load : string -> option config;
  py_eval : string -> result string;
  subprocess_call :
    list event -> list string -> gmap string node -> gmap string node * Z;
  subprocess_check_output :
    list event -> string -> gmap string node -> gmap string node * option string
}.

(** ** The monad: state and exceptions *)

Definition M (A : Type) : Type := world -> result A * world.

Definition ret {A} (a : A) : M A := fun w => (Ok a, w).
Definition raise {A} (e : exn) : M A := fun w => (Raise e, w).
Definition bind {A B} (m : M A) (f : A -> M B) : M B :=
  fun w => match m w with
           | (Ok a, w') => f a w'
           | (Raise e, w') => (Raise e, w')
           end.
Definition lift {A} (r : result A) : M A := fun w => (r, w).

(** [try: m except (classes): h]. *)
Definition try_except {A} (m : M A) (caught : exn -> bool) (h : M A) : M A :=
  fun w => match m w with
           | (Raise e, w') => if caught e then h w' else (Raise e, w')
           | r => r
           end.

Declare Scope py_scope.
Delimit Scope py_scope with py.
Notation "x <- m ;; k" := (bind m (fun x => k))
  (at level 100, m at next level, right associativity) : py_scope.
Notation "m ;; k" := (bind m (fun _ => k))
  (at level 100, right associativity) : py_scope.
Local Open Scope py_scope.

(** [for i, x in enumerate(xs): body(i, x)], counting from [i]. *)
Fixpoint for_enumerate {A} (body : nat -> A -> M unit) (i : nat) (xs : list A)
  : M unit :=
  match xs with
  | [] => ret tt
  | x :: rest => body i x ;; for_enumerate body (S i) rest
  end.

(** [for x in xs: body(x)]. *)
Fixpoint for_each {A} (body : A -> M unit) (xs : list A) : M unit :=
  match xs with
  | [] => ret tt
  | x :: rest => body x ;; for_each body rest
  end.

Definition when (b : bool) (m : M unit) : M unit := if b then m else ret tt.

(** ** Filesystem primitives *)

Definition os_path_exists (p : string) : M bool :=
  fun w => (Ok (match fs w !! p with Some _ => true | None => false end), w).

(** The name of [p] as an entry of the directory [d], if it is one. *)
Definition entry_name (d p : string) : option string :=
  match strip_prefix (d +:+ "/") p with
  | Some name =>
      if (String.eqb name EmptyString || string_existsb is_slash name)%bool
      then None else Some name
  | None => None
  end.

Definition dir_entries (m : gmap string node) (d : string) : list string :=
  omap (fun kv => entry_name d kv.1) (map_to_list m).

(** [os.listdir(d)]: the names in the directory, in the order the system
    gives them. *)
Definition os_listdir (d : string) : M (list string) :=
  fun w => match fs w !! d with
           | Some Dir => (Ok (dir_entries (fs w) d), w)
           | _ => (Raise (OSError d), w)
           end.

(** [p] is [d] or lies below it. *)
Definition under (d p : string) : bool :=
  (String.eqb p d || String.prefix (d +:+ "/") p)%bool.

(** [shutil.rmtree(p)]: [p] must be a directory. *)
Definition shutil_rmtree (p : string) : M unit :=
  fun w => match fs w !! p with
           | Some Dir =>
               (Ok tt, set_fs (filter (fun kv => under p kv.1 = false) (fs w)) w)
           | _ => (Raise (OSError p), w)
           end.

(** [os.remove(p)]: [p] must be a file. *)
Definition os_remove (p : string) : M unit :=
  fun w => match fs w !! p with
           | Some (File _) => (Ok tt, set_fs (delete p (fs w)) w)
           | _ => (Raise (OSError p), w)
           end.

(** [os.rmdir(p)]: [p] must be an empty directory. *)
Definition os_rmdir (p : string) : M unit :=
  fun w => match fs w !! p with
           | Some Dir =>
               match dir_entries (fs w) p with
               | [] => (Ok tt, set_fs (delete p (fs w)) w)
               | _ => (Raise (OSError p), w)
               end
           | _ => (Raise (OSError p), w)
           end.

Definition is_dir (m : gmap string node) (p : string) : bool :=
  match m !! p with Some Dir => true | _ => false end.

(** [os.mkdir(p)]: [p] must be new and its parent a directory. *)
Definition os_mkdir (p : string) : M unit :=
  fun w => match fs w !! p with
           | Some _ => (Raise (OSError p), w)
           | None =>
               if is_dir (fs w) (dirname p)
               then (Ok tt, set_fs (<[p := Dir]> (fs w)) w)
               else (Raise (OSError p), w)
           end.

(** [with open(p, 'w') as f: f.write(text)]. *)
Definition write_file (p text : string) : M unit :=
  fun w => match fs w !! p with
           | Some Dir => (Raise (IOError p), w)
           | _ =>
               if is_dir (fs w) (dirname p)
               then (Ok tt, set_fs (<[p := File text]> (fs w)) w)
               else (Raise (IOError p), w)
           end.

(** The text of [open(p, 'r')]. *)
Definition read_file (p : string) : M string :=
  fun w => match fs w !! p with
           | Some (File text) => (Ok text, w)
           | _ => (Raise (IOError p), w)
           end.

(** ** Standard input and output *)

Definition print (line : string) : M unit :=
  fun w => (Ok tt, add_stdout (Printed line) w).

(** [raw_input(prompt)]: the next line of standard input, [EOFError] at its
    end. *)
Definition raw_input (prompt : string) : M string :=
  fun w => match stdin w with
           | line :: rest => (Ok line, set_stdin rest (add_stdout (Prompted prompt) w))
           | [] => (Raise EOFError, add_stdout (Prompted prompt) w)
           end.

Definition is_ValueError_or_EOFError (e : exn) : bool :=
  match e with
  | ValueError | EOFError => true
  | _ => false
  end.

Definition is_OSError (e : exn) : bool :=
  match e with
  | OSError _ => true
  | _ => false
  end.

(** ** The program *)

Definition dquote : string := String (ascii_of_nat 34) EmptyString.

Definition config_template : string :=
"# Shows up in 'tmux list-sessions' and on the left side of the status bar.
session name: {env}

# Optional; if provided, the virtualenv activate script will be sourced in all
# new windows and panes by setting tmux's default-command option.
virtualenv:
    python binary: /usr/bin/python
    site packages?: false
    path: $HOME/.venv #optional path to virtualenv

# When starting a tenper session, all windows and panes will be changed to this
# directory.
project root: $HOME

# Environment variables (only available inside the tmux session).
environment:
    MYKEY: myvalue
    PATH: $PATH:/foo/bar/baz

windows:
  - name: One
    panes:
      - ls -l

  - name: Two
    # Layout of the panes: even-horizontal, even-vertical, main-horizontal,
    # main-vertical, or tiled. You can also specify the layout string in the
    # list-windows command (see the layout section section in tmux's man page).
    layout: main-vertical
    panes:
        - ls
        - vim
        - top
".

Section Program.

Variable E : host.

Definition editor : pyval :=
  match environ E "EDITOR" with
  | Some s => PStr s
  | None => PNone
  end.

Definition configs : string := path_join (home E) ".tenper".
Definition virtualenvs : string := path_join (home E) ".virtualenvs".

(** [subprocess.call(argv)], for a program the system can start: the
    call returns the exit status of the program.  (When there is no such
    program the call raises [OSError]; the host says nothing of which
    programs exist, and that case is left out.) *)
Definition call (argv : list string) : M Z :=
  fun w => let '(m, status) := subprocess_call E (log w) argv (fs w) in
           (Ok status, add_log (Call argv) (set_fs m w)).

(** [subprocess.check_output(cmd, shell=True)]: the output, or
    [CalledProcessError] when the command fails. *)
Definition check_output (cmd : string) : M string :=
  fun w => let '(m, out) := subprocess_check_output E (log w) cmd (fs w) in
           let w' := add_log (CheckOutput cmd) (set_fs m w) in
           match out with
           | Some text => (Ok text, w')
           | None => (Raise (CalledProcessError cmd), w')
           end.

(** [run] (lines 81-84). *)
Definition run (cmd : string) (kw : kwargs) : M Z :=
  argv <- lift (command_list cmd kw) ;;
  call argv.

(** [input(prompt)] of Python 2: evaluate the line read. *)
Definition input (prompt : string) : M string :=
  line <- raw_input prompt ;;
  lift (py_eval E line).

(** The [try: raw_input(prompt) except (ValueError, EOFError): input(prompt)]
    of [delete] and [start]. *)
Definition ask (prompt : string) : M string :=
  try_except (raw_input prompt) is_ValueError_or_EOFError (input prompt).

(** [config_for] (lines 87-105).  [YAMLError] stands for whatever the
    loader raises on a text it does not accept. *)
Definition config_for (env : string) : M config :=
  let fn := path_join configs (env +:+ ".yml") in
  found <- os_path_exists fn ;;
  if (found : bool) then
    text <- read_file fn ;;
    match yaml_load E text with
    | Some config => ret config
    | None => raise YAMLError
    end
  else
    raise (Exception ("No configuration found for environment " +:+ dquote
                      +:+ env +:+ dquote +:+ ". (Checked: " +:+ fn +:+ ")")).

(** Truth value of an optional string: [None] and the empty string are
    falsy. *)
Definition truthy (s : option string) : bool :=
  match s with
  | Some (String _ _) => true
  | _ => false
  end.

(** The directory [confirm_virtualenv] works on. *)
Definition virtualenv_dir (config : config) (venv : virtualenv_section) : string :=
  let custom_path := venv_path venv in
  if truthy custom_path then expandvars E (default EmptyString custom_path)
  else path_join virtualenvs (session_name config).

(** [confirm_virtualenv] (lines 108-134). *)
Definition confirm_virtualenv (config : config) (delete_first : bool) : M unit :=
  match virtualenv config with
  | None => ret tt
  | Some venv =>
      let path := virtualenv_dir config venv in
      found <- os_path_exists path ;;
      if (found && negb delete_first)%bool then ret tt
      else
        when delete_first (shutil_rmtree path) ;;
        _ <- run "virtualenv -p {python_binary} {site_packages} {dir}"
               [("python_binary",
                 PStr (default "/usr/bin/python" (python_binary venv)));
                ("site_packages",
                 PStr (if default false (site_packages venv)
                       then "--system-site-packages" else "--no-site-packages"));
                ("dir", PStr path)] ;;
        ret tt
  end.

(** [[f[0:-4] for f in entries if f.endswith('.yml')]]. *)
Definition yml_names (entries : list string) : list string :=
  map (drop_last 4) (filter (fun f => ends_with ".yml" f = true) entries).

(** [list_envs] (lines 137-143). *)
Definition list_envs : M unit :=
  found <- os_path_exists configs ;;
  when found (
    entries <- os_listdir configs ;;
    for_each print (yml_names entries)).

(** [edit] (lines 146-157). *)
Definition edit (env : string) : M unit :=
  found <- os_path_exists configs ;;
  when (negb found) (os_mkdir configs) ;;
  let config_file := path_join configs (env +:+ ".yml") in
  found <- os_path_exists config_file ;;
  when (negb found) (
    text <- lift (format config_template [("env", PStr env)]) ;;
    write_file config_file text) ;;
  _ <- run "{editor} {file}" [("editor", editor); ("file", PStr config_file)] ;;
  ret tt.

(** [resp.strip() in ['yes', 'YES', 'y', 'Y']]. *)
Definition affirmative (resp : string) : bool :=
  existsb (String.eqb (strip resp)) ["yes"; "YES"; "y"; "Y"].

(** [delete] (lines 160-187). *)
Definition delete (env : string) : M unit :=
  let config_file := path_join configs (env +:+ ".yml") in
  let virtualenv := path_join virtualenvs env in
  found <- os_path_exists virtualenv ;;
  when found (
    let prompt := "There's a virtualenv for this environment in " +:+ virtualenv
                  +:+ ". Do you want to delete it? " in
    resp <- ask prompt ;;
    when (affirmative resp) (
      shutil_rmtree virtualenv ;;
      print ("Deleted " +:+ virtualenv +:+ "."))) ;;
  os_remove config_file ;;
  print ("Removed " +:+ config_file +:+ ".") ;;
  try_except (os_rmdir configs) is_OSError (ret tt).

(** [rebuild] (lines 190-193). *)
Definition rebuild (env : string) : M unit :=
  config <- config_for env ;;
  confirm_virtualenv config true.

Definition is_name_char (c : ascii) : bool :=
  (is_alpha c || is_digit c || Ascii.eqb c "_")%bool.

(** The [re.sub] of [start]: each dollar sign followed by a letter and then
    by the longest run of letters, digits and underscores is replaced by
    the value of that variable in [os.environ], or by the empty string.
    [name] is [Some n] while the scan is inside a variable name. *)
Fixpoint sub_environ (name : option string) (v : string) : string :=
  let value := match name with
               | Some n => default EmptyString (environ E n)
               | None => EmptyString
               end in
  match v with
  | EmptyString => value
  | String c rest =>
      match name with
      | Some n =>
          if is_name_char c then sub_environ (Some (snoc n c)) rest
          else value +:+
               match c, rest with
               | "$"%char, String a rest' =>
                   if is_alpha a then sub_environ (Some (String a EmptyString)) rest'
                   else String c (sub_environ None rest)
               | _, _ => String c (sub_environ None rest)
               end
      | None =>
          match c, rest with
          | "$"%char, String a rest' =>
              if is_alpha a then sub_environ (Some (String a EmptyString)) rest'
              else String c (sub_environ None rest)
          | _, _ => String c (sub_environ None rest)
          end
      end
  end.

(** The integer before the first colon of the output of [cmd]. *)
Definition first_index (cmd : string) : M Z :=
  out <- check_output cmd ;;
  lift (py_int (hd EmptyString (split_on ":" out))).

(** The body of the loop over the panes of a window (lines 293-309). *)
Definition start_pane (virtualenv_path : option string) (window_target : string)
    (base_pindex : Z) (pindex : nat) (pane : string) : M unit :=
  let pane_target := window_target +:+ "." +:+ str_of_Z (base_pindex + Z.of_nat pindex) in
  when (negb (Nat.eqb pindex 0)) (
    _ <- run "tmux split-window -t {window_target}.0"
           [("window_target", PStr window_target)] ;;
    ret tt) ;;
  match virtualenv_path with
  | Some activate =>
      _ <- run "tmux send-keys -t {pane_target} {command} ENTER"
             [("pane_target", PStr pane_target);
              ("command", PStr ("source " +:+ activate))] ;;
      ret tt
  | None => ret tt
  end ;;
  when (truthy (Some pane)) (
    _ <- run "tmux send-keys -t {pane_target} {command} ENTER"
           [("pane_target", PStr pane_target); ("command", PStr pane)] ;;
    ret tt).

(** The body of the loop over the windows (lines 261-318). *)
Definition start_window (session : string) (virtualenv_path : option string)
    (base_index : Z) (index : nat) (window : window) : M unit :=
  let window_target := join ":" [session; str_of_Z (base_index + Z.of_nat index)] in
  (if Nat.eqb index 0 then
     let base_target := join ":" [session; str_of_Z base_index] in
     let temp_target := join ":" [session; str_of_Z (base_index + 1)] in
     _ <- run "tmux new-window -d -t {temp_target} -n {name}"
            [("temp_target", PStr temp_target); ("name", PStr (w_name window))] ;;
     _ <- run "tmux kill-window -t {base_target}"
            [("base_target", PStr base_target)] ;;
     _ <- run "tmux move-window -s {temp_target} -t {base_target}"
            [("temp_target", PStr temp_target); ("base_target", PStr base_target)] ;;
     ret tt
   else
     _ <- run "tmux new-window -d -t {window_target} -n {name}"
            [("window_target", PStr window_target); ("name", PStr (w_name window))] ;;
     ret tt) ;;
  cmd <- lift (format "tmux list-panes -t {window_target}"
                 [("window_target", PStr window_target)]) ;;
  base_pindex <- first_index cmd ;;
  for_enumerate (start_pane virtualenv_path window_target base_pindex) 0
    (w_panes window) ;;
  when (truthy (w_layout window)) (
    _ <- run "tmux select-layout -t {window_target} {layout}"
           [("window_target", PStr window_target);
            ("layout", PStr (default EmptyString (w_layout window)))] ;;
    ret tt) ;;
  _ <- run "tmux select-pane -t {window_target}.{base_pindex}"
         [("window_target", PStr window_target); ("base_pindex", PInt base_pindex)] ;;
  ret tt.

(** [virtualenv_path] (lines 201-206): the path of the activate script,
    when the configuration has a virtualenv. *)
Definition activate_path (config : config) : option string :=
  match virtualenv config with
  | None => None
  | Some venv =>
      let root := if truthy (venv_path venv) then default EmptyString (venv_path venv)
                  else path_join virtualenvs (session_name config) in
      Some (expandvars E (path_join (path_join root "bin") "activate"))
  end.

(** [start] past the short circuit (lines 219-321): the session does not
    exist yet. *)
Definition start_session (config : config) : M unit :=
  let session := session_name config in
  let virtualenv_path := activate_path config in
  _ <- run "tmux new-session -d -s {session}" [("session", PStr session)] ;;
  _ <- run "tmux set-option -t {session} default-path {path}"
         [("session", PStr session);
          ("path", PStr (expandvars E (project_root config)))] ;;
  _ <- run "tmux set-option -t {session} status-left-length {length}"
         [("session", PStr (session_name config));
          ("length", PInt (Z.of_nat (String.length (session_name config)) + 2))] ;;
  for_each (fun kv =>
      let v := sub_environ None kv.2 in
      _ <- run "tmux set-environment -t {session} {key} {value}"
             [("session", PStr session); ("key", PStr kv.1); ("value", PStr v)] ;;
      ret tt) (environment config) ;;
  cmd <- lift (format "tmux list-windows -t {session}" [("session", PStr session)]) ;;
  base_index <- first_index cmd ;;
  for_enumerate (start_window session virtualenv_path base_index) 0
    (windows config) ;;
  _ <- run "tmux -2 attach-session -t {session}" [("session", PStr session)] ;;
  ret tt.

(** The short circuit of [start] for a preexisting session (lines
    210-217). *)
Definition attach_existing (config : config) : M unit :=
  let prompt := "Session already exists: attaching. (Press any key to continue.)" in
  _ <- ask prompt ;;
  _ <- run "tmux -2 attach-session -t {session}"
         [("session", PStr (session_name config))] ;;
  ret tt.

(** [start] from the question to tmux on (line 209). *)
Definition open_session (config : config) : M unit :=
  status <- run "tmux has-session -t {session}"
              [("session", PStr (session_name config))] ;;
  if status =? 0 then attach_existing config else start_session config.

(** [start] (lines 196-321). *)
Definition start (env : string) : M unit :=
  config <- config_for env ;;
  confirm_virtualenv config false ;;
  open_session config.

(** [completions] (lines 379-398): the subcommands, then the
    environments. *)
Definition completions : M unit :=
  let args := ["list"; "edit"; "rebuild"; "delete"] in
  found <- os_path_exists configs ;;
  args <- (if (found : bool) then
             entries <- os_listdir configs ;;
             ret (args ++ yml_names entries)
           else ret args) ;;
  print (join " " args).

End Program.

(** ** Command-line dispatch *)

(** The functions [parse_args] can return. *)
Inductive handler : Type :=
  | Handler_list_envs
  | Handler_completions
  | Handler_edit
  | Handler_rebuild
  | Handler_delete
  | Handler_start.

(** [s] without one final newline. *)
Definition chomp (s : string) : string :=
  if ends_with (String (ascii_of_nat 10) EmptyString) s then drop_last 1 s else s.

(** argparse's pattern for a negative number: a dash, then digits, or
    digits (maybe none), a dot and digits. *)
Definition negative_number (a : string) : bool :=
  match chomp a with
  | String "-" body =>
      let nonempty_digits d :=
        (negb (String.eqb d EmptyString) && string_forallb is_digit d)%bool in
      match split_on "." body with
      | [d] => nonempty_digits d
      | [d; f] => (string_forallb is_digit d && nonempty_digits f)%bool
      | _ => false
      end
  | _ => false
  end.

(** Whether argparse reads the argument [a] as an option flag, for a
    parser whose only option is the help flag ([-h], [--help], also
    abbreviated or with an explicit value).  A flag ends the process: with
    the help text, or with a usage error when it is not known. *)
Definition taken_as_option (a : string) : bool :=
  match a with
  | String "-" (String _ _) =>
      if (if String.prefix "--" a
          then String.prefix (hd EmptyString (split_on "=" a)) "--help"
          else String.prefix "-h" a)
      then true
      else negb (negative_number a || string_existsb (Ascii.eqb " ") a)
  | _ => false
  end.

(** [globals()[command]] for the three subcommands. *)
Definition subcommand (command : string) : option handler :=
  if String.eqb command "edit" then Some Handler_edit
  else if String.eqb command "rebuild" then Some Handler_rebuild
  else if String.eqb command "delete" then Some Handler_delete
  else None.

Definition truthy_name (s : string) : bool :=
  negb (String.eqb s EmptyString).

(** The tail of [parse_args], from [parsed.project_name] and the handler
    [parsed.command] names, if the parser has subcommands. *)
Definition dispatch (project_name : string) (command : option handler)
  : handler * option string :=
  let project := if truthy_name project_name then Some project_name else None in
  let handler :=
    if String.eqb project_name "list" then Handler_list_envs
    else if String.eqb project_name "completions" then Handler_completions
    else match command with
         | Some h => h
         | None => Handler_start
         end in
  (handler, project).

(** [parse_args] (lines 324-376).  With one argument the parser has the positional
    [project_name] only; otherwise it has the three subcommands, each with
    a positional [project_name].  Argument lists that argparse rejects end
    in [SystemExit].  A [--] separator after the subcommand is taken out
    of the values of the positional, and what follows it is no flag: with
    the separator and one other argument, that argument is the project.
    Lists with two separators or more are outside the modelled fragment
    (the releases of argparse differ on them). *)
Definition parse_args (args : list string) : result (handler * option string) :=
  match args with
  | [a] =>
      if taken_as_option a then Raise SystemExit
      else Ok (dispatch a None)
  | [] => Raise SystemExit
  | command :: rest =>
      if taken_as_option command then Raise SystemExit
      else match subcommand command with
           | None => Raise SystemExit
           | Some h =>
               match rest with
               | [name] =>
                   if taken_as_option name then Raise SystemExit
                   else Ok (dispatch name (Some h))
               | _ =>
                   match List.filter (String.eqb "--") rest with
                   | [] => Raise SystemExit
                   | [_] =>
                       match rest with
                       | [a; b] =>
                           if String.eqb a "--" then Ok (dispatch b (Some h))
                           else if taken_as_option a then Raise SystemExit
                           else Ok (dispatch a (Some h))
                       | _ => Raise SystemExit
                       end
                   | _ => Raise (NotModelled "--")
                   end
               end
           end
  end.

(** ** Vocabulary of the properties *)

Fixpoint count_char (c : ascii) (s : string) : nat :=
  match s with
  | EmptyString => 0%nat
  | String a rest => ((if Ascii.eqb a c then 1 else 0) + count_char c rest)%nat
  end.

(** A query to tmux that failed, or whose output does not start with an
    index. *)
Definition query_failure (e : exn) : Prop :=
  match e with
  | CalledProcessError _ | ValueError => True
  | _ => False
  end.

(** The tmux subcommand of an external command, if it is one given to
    tmux as an argument list: the first argument that is not a flag. *)
Definition tmux_subcommand (e : event) : option string :=
  match e with
  | Call (program :: args) =>
      if String.eqb program "tmux"
      then find (fun a => negb (String.prefix "-" a)) args
      else None
  | _ => None
  end.

(** What [start] gives to tmux: commands as argument lists, queries
    through the shell. *)
Definition tmux_event (e : event) : Prop :=
  match e with
  | Call (program :: _) => program = "tmux"
  | Call [] => False
  | CheckOutput _ => True
  end.

(** Commands that change a session. *)
Definition session_modifying (e : event) : bool :=
  match tmux_subcommand e with
  | Some sub =>
      existsb (String.eqb sub)
        ["new-session"; "new-window"; "kill-window"; "move-window";
         "set-option"; "set-environment"; "split-window"; "send-keys";
         "select-layout"; "select-pane"]
  | None => false
  end.

(** Commands that create a virtualenv. *)
Definition environment_creation (e : event) : bool :=
  match e with
  | Call (program :: _) => String.eqb program "virtualenv"
  | _ => false
  end.

Section Expected.

Variable E : host.

Definition virtualenv_command (config : config) (venv : virtualenv_section) : event :=
  Call ["virtualenv"; "-p"; default "/usr/bin/python" (python_binary venv);
        if default false (site_packages venv)
        then "--system-site-packages" else "--no-site-packages";
        virtualenv_dir E config venv].

(** The commands of [confirm_virtualenv config] on the filesystem [m],
    when nothing is to be deleted first. *)
Definition virtualenv_events (config : config) (m : gmap string node) : list event :=
  match virtualenv config with
  | None => []
  | Some venv =>
      match m !! virtualenv_dir E config venv with
      | Some _ => []
      | None => [virtualenv_command config venv]
      end
  end.

Definition has_session_command (config : config) : event :=
  Call ["tmux"; "has-session"; "-t"; session_name config].

Definition attach_command (config : config) : event :=
  Call ["tmux"; "-2"; "attach-session"; "-t"; session_name config].

(** The world [start] asks tmux about the session in, and the status tmux
    answers with. *)
Definition world_at_probe (config : config) (w : world) : world :=
  snd (confirm_virtualenv E config false w).

Definition has_session_status (config : config) (w : world) : Z :=
  let w1 := world_at_probe config w in
  snd (subprocess_call E (log w1)
         ["tmux"; "has-session"; "-t"; session_name config] (fs w1)).

Definition pane_commands (activate : option string) (window_target : string)
    (base_pindex : Z) (pindex : nat) (pane : string) : list event :=
  let pane_target := window_target +:+ "." +:+ str_of_Z (base_pindex + Z.of_nat pindex) in
  (if Nat.eqb pindex 0 then []
   else [Call ["tmux"; "split-window"; "-t"; window_target +:+ ".0"]])
  ++ match activate with
     | Some script =>
         [Call ["tmux"; "send-keys"; "-t"; pane_target; "source " +:+ script; "ENTER"]]
     | None => []
     end
  ++ (if truthy (Some pane)
      then [Call ["tmux"; "send-keys"; "-t"; pane_target; pane; "ENTER"]]
      else []).

Fixpoint panes_commands (activate : option string) (window_target : string)
    (base_pindex : Z) (pindex : nat) (panes : list string) : list event :=
  match panes with
  | [] => []
  | pane :: rest =>
      pane_commands activate window_target base_pindex pindex pane
      ++ panes_commands activate window_target base_pindex (S pindex) rest
  end.

Definition window_commands (session : string) (activate : option string)
    (base_index : Z) (index : nat) (window : window) (base_pindex : Z)
  : list event :=
  let target (i : Z) := session +:+ ":" +:+ str_of_Z i in
  let window_target := target (base_index + Z.of_nat index) in
  (if Nat.eqb index 0 then
     [Call ["tmux"; "new-window"; "-d"; "-t"; target (base_index + 1); "-n"; w_name window];
      Call ["tmux"; "kill-window"; "-t"; target base_index];
      Call ["tmux"; "move-window"; "-s"; target (base_index + 1); "-t"; target base_index]]
   else
     [Call ["tmux"; "new-window"; "-d"; "-t"; window_target; "-n"; w_name window]])
  ++ [CheckOutput ("tmux list-panes -t " +:+ window_target)]
  ++ panes_commands activate window_target base_pindex 0 (w_panes window)
  ++ (if truthy (w_layout window)
      then [Call ["tmux"; "select-layout"; "-t"; window_target;
                  default EmptyString (w_layout window)]]
      else [])
  ++ [Call ["tmux"; "select-pane"; "-t"; window_target +:+ "." +:+ str_of_Z base_pindex]].

(** The windows from position [index] on, each with the pane index tmux
    reported for it. *)
Fixpoint windows_commands (session : string) (activate : option string)
    (base_index : Z) (index : nat) (ws : list window) (base_pindexes : list Z)
  : list event :=
  match ws, base_pindexes with
  | window :: ws', base_pindex :: rest =>
      window_commands session activate base_index index window base_pindex
      ++ windows_commands session activate base_index (S index) ws' rest
  | _, _ => []
  end.

Definition set_environment_command (session : string) (kv : string * string) : event :=
  Call ["tmux"; "set-environment"; "-t"; session; kv.1; sub_environ E None kv.2].

(** Everything [start] runs for a session that does not exist yet, given
    the indexes tmux reports. *)
Definition session_commands (config : config) (base_index : Z)
    (base_pindexes : list Z) : list event :=
  let session := session_name config in
  [Call ["tmux"; "new-session"; "-d"; "-s"; session];
   Call ["tmux"; "set-option"; "-t"; session; "default-path";
         expandvars E (project_root config)];
   Call ["tmux"; "set-option"; "-t"; session; "status-left-length";
         str_of_Z (Z.of_nat (String.length session) + 2)]]
  ++ map (set_environment_command session) (environment config)
  ++ [CheckOutput ("tmux list-windows -t " +:+ session)]
  ++ windows_commands session (activate_path E config) base_index 0
       (windows config) base_pindexes
  ++ [attach_command config].

End Expected.

(** The dispatch of the command line as the specification words it: the
    single arguments [list] and [completions], the three subcommands with
    a project name, and every other single argument as a project to
    start. *)
Definition handler_of (r : result (handler * option string)) : result handler :=
  result_map fst r.

Definition dispatch_as_advertised : Prop :=
  handler_of (parse_args ["list"]) = Ok Handler_list_envs
  /\ handler_of (parse_args ["completions"]) = Ok Handler_completions
  /\ (forall name, handler_of (parse_args ["edit"; name]) = Ok Handler_edit)
  /\ (forall name, handler_of (parse_args ["rebuild"; name]) = Ok Handler_rebuild)
  /\ (forall name, handler_of (parse_args ["delete"; name]) = Ok Handler_delete)
  /\ (forall a, a <> "list" -> a <> "completions" ->
                parse_args [a] = Ok (Handler_start, Some a)).

(** A project name that argparse takes as a positional value, that is not
    empty, and that is neither of the two names [parse_args] tests first. *)
Definition plain_name (name : string) : Prop :=
  taken_as_option name = false /\ name <> EmptyString
  /\ name <> "list" /\ name <> "completions".

(** The number of virtualenv creations among some events. *)
Definition creations (t : list event) : nat :=
  length (List.filter environment_creation t).

(** ** A sample host

    A home directory with one project, [proj], whose configuration asks
    for a virtualenv that does not exist yet; tmux knows no session, and
    numbers windows and panes from one. *)
Definition sample_config : config :=
  {| session_name := "proj";
     virtualenv := Some {| python_binary := None;
                           site_packages := Some true;
                           venv_path := None |};
     project_root := "/home/u/src";
     environment := [("MYKEY", "my $USER value")];
     windows := [ {| w_name := "One"; w_layout := None; w_panes := ["ls -l"] |};
                  {| w_name := "Two"; w_layout := Some "main-vertical";
                     w_panes := ["ls"; ""; "top"] |} ] |}.

Definition sample_host (has_session : Z) : host :=
  {| home := "/home/u";
     environ := fun name => if String.eqb name "USER" then Some "me" else None;
     expandvars := fun s => s;
     yaml_load := fun text => if String.eqb text "proj" then Some sample_config else None;
     py_eval := fun line => Ok line;
     subprocess_call := fun _ argv m =>
       (m, if existsb (String.eqb "has-session") argv then has_session else 0);
     subprocess_check_output := fun _ _ m => (m, Some "1: zsh") |}.

Definition sample_fs : gmap string node :=
  list_to_map [("/home/u", Dir); ("/home/u/.tenper", Dir);
               ("/home/u/.tenper/proj.yml", File "proj");
               ("/home/u/.tenper/notes.txt", File "to do");
               ("/home/u/.virtualenvs", Dir)].

Definition sample_world (lines : list string) : world :=
  World sample_fs lines [] [].

(** The same world once the virtualenv of [proj] exists. *)
Definition sample_world_with_virtualenv (lines : list string) : world :=
  World (<["/home/u/.virtualenvs/proj" := Dir]>
           (<["/home/u/.virtualenvs/proj/bin" := Dir]> sample_fs))
        lines [] [].

(** C5 as the specification words it: when [delete] asks about an
    existing virtualenv and the answer is none of the four affirmatives,
    the filesystem is left as it was. *)
Definition delete_declined_changes_nothing : Prop :=
  forall (E : host) (env : string) (w : world) (resp : string) (rest : list string),
    is_Some (fs w !! path_join (virtualenvs E) env) ->
    stdin w = resp :: rest ->
    ~ In resp ["yes"; "YES"; "y"; "Y"] ->
    fs (snd (delete E env w)) = fs w.

(** The text of the template before and after its one replacement
    field. *)
Definition template_head : string := substring 0 89 config_template.
Definition template_tail : string := substring 94 888 config_template.

(** ** Reading the log of a computation

    [logs m P]: from any world, [m] adds some events [t] to the log, and
    [P] holds of its result and [t].  Three readings follow: [emits] for a
    computation that cannot fail, [may] for one that fails only when a
    query to tmux does, [only] for a bound on the events in every case. *)

Definition logs {A} (m : M A) (P : result A -> list event -> Prop) : Prop :=
  forall w, exists t, log (snd (m w)) = log w ++ t /\ P (fst (m w)) t.

Definition emits (m : M unit) (t : list event) : Prop :=
  logs m (fun r t' => r = Ok tt /\ t' = t).

Definition may {A} (m : M A) (P : A -> list event -> Prop) : Prop :=
  logs m (fun r t => match r with
                     | Ok a => P a t
                     | Raise e => query_failure e
                     end).

Definition only {A} (m : M A) (P : event -> Prop) : Prop :=
  logs m (fun _ t => Forall P t).

(** What [start] reads in the answer of tmux to the query [cmd], asked
    after the events [h] on the filesystem [m]: the integer before the
    first colon.  [CalledProcessError] when the query fails, [ValueError]
    when its output does not start with an integer. *)
Definition query_answer (E : host) (h : list event) (cmd : string)
    (m : gmap string node) : result Z :=
  match snd (subprocess_check_output E h cmd m) with
  | Some out => py_int (hd EmptyString (split_on ":" out))
  | None => Raise (CalledProcessError cmd)
  end.

(** [traced m P]: as [logs], for a property that also depends on the
    events logged before [m] runs. *)
Definition traced {A} (m : M A) (P : list event -> result A -> list event -> Prop)
  : Prop :=
  forall w, exists t, log (snd (m w)) = log w ++ t /\ P (log w) (fst (m w)) t.

(** The events [t], logged after [h], end with a query to tmux, and [e] is
    what reading the answer to it raised. *)
Definition stopped (E : host) (h t : list event) (e : exn) : Prop :=
  exists t0 cmd m,
    t = t0 ++ [CheckOutput cmd] /\ query_answer E (h ++ t0) cmd m = Raise e.

(** [follows E m P]: when [m] returns, [P] holds of its result and of the
    events it logged; when it raises, it stopped at a query, and the
    events up to there are the beginning of some list that [P] accepts. *)
Definition follows {A} (E : host) (m : M A) (P : A -> list event -> Prop) : Prop :=
  traced m (fun h r t =>
    match r with
    | Ok a => P a t
    | Raise e => stopped E h t e /\ exists a later, P a (t ++ later)
    end).

(** What [os.path.join] puts between a directory and a relative name. *)
Definition separator (a : string) : string :=
  if (String.eqb a EmptyString || ends_with "/" a)%bool then EmptyString else "/".


(** The filesystem after [delete], when the user declines. *)
Definition without_config (E : host) (m : gmap string node) (env : string)
  : gmap string node :=
  let m1 := base.delete (path_join (configs E) (env +:+ ".yml")) m in
  match m1 !! configs E with
  | Some Dir =>
      match dir_entries m1 (configs E) with
      | [] => base.delete (configs E) m1
      | _ :: _ => m1
      end
  | _ => m1
  end.


From Stdlib Require DecimalPos.

(** ** Vocabulary of the further properties *)

(** A field name that [str.format] looks up among the keyword arguments
    as it stands: not positional, without conversion, format spec,
    attribute or index, and free of closing braces and spaces. *)
Definition plain_field (name : string) : Prop :=
  string_forallb is_digit name = false
  /\ string_existsb special_field_char name = false
  /\ string_existsb (fun c => (Ascii.eqb c "}" || Ascii.eqb c " ")%bool) name = false.

Definition is_brace (c : ascii) : bool := (Ascii.eqb c "{" || Ascii.eqb c "}")%bool.

(** What [shutil.rmtree(d)] leaves of a filesystem. *)
Definition without_tree (d : string) (m : gmap string node) : gmap string node :=
  filter (fun kv => under d kv.1 = false) m.

(** What [edit] hands to the editor for a new environment: the
    filesystem with the configuration directory and the new file. *)
Definition prepared_for (E : host) (w : world) (env : string) : gmap string node :=
  <[path_join (configs E) (env +:+ ".yml") :=
      File (template_head +:+ env +:+ template_tail)]>
    (<[configs E := Dir]> (fs w)).

(** Whether a variable name of [sub_environ] stops before [rest]: at the
    end of the string, or at a character that no name has. *)
Definition name_ends (rest : string) : bool :=
  match rest with
  | EmptyString => true
  | String c _ => negb (is_name_char c)
  end.

(** The sample host with a tmux that fails every query. *)
Definition sample_host_tmux_silent : host :=
  {| home := "/home/u";
     environ := fun name => if String.eqb name "USER" then Some "me" else None;
     expandvars := fun s => s;
     yaml_load := fun text => if String.eqb text "proj" then Some sample_config else None;
     py_eval := fun line => Ok line;
     subprocess_call := fun _ argv m => (m, 1);
     subprocess_check_output := fun _ _ m => (m, None) |}.

(** The number of commands among some events that give tmux the
    subcommand [sub]. *)
Definition runs_tmux (sub : string) (e : event) : bool :=
  match tmux_subcommand e with
  | Some s => String.eqb s sub
  | None => false
  end.

Definition count_tmux (sub : string) (t : list event) : nat :=
  length (List.filter (runs_tmux sub) t).

(** The panes of the windows beyond the first of each. *)
Definition splits (ws : list window) : nat :=
  list_sum (map (fun window => pred (length (w_panes window))) ws).

(** The sample host with an editor named in the environment. *)
Definition sample_host_with_editor : host :=
  {| home := home (sample_host 1);
     environ := fun name => if String.eqb name "EDITOR" then Some "vim"
                            else environ (sample_host 1) name;
     expandvars := expandvars (sample_host 1);
     yaml_load := yaml_load (sample_host 1);
     py_eval := py_eval (sample_host 1);
     subprocess_call := subprocess_call (sample_host 1);
     subprocess_check_output := subprocess_check_output (sample_host 1) |}.

(** * Properties *)

(** ** Strings and command lines *)

Lemma append_empty_r (s : string) : s +:+ EmptyString = s.
Proof.
  induction s as [|c s IH]; [reflexivity |].
  change (String c (s +:+ EmptyString) = String c s). now rewrite IH.
Qed.

Lemma append_cons (c : ascii) (s t : string) :
  String c s +:+ t = String c (s +:+ t).
Proof. reflexivity. Qed.

Lemma append_length (s t : string) :
  String.length (s +:+ t) = (String.length s + String.length t)%nat.
Proof.
  induction s as [|c s IH]; [reflexivity |].
  rewrite append_cons. simpl. now rewrite IH.
Qed.

Lemma split_on_length (sep : ascii) (s : string) :
  length (split_on sep s) = S (count_char sep s).
Proof.
  induction s as [|c s IH]; [reflexivity |].
  simpl. destruct (Ascii.eqb c sep); simpl; [now rewrite IH |].
  destruct (split_on sep s); simpl in *; lia.
Qed.

Lemma map_result_Ok {A B} (f : A -> result B) (xs : list A) (ys : list B) :
  map_result f xs = Ok ys -> Forall2 (fun x y => f x = Ok y) xs ys.
Proof.
  revert ys. induction xs as [|x xs IH]; intros ys; simpl.
  - intros [= <-]. constructor.
  - destruct (f x) as [y|e] eqn:Hx; simpl; [|discriminate].
    destruct (map_result f xs) as [ys'|e]; simpl; [|discriminate].
    intros [= <-]. constructor; [assumption | now apply IH].
Qed.

Lemma map_result_Raise {A B} (f : A -> result B) (xs : list A) (e : exn) :
  map_result f xs = Raise e -> Exists (fun x => f x = Raise e) xs.
Proof.
  induction xs as [|x xs IH]; simpl; [discriminate |].
  destruct (f x) as [y|e'] eqn:Hx; simpl.
  - destruct (map_result f xs) as [ys'|e']; simpl; [discriminate |].
    intros [= <-]. apply Exists_cons_tl, IH. reflexivity.
  - intros [= <-]. now apply Exists_cons_hd.
Qed.

(** C9: [command_list] splits the template on single spaces and only then
    formats each segment.  When it returns, there is one argument per
    segment, each the formatted segment, so the number of arguments is one
    more than the number of spaces of the template, whatever the values
    substituted; when it raises, formatting one of the segments raised. *)
Theorem command_list_arguments (template : string) (kw : kwargs) :
  match command_list template kw with
  | Ok args =>
      Forall2 (fun part arg => format part kw = Ok arg) (split_on " " template) args
      /\ length args = S (count_char " " template)
  | Raise e =>
      Exists (fun part => format part kw = Raise e) (split_on " " template)
  end.
Proof.
  unfold command_list.
  destruct (map_result _ _) as [args|e] eqn:H.
  - apply map_result_Ok in H. split; [exact H |].
    rewrite <- (Forall2_length _ _ _ H). apply split_on_length.
  - now apply map_result_Raise in H.
Qed.

(** The examples of the docstring of [command_list]. *)
Example command_list_ls : command_list "ls" [] = Ok ["ls"].
Proof. reflexivity. Qed.

Example command_list_ls_root : command_list "ls /" [] = Ok ["ls"; "/"].
Proof. reflexivity. Qed.

Example command_list_echo :
  command_list "echo {message}" [("message", PStr "Hello, world.")]
  = Ok ["echo"; "Hello, world."].
Proof. reflexivity. Qed.

(** A value with spaces stays one argument, whatever it is. *)
Lemma command_list_value_whole (v : string) :
  command_list "echo {message}" [("message", PStr v)] = Ok ["echo"; v].
Proof. cbv -[append str_of_Z]. now rewrite append_empty_r. Qed.

Example str_of_Z_examples :
  (str_of_Z 0, str_of_Z 12, str_of_Z (-3)) = ("0", "12", "-3").
Proof. reflexivity. Qed.

Example split_on_examples :
  (split_on " " "", split_on " " "a  b", split_on ":" "1: zsh")
  = ([""], ["a"; ""; "b"], ["1"; " zsh"]).
Proof. reflexivity. Qed.

Example py_int_examples :
  map py_int ["12"; " -3 "; ""; "a"; "+7"; "1 2"]
  = [Ok 12; Ok (-3); Raise ValueError; Raise ValueError; Ok 7; Raise ValueError].
Proof. reflexivity. Qed.

Example path_examples :
  (path_join "/home/u" ".tenper", path_join "a" "/b", path_join "a/" "b",
   dirname "/home/u/.tenper", dirname "/a", dirname "a")
  = ("/home/u/.tenper", "/b", "a/b", "/home/u", "/", "").
Proof. reflexivity. Qed.

(** ** Command-line dispatch *)

Example parse_args_examples :
  map parse_args [["list"]; ["completions"]; ["my-project"]; ["edit"; "my-project"];
                  ["rebuild"; "my-project"]; ["delete"; "my-project"]; ["-1"];
                  ["--help"]; ["bogus"; "my-project"]; ["edit"]]
  = [Ok (Handler_list_envs, Some "list");
     Ok (Handler_completions, Some "completions");
     Ok (Handler_start, Some "my-project"); Ok (Handler_edit, Some "my-project");
     Ok (Handler_rebuild, Some "my-project"); Ok (Handler_delete, Some "my-project");
     Ok (Handler_start, Some "-1"); Raise SystemExit; Raise SystemExit;
     Ok (Handler_start, Some "edit")].
Proof. reflexivity. Qed.

(** The separator: argparse takes it out, and what follows it is a
    positional value whatever it looks like. *)
Example parse_args_separator :
  map parse_args [["edit"; "--"; "x"]; ["edit"; "x"; "--"]; ["edit"; "--"; "-h"];
                  ["edit"; "--"; "x"; "y"]; ["edit"; "--"]; ["--"; "edit"; "x"]]
  = [Ok (Handler_edit, Some "x"); Ok (Handler_edit, Some "x");
     Ok (Handler_edit, Some "-h"); Raise SystemExit; Raise SystemExit;
     Raise SystemExit].
Proof. reflexivity. Qed.

(** Positional fields under keyword arguments only. *)
Example format_positional :
  map (fun s => format s [("a", PStr "x")])
      ["{}"; "{0}"; "{9223372036854775807}"; "{9223372036854775808}"; "{0abc}"]
  = [Raise IndexError; Raise IndexError; Raise IndexError; Raise ValueError;
     Raise (KeyError "0abc")].
Proof. vm_compute. reflexivity. Qed.

(** C8, as stated, fails: a help flag ends the process instead of
    starting a project of that name, an empty argument gives no project
    name, and a project called [list] sends a subcommand to the listing
    handler. *)
Lemma parse_args_departures :
  parse_args ["-h"] = Raise SystemExit
  /\ parse_args [""] = Ok (Handler_start, None)
  /\ parse_args ["delete"; "list"] = Ok (Handler_list_envs, Some "list")
  /\ ~ dispatch_as_advertised.
Proof.
  repeat split; try reflexivity.
  intros (_ & _ & _ & _ & _ & H).
  assert (Hstart : parse_args ["-h"] = Ok (Handler_start, Some "-h"))
    by (apply H; discriminate).
  discriminate Hstart.
Qed.

Lemma string_eqb_false (a b : string) : a <> b -> String.eqb a b = false.
Proof. intros H. now apply String.eqb_neq. Qed.

Lemma dispatch_plain (name : string) (command : option handler) :
  plain_name name ->
  dispatch name command
  = (match command with Some h => h | None => Handler_start end, Some name).
Proof.
  intros (_ & Hne & Hl & Hc). unfold dispatch, truthy_name.
  now rewrite !string_eqb_false.
Qed.

(** C8, amended: [list] and [completions] alone go to their handlers; a
    subcommand with a plain project name goes to the subcommand's handler
    with that name; any plain single argument is a project to start. *)
Theorem parse_args_dispatch :
  parse_args ["list"] = Ok (Handler_list_envs, Some "list")
  /\ parse_args ["completions"] = Ok (Handler_completions, Some "completions")
  /\ (forall name, plain_name name ->
        parse_args ["edit"; name] = Ok (Handler_edit, Some name)
        /\ parse_args ["rebuild"; name] = Ok (Handler_rebuild, Some name)
        /\ parse_args ["delete"; name] = Ok (Handler_delete, Some name))
  /\ (forall a, plain_name a -> parse_args [a] = Ok (Handler_start, Some a)).
Proof.
  split; [reflexivity |]. split; [reflexivity |]. split.
  - intros name H. pose proof H as (Hopt & _).
    cbn. rewrite Hopt, !(dispatch_plain _ _ H). auto.
  - intros a H. pose proof H as (Hopt & _).
    cbn. now rewrite Hopt, (dispatch_plain _ _ H).
Qed.

(** ** Command templates

    The argument list of each template of the program, for any values. *)

Ltac template := cbv -[append str_of_Z]; rewrite ?append_empty_r; reflexivity.

Lemma cl_virtualenv (python site dir : string) :
  command_list "virtualenv -p {python_binary} {site_packages} {dir}"
    [("python_binary", PStr python); ("site_packages", PStr site); ("dir", PStr dir)]
  = Ok ["virtualenv"; "-p"; python; site; dir].
Proof. template. Qed.

Lemma cl_editor (editor : pyval) (file : string) :
  command_list "{editor} {file}" [("editor", editor); ("file", PStr file)]
  = Ok [py_str editor; file].
Proof. destruct editor; template. Qed.

Lemma cl_has_session (session : string) :
  command_list "tmux has-session -t {session}" [("session", PStr session)]
  = Ok ["tmux"; "has-session"; "-t"; session].
Proof. template. Qed.

Lemma cl_attach_session (session : string) :
  command_list "tmux -2 attach-session -t {session}" [("session", PStr session)]
  = Ok ["tmux"; "-2"; "attach-session"; "-t"; session].
Proof. template. Qed.

Lemma cl_new_session (session : string) :
  command_list "tmux new-session -d -s {session}" [("session", PStr session)]
  = Ok ["tmux"; "new-session"; "-d"; "-s"; session].
Proof. template. Qed.

Lemma cl_default_path (session path : string) :
  command_list "tmux set-option -t {session} default-path {path}"
    [("session", PStr session); ("path", PStr path)]
  = Ok ["tmux"; "set-option"; "-t"; session; "default-path"; path].
Proof. template. Qed.

Lemma cl_status_left_length (session : string) (length : Z) :
  command_list "tmux set-option -t {session} status-left-length {length}"
    [("session", PStr session); ("length", PInt length)]
  = Ok ["tmux"; "set-option"; "-t"; session; "status-left-length"; str_of_Z length].
Proof. template. Qed.

Lemma cl_set_environment (session key value : string) :
  command_list "tmux set-environment -t {session} {key} {value}"
    [("session", PStr session); ("key", PStr key); ("value", PStr value)]
  = Ok ["tmux"; "set-environment"; "-t"; session; key; value].
Proof. template. Qed.

Lemma cl_new_window_temp (target name : string) :
  command_list "tmux new-window -d -t {temp_target} -n {name}"
    [("temp_target", PStr target); ("name", PStr name)]
  = Ok ["tmux"; "new-window"; "-d"; "-t"; target; "-n"; name].
Proof. template. Qed.

Lemma cl_new_window (target name : string) :
  command_list "tmux new-window -d -t {window_target} -n {name}"
    [("window_target", PStr target); ("name", PStr name)]
  = Ok ["tmux"; "new-window"; "-d"; "-t"; target; "-n"; name].
Proof. template. Qed.

Lemma cl_kill_window (target : string) :
  command_list "tmux kill-window -t {base_target}" [("base_target", PStr target)]
  = Ok ["tmux"; "kill-window"; "-t"; target].
Proof. template. Qed.

Lemma cl_move_window (temp base : string) :
  command_list "tmux move-window -s {temp_target} -t {base_target}"
    [("temp_target", PStr temp); ("base_target", PStr base)]
  = Ok ["tmux"; "move-window"; "-s"; temp; "-t"; base].
Proof. template. Qed.

Lemma cl_split_window (target : string) :
  command_list "tmux split-window -t {window_target}.0" [("window_target", PStr target)]
  = Ok ["tmux"; "split-window"; "-t"; target +:+ ".0"].
Proof. template. Qed.

Lemma cl_send_keys (target command : string) :
  command_list "tmux send-keys -t {pane_target} {command} ENTER"
    [("pane_target", PStr target); ("command", PStr command)]
  = Ok ["tmux"; "send-keys"; "-t"; target; command; "ENTER"].
Proof. template. Qed.

Lemma cl_select_layout (target layout : string) :
  command_list "tmux select-layout -t {window_target} {layout}"
    [("window_target", PStr target); ("layout", PStr layout)]
  = Ok ["tmux"; "select-layout"; "-t"; target; layout].
Proof. template. Qed.

Lemma cl_select_pane (target : string) (base_pindex : Z) :
  command_list "tmux select-pane -t {window_target}.{base_pindex}"
    [("window_target", PStr target); ("base_pindex", PInt base_pindex)]
  = Ok ["tmux"; "select-pane"; "-t"; target +:+ "." +:+ str_of_Z base_pindex].
Proof. template. Qed.

Lemma format_list_windows (session : string) :
  format "tmux list-windows -t {session}" [("session", PStr session)]
  = Ok ("tmux list-windows -t " +:+ session).
Proof. template. Qed.

Lemma format_list_panes (target : string) :
  format "tmux list-panes -t {window_target}" [("window_target", PStr target)]
  = Ok ("tmux list-panes -t " +:+ target).
Proof. template. Qed.


(** ** The log of a computation *)

Lemma logs_weaken {A} (m : M A) (P Q : result A -> list event -> Prop) :
  logs m P -> (forall r t, P r t -> Q r t) -> logs m Q.
Proof. intros H HPQ w. destruct (H w) as (t & Hlog & HP). eauto. Qed.

Lemma logs_bind {A B} (m : M A) (k : A -> M B) P Q
    (R : result B -> list event -> Prop) :
  logs m P -> (forall a, logs (k a) (Q a)) ->
  (forall a t1 r t2, P (Ok a) t1 -> Q a r t2 -> R r (t1 ++ t2)) ->
  (forall e t, P (Raise e) t -> R (Raise e) t) ->
  logs (bind m k) R.
Proof.
  intros Hm Hk Hok Herr w. unfold bind.
  destruct (Hm w) as (t1 & Hlog1 & HP).
  destruct (m w) as [[a|e] w1]; simpl in *.
  - destruct (Hk a w1) as (t2 & Hlog2 & HQ).
    exists (t1 ++ t2). split; [| eauto].
    rewrite Hlog2, Hlog1. now rewrite app_assoc.
  - exists t1. eauto.
Qed.

Lemma emits_ret : emits (ret tt) [].
Proof. intros w. exists []. simpl. now rewrite app_nil_r. Qed.

Lemma emits_seq (m k : M unit) (t1 t2 : list event) :
  emits m t1 -> emits k t2 -> emits (m ;; k) (t1 ++ t2).
Proof.
  intros Hm Hk.
  eapply (logs_bind _ _ _ (fun _ r t => r = Ok tt /\ t = t2));
    [exact Hm | intros ?; exact Hk | |].
  - intros a u1 r u2 [_ H1] [H2 H3]. now rewrite H1, H2, H3.
  - intros e t [[=] _].
Qed.

Lemma emits_when (b : bool) (m : M unit) (t : list event) :
  emits m t -> emits (when b m) (if b then t else []).
Proof. destruct b; [auto | intros _; apply emits_ret]. Qed.

Lemma may_ret {A} (a : A) : may (ret a) (fun a' t => a' = a /\ t = []).
Proof. intros w. exists []. simpl. now rewrite app_nil_r. Qed.

Lemma may_lift {A} (r : result A) :
  match r with Ok _ => True | Raise e => query_failure e end ->
  may (lift r) (fun a t => r = Ok a /\ t = []).
Proof.
  intros H w. exists []. simpl. rewrite app_nil_r. split; [reflexivity |].
  destruct r; auto.
Qed.

Lemma may_bind {A B} (m : M A) (k : A -> M B) P Q :
  may m P -> (forall a, may (k a) (Q a)) ->
  may (bind m k)
      (fun b t => exists a t1 t2, t = t1 ++ t2 /\ P a t1 /\ Q a b t2).
Proof.
  intros Hm Hk.
  eapply (logs_bind _ _ _
            (fun a r t => match r with
                          | Ok b => Q a b t
                          | Raise e => query_failure e
                          end));
    [exact Hm | exact Hk | |].
  - intros a t1 [b|e] t2 HP HQ; [eauto 6 | exact HQ].
  - auto.
Qed.

Lemma may_weaken {A} (m : M A) (P Q : A -> list event -> Prop) :
  may m P -> (forall a t, P a t -> Q a t) -> may m Q.
Proof.
  intros H HPQ. eapply logs_weaken; [exact H |].
  intros [a|e] t; auto.
Qed.

Lemma emits_may (m : M unit) (t : list event) :
  emits m t -> may m (fun _ t' => t' = t).
Proof.
  intros H. eapply logs_weaken; [exact H |]. now intros r t' [-> ->].
Qed.

Lemma only_ret {A} (a : A) (P : event -> Prop) : only (ret a) P.
Proof. intros w. exists []. simpl. rewrite app_nil_r. auto. Qed.

Lemma only_lift {A} (r : result A) (P : event -> Prop) : only (lift r) P.
Proof. intros w. exists []. simpl. rewrite app_nil_r. auto. Qed.

Lemma only_bind {A B} (m : M A) (k : A -> M B) (P : event -> Prop) :
  only m P -> (forall a, only (k a) P) -> only (bind m k) P.
Proof.
  intros Hm Hk.
  eapply (logs_bind _ _ _ (fun _ _ t => Forall P t)); [exact Hm | exact Hk | |].
  - intros a t1 r t2 H1 H2. apply Forall_app; auto.
  - auto.
Qed.

Lemma only_when (b : bool) (m : M unit) (P : event -> Prop) :
  only m P -> only (when b m) P.
Proof. destruct b; [auto | intros _; apply only_ret]. Qed.

Lemma emits_only (m : M unit) (t : list event) (P : event -> Prop) :
  emits m t -> Forall P t -> only m P.
Proof.
  intros H HP. eapply logs_weaken; [exact H |]. now intros r t' [_ ->].
Qed.

Lemma only_for_each {A} (body : A -> M unit) (xs : list A) (P : event -> Prop) :
  (forall x, only (body x) P) -> only (for_each body xs) P.
Proof.
  intros H. induction xs as [|x xs IH]; simpl.
  - apply only_ret.
  - apply only_bind; auto.
Qed.

Lemma only_for_enumerate {A} (body : nat -> A -> M unit) (i : nat) (xs : list A)
    (P : event -> Prop) :
  (forall i x, only (body i x) P) -> only (for_enumerate body i xs) P.
Proof.
  intros H. revert i. induction xs as [|x xs IH]; intros i; simpl.
  - apply only_ret.
  - apply only_bind; auto.
Qed.

Section Commands.

Variable E : host.

Lemma call_log (argv : list string) :
  logs (call E argv) (fun r t => (exists status, r = Ok status) /\ t = [Call argv]).
Proof.
  intros w. exists [Call argv]. unfold call.
  destruct (subprocess_call E (log w) argv (fs w)) as [m status]. simpl. eauto.
Qed.

Lemma run_log (cmd : string) (kw : kwargs) (argv : list string) :
  command_list cmd kw = Ok argv ->
  logs (run E cmd kw) (fun r t => (exists status, r = Ok status) /\ t = [Call argv]).
Proof.
  intros H w. unfold run, bind, lift. rewrite H. apply call_log.
Qed.

(** A command run for its effect alone. *)
Lemma emits_run (cmd : string) (kw : kwargs) (argv : list string)
    (k : M unit) (t : list event) :
  command_list cmd kw = Ok argv -> emits k t ->
  emits (_ <- run E cmd kw ;; k) (Call argv :: t).
Proof.
  intros H Hk.
  eapply (logs_bind _ _ _ (fun _ r t' => r = Ok tt /\ t' = t));
    [apply (run_log _ _ _ H) | intros ?; exact Hk | |].
  - intros a t1 r t2 [_ H1] [H2 H3]. now rewrite H1, H2, H3.
  - intros e t' [[status [=]] _].
Qed.

Lemma may_seq {A} (m : M unit) (k : M A) (t1 : list event) P :
  emits m t1 -> may k P ->
  may (m ;; k) (fun a t => exists t2, t = t1 ++ t2 /\ P a t2).
Proof.
  intros Hm Hk. eapply may_weaken.
  - apply (may_bind _ _ (fun _ t => t = t1) (fun _ => P));
      [apply emits_may, Hm | intros ?; exact Hk].
  - intros a t (u & u1 & u2 & Ht & H1 & H2). exists u2. now rewrite Ht, H1.
Qed.

Lemma may_run {A} (cmd : string) (kw : kwargs) (argv : list string) (k : M A) P :
  command_list cmd kw = Ok argv -> may k P ->
  may (_ <- run E cmd kw ;; k) (fun a t => exists t2, t = Call argv :: t2 /\ P a t2).
Proof.
  intros H Hk. eapply may_weaken.
  - apply (may_bind _ _ (fun _ t => t = [Call argv]) (fun _ => P));
      [| intros ?; exact Hk].
    eapply logs_weaken; [apply (run_log _ _ _ H) |].
    intros [status|e] t [[st Hst] Ht]; [exact Ht | discriminate Hst].
  - intros a t (u & u1 & u2 & Ht & H1 & H2). exists u2. now rewrite Ht, H1.
Qed.

Lemma run_eq (cmd : string) (kw : kwargs) (argv : list string) (w : world) :
  command_list cmd kw = Ok argv -> run E cmd kw w = call E argv w.
Proof. intros H. unfold run, bind, lift. now rewrite H. Qed.

Lemma only_run (cmd : string) (kw : kwargs) (argv : list string) (P : event -> Prop) :
  command_list cmd kw = Ok argv -> P (Call argv) -> only (run E cmd kw) P.
Proof.
  intros H HP. eapply logs_weaken; [apply (run_log _ _ _ H) |].
  intros r t [_ ->]. auto.
Qed.

Lemma check_output_log (cmd : string) :
  logs (check_output E cmd)
       (fun r t => t = [CheckOutput cmd]
                   /\ match r with Ok _ => True | Raise e => query_failure e end).
Proof.
  intros w. exists [CheckOutput cmd]. unfold check_output.
  destruct (subprocess_check_output E (log w) cmd (fs w)) as [m [out|]];
    simpl; auto.
Qed.

Lemma py_int_failure (s : string) :
  match py_int s with Ok _ => True | Raise e => query_failure e end.
Proof.
  unfold py_int.
  assert (H : forall d,
             match (match d with
                    | EmptyString => Raise ValueError
                    | String _ _ => if string_forallb is_digit d
                                    then Ok (digits_value 0 d) else Raise ValueError
                    end) with
             | Ok _ => True
             | Raise e => query_failure e
             end).
  { intros [|c d]; simpl; [exact I |]. destruct (_ && _)%bool; exact I. }
  destruct (strip s) as [|c d] eqn:Hs; [exact I |].
  destruct (Ascii.eqb_spec c "-") as [-> | Hm].
  - specialize (H d). destruct d as [|c' d']; [exact I |].
    destruct (string_forallb is_digit (String c' d')); exact I.
  - destruct (Ascii.eqb_spec c "+") as [-> | Hp]; [apply H |].
    specialize (H (String c d)).
    destruct c as [[] [] [] [] [] [] [] []]; try exact H; congruence.
Qed.

Lemma may_first_index (cmd : string) :
  may (first_index E cmd) (fun _ t => t = [CheckOutput cmd]).
Proof.
  unfold first_index.
  eapply may_weaken.
  - apply (may_bind _ _ (fun _ t => t = [CheckOutput cmd]) (fun _ _ t => t = [])).
    + eapply logs_weaken; [apply check_output_log |].
      intros [out|e] t [Ht H]; [exact Ht | exact H].
    + intros out. eapply may_weaken; [apply may_lift, py_int_failure |].
      now intros n t [_ Ht].
  - intros n t (out & t1 & t2 & Ht & H1 & H2). now rewrite Ht, H1, H2.
Qed.

Lemma only_first_index (cmd : string) (P : event -> Prop) :
  P (CheckOutput cmd) -> only (first_index E cmd) P.
Proof.
  intros HP. unfold first_index. apply only_bind.
  - eapply logs_weaken; [apply check_output_log |].
    intros r t [-> _]. auto.
  - intros out. apply only_lift.
Qed.

End Commands.

(** ** The commands of [start] *)

Section Start.

Variable E : host.

Create HintDb templates.
Hint Resolve cl_virtualenv cl_has_session cl_attach_session cl_new_session
  cl_default_path cl_status_left_length cl_set_environment cl_new_window_temp
  cl_new_window cl_kill_window cl_move_window cl_split_window cl_send_keys
  cl_select_layout cl_select_pane : templates.

Ltac template_of := solve [eauto with templates nocore].
Ltac emit_run := eapply emits_run; [template_of |].

Lemma emits_start_pane activate window_target base_pindex pindex pane :
  emits (start_pane E activate window_target base_pindex pindex pane)
        (pane_commands activate window_target base_pindex pindex pane).
Proof.
  unfold start_pane, pane_commands.
  apply emits_seq; [| apply emits_seq].
  - destruct (Nat.eqb pindex 0); simpl; [apply emits_ret |].
    emit_run. apply emits_ret.
  - destruct activate; [| apply emits_ret].
    emit_run. apply emits_ret.
  - destruct (truthy (Some pane)); simpl; [| apply emits_ret].
    emit_run. apply emits_ret.
Qed.

Lemma emits_panes activate window_target base_pindex pindex panes :
  emits (for_enumerate (start_pane E activate window_target base_pindex) pindex panes)
        (panes_commands activate window_target base_pindex pindex panes).
Proof.
  revert pindex. induction panes as [|pane panes IH]; intros pindex; simpl.
  - apply emits_ret.
  - apply emits_seq; [apply emits_start_pane | apply IH].
Qed.

Lemma logs_lift_Ok {A B} (a : A) (k : A -> M B) P :
  logs (k a) P -> logs (bind (lift (Ok a)) k) P.
Proof. intros H. exact H. Qed.

(** *** Where [start] can stop *)

Lemma stopped_app (h t1 t2 : list event) (e : exn) :
  stopped E (h ++ t1) t2 e -> stopped E h (t1 ++ t2) e.
Proof.
  intros (t0 & cmd & m & -> & H). exists (t1 ++ t0), cmd, m.
  rewrite <- !app_assoc in *. auto.
Qed.

Lemma stopped_failure (h t : list event) (e : exn) :
  stopped E h t e -> query_failure e.
Proof.
  intros (t0 & cmd & m & _ & H). unfold query_answer in H.
  destruct (snd (subprocess_check_output E (h ++ t0) cmd m)) as [out|].
  - pose proof (py_int_failure (hd EmptyString (split_on ":" out))) as Hint.
    now rewrite H in Hint.
  - injection H as <-. exact I.
Qed.

Lemma follows_may {A} (m : M A) (P : A -> list event -> Prop) :
  follows E m P -> may m P.
Proof.
  intros H w. destruct (H w) as (t & Hlog & HP). exists t. split; [exact Hlog |].
  destruct (fst (m w)) as [a|e]; [exact HP |].
  destruct HP as [Hs _]. exact (stopped_failure _ _ _ Hs).
Qed.

Lemma follows_weaken {A} (m : M A) (P Q : A -> list event -> Prop) :
  follows E m P -> (forall a t, P a t -> Q a t) -> follows E m Q.
Proof.
  intros H HPQ w. destruct (H w) as (t & Hlog & HP). exists t. split; [exact Hlog |].
  destruct (fst (m w)) as [a|e]; [auto |].
  destruct HP as [Hs (a & later & HP)]. eauto 6.
Qed.

Lemma emits_follows (m : M unit) (t : list event) :
  emits m t -> follows E m (fun _ t' => t' = t).
Proof.
  intros H w. destruct (H w) as (t' & Hlog & Hr & Ht). exists t'.
  split; [exact Hlog |]. now rewrite Hr.
Qed.

(** After a computation that cannot fail. *)
Lemma follows_after {A B} (m : M A) (k : A -> M B) (t1 : list event) P :
  logs m (fun r t => (exists a, r = Ok a) /\ t = t1) ->
  (forall a, follows E (k a) P) ->
  follows E (bind m k) (fun b t => exists t2, t = t1 ++ t2 /\ P b t2).
Proof.
  intros Hm Hk w. unfold bind. destruct (Hm w) as (t & Hlog & [a Hr] & ->).
  destruct (m w) as [r w1]. simpl in *. subst r.
  destruct (Hk a w1) as (t2 & Hlog2 & H). exists (t1 ++ t2). split.
  - rewrite Hlog2, Hlog. now rewrite app_assoc.
  - destruct (fst (k a w1)) as [b|e]; [eauto |].
    destruct H as [Hs (b & later & HP)]. split.
    + apply stopped_app. now rewrite <- Hlog.
    + exists b, later, (t2 ++ later). now rewrite app_assoc.
Qed.

Lemma follows_seq {A} (m : M unit) (k : M A) (t1 : list event) P :
  emits m t1 -> follows E k P ->
  follows E (m ;; k) (fun a t => exists t2, t = t1 ++ t2 /\ P a t2).
Proof.
  intros Hm Hk. apply follows_after; [| intros _; exact Hk].
  eapply logs_weaken; [exact Hm |]. intros r t [-> ->]. eauto.
Qed.

Lemma follows_run {A} (cmd : string) (kw : kwargs) (argv : list string) (k : M A) P :
  command_list cmd kw = Ok argv -> follows E k P ->
  follows E (_ <- run E cmd kw ;; k)
    (fun a t => exists t2, t = Call argv :: t2 /\ P a t2).
Proof.
  intros H Hk.
  apply (follows_after (run E cmd kw) (fun _ => k) [Call argv]);
    [apply (run_log _ _ _ _ H) | intros _; exact Hk].
Qed.

Lemma follows_bind {A B} (m : M A) (k : A -> M B) P Q :
  follows E m P -> (forall a, follows E (k a) (Q a)) ->
  (forall a, exists b t, Q a b t) ->
  follows E (bind m k)
    (fun b t => exists a t1 t2, t = t1 ++ t2 /\ P a t1 /\ Q a b t2).
Proof.
  intros Hm Hk Hin w. unfold bind. destruct (Hm w) as (t1 & Hlog1 & HP).
  destruct (m w) as [[a|e] w1]; simpl in *.
  - destruct (Hk a w1) as (t2 & Hlog2 & HQ). exists (t1 ++ t2). split.
    + rewrite Hlog2, Hlog1. now rewrite app_assoc.
    + destruct (fst (k a w1)) as [b|e]; [eauto 6 |].
      destruct HQ as [Hs (b & later & HQ)]. split.
      * apply stopped_app. now rewrite <- Hlog1.
      * exists b, later, a, t1, (t2 ++ later). now rewrite app_assoc.
  - exists t1. split; [exact Hlog1 |].
    destruct HP as [Hs (a & later & HP)]. split; [exact Hs |].
    destruct (Hin a) as (b & t2 & HQ).
    exists b, (later ++ t2), a, (t1 ++ later), t2. now rewrite app_assoc.
Qed.

Lemma follows_lift_Ok {A B} (a : A) (k : A -> M B) P :
  follows E (k a) P -> follows E (bind (lift (Ok a)) k) P.
Proof. intros H. exact H. Qed.

(** A query stops [start] exactly when reading its answer fails. *)
Lemma follows_first_index (cmd : string) :
  follows E (first_index E cmd) (fun _ t => t = [CheckOutput cmd]).
Proof.
  intros w. exists [CheckOutput cmd].
  assert (Hanswer : fst (first_index E cmd w) = query_answer E (log w) cmd (fs w)
                    /\ log (snd (first_index E cmd w)) = log w ++ [CheckOutput cmd]).
  { unfold first_index, bind, check_output, lift, query_answer.
    destruct (subprocess_check_output E (log w) cmd (fs w)) as [m [out|]]; simpl;
      [| auto].
    destruct (py_int _); auto. }
  destruct Hanswer as [Hr Hlog]. split; [exact Hlog |].
  destruct (fst (first_index E cmd w)) as [n|e]; [reflexivity |]. split.
  - exists [], cmd, (fs w). now rewrite app_nil_r.
  - exists 0, []. reflexivity.
Qed.

Lemma follows_start_window session activate base_index index window :
  follows E (start_window E session activate base_index index window)
    (fun _ t => exists base_pindex,
       t = window_commands session activate base_index index window base_pindex).
Proof.
  unfold start_window. simpl join.
  set (target := fun i : Z => session +:+ ":" +:+ str_of_Z i).
  set (window_target := session +:+ ":" +:+ str_of_Z (base_index + Z.of_nat index)).
  set (created := if Nat.eqb index 0
                  then [Call ["tmux"; "new-window"; "-d"; "-t";
                              target (base_index + 1); "-n"; w_name window];
                        Call ["tmux"; "kill-window"; "-t"; target base_index];
                        Call ["tmux"; "move-window"; "-s";
                              target (base_index + 1); "-t"; target base_index]]
                  else [Call ["tmux"; "new-window"; "-d"; "-t"; window_target;
                              "-n"; w_name window]]).
  set (inside := fun base_pindex : Z =>
         panes_commands activate window_target base_pindex 0 (w_panes window)
         ++ (if truthy (w_layout window)
             then [Call ["tmux"; "select-layout"; "-t"; window_target;
                         default EmptyString (w_layout window)]]
             else [])
         ++ [Call ["tmux"; "select-pane"; "-t";
                   window_target +:+ "." +:+ str_of_Z base_pindex]]).
  eapply follows_weaken.
  - apply (follows_seq _ _ created
             (fun _ t => exists base_pindex,
                t = [CheckOutput ("tmux list-panes -t " +:+ window_target)]
                    ++ inside base_pindex)).
    + unfold created. destruct (Nat.eqb index 0).
      * emit_run. emit_run. emit_run. apply emits_ret.
      * emit_run. apply emits_ret.
    + rewrite format_list_panes. apply follows_lift_Ok.
      eapply follows_weaken.
      * apply (follows_bind _ _
                 (fun _ t => t = [CheckOutput ("tmux list-panes -t " +:+ window_target)])
                 (fun base_pindex _ t => t = inside base_pindex)).
        -- apply follows_first_index.
        -- intros base_pindex. apply emits_follows. unfold inside.
           apply emits_seq; [apply emits_panes | apply emits_seq].
           ++ destruct (truthy (w_layout window)); simpl; [| apply emits_ret].
              emit_run. apply emits_ret.
           ++ emit_run. apply emits_ret.
        -- intros base_pindex. exists tt, (inside base_pindex). reflexivity.
      * intros [] t (base_pindex & t1 & t2 & Ht & H1 & H2).
        exists base_pindex. now rewrite Ht, H1, H2.
  - intros [] t (t2 & Ht & base_pindex & H2).
    exists base_pindex. rewrite Ht, H2. unfold window_commands, created, inside.
    fold target. fold window_target. now destruct (Nat.eqb index 0).
Qed.

Lemma follows_windows session activate base_index index ws :
  follows E (for_enumerate (start_window E session activate base_index) index ws)
    (fun _ t => exists base_pindexes,
       length base_pindexes = length ws
       /\ t = windows_commands session activate base_index index ws base_pindexes).
Proof.
  revert index. induction ws as [|window ws IH]; intros index; simpl.
  - eapply follows_weaken; [apply emits_follows, emits_ret |].
    intros [] t Ht. exists []. now rewrite Ht.
  - eapply follows_weaken.
    + apply (follows_bind _ _ _ _ (follows_start_window _ _ _ _ _)
               (fun _ => IH (S index))).
      intros _. exists tt. eexists. exists (replicate (length ws) 0).
      split; [apply length_replicate | reflexivity].
    + intros [] t ([] & t1 & t2 & Ht & (base_pindex & H1) & (rest & Hlen & H2)).
      exists (base_pindex :: rest). simpl. split; [now rewrite Hlen |].
      now rewrite Ht, H1, H2.
Qed.

Lemma emits_set_environment session (vars : list (string * string)) :
  emits (for_each (fun kv =>
           let v := sub_environ E None kv.2 in
           _ <- run E "tmux set-environment -t {session} {key} {value}"
                  [("session", PStr session); ("key", PStr kv.1); ("value", PStr v)] ;;
           ret tt) vars)
        (map (set_environment_command E session) vars).
Proof.
  induction vars as [|kv vars IH]; simpl.
  - apply emits_ret.
  - apply (emits_seq _ _ [_] _); [| exact IH].
    emit_run. apply emits_ret.
Qed.

Lemma follows_start_session (config : config) :
  follows E (start_session E config)
    (fun _ t => exists base_index base_pindexes,
       length base_pindexes = length (windows config)
       /\ t = session_commands E config base_index base_pindexes).
Proof.
  unfold start_session, session_commands.
  set (session := session_name config).
  eapply follows_weaken.
  - eapply follows_run; [template_of |].
    eapply follows_run; [template_of |].
    eapply follows_run; [template_of |].
    eapply follows_seq; [apply emits_set_environment |].
    rewrite format_list_windows. apply follows_lift_Ok.
    apply (follows_bind _ _ _
             (fun base_index _ t => exists base_pindexes,
                length base_pindexes = length (windows config)
                /\ t = windows_commands session (activate_path E config) base_index 0
                         (windows config) base_pindexes
                       ++ [attach_command config])
             (follows_first_index _)).
    + intros base_index. eapply follows_weaken.
      * eapply follows_bind; [apply follows_windows | |].
        -- intros ?. apply emits_follows. emit_run. apply emits_ret.
        -- intros ?. exists tt. eexists. reflexivity.
      * intros [] t ([] & t1 & t2 & Ht & (base_pindexes & Hlen & H1) & H2).
        exists base_pindexes. split; [exact Hlen |]. now rewrite Ht, H1, H2.
    + intros base_index. exists tt. eexists.
      exists (replicate (length (windows config)) 0).
      split; [apply length_replicate | reflexivity].
  - intros [] t (t1 & Ht1 & t2 & Ht2 & t3 & Ht3 & t4 & Ht4 & H).
    destruct H as (base_index & u1 & u2 & Hu & H1 & base_pindexes & Hlen & H2).
    exists base_index, base_pindexes. split; [exact Hlen |].
    rewrite Ht1, Ht2, Ht3, Ht4, Hu, H1, H2. reflexivity.
Qed.

Lemma may_start_window session activate base_index index window :
  may (start_window E session activate base_index index window)
      (fun _ t => exists base_pindex,
         t = window_commands session activate base_index index window base_pindex).
Proof. apply follows_may, follows_start_window. Qed.

Lemma may_windows session activate base_index index ws :
  may (for_enumerate (start_window E session activate base_index) index ws)
      (fun _ t => exists base_pindexes,
         length base_pindexes = length ws
         /\ t = windows_commands session activate base_index index ws base_pindexes).
Proof. apply follows_may, follows_windows. Qed.

Lemma may_start_session (config : config) :
  may (start_session E config)
      (fun _ t => exists base_index base_pindexes,
         length base_pindexes = length (windows config)
         /\ t = session_commands E config base_index base_pindexes).
Proof. apply follows_may, follows_start_session. Qed.

(** [start_session] in full: it gets to the end, having run the commands
    in order, or stops at one of the queries of that sequence, having run
    everything before it, because the answer to the query had no
    index. *)
Lemma start_session_trace (config : config) (w : world) :
  exists base_index base_pindexes,
    length base_pindexes = length (windows config)
    /\ match start_session E config w with
       | (Ok _, w') =>
           log w' = log w ++ session_commands E config base_index base_pindexes
       | (Raise e, w') =>
           exists t cmd later m,
             log w' = log w ++ t ++ [CheckOutput cmd]
             /\ session_commands E config base_index base_pindexes
                = t ++ CheckOutput cmd :: later
             /\ query_answer E (log w ++ t) cmd m = Raise e
       end.
Proof.
  destruct (follows_start_session config w) as (t & Hlog & H).
  destruct (start_session E config w) as [[[]|e] w']; simpl in *.
  - destruct H as (base_index & base_pindexes & Hlen & ->). eauto.
  - destruct H as [(t0 & cmd & m & -> & Hanswer)
                   ([] & later & base_index & base_pindexes & Hlen & Hall)].
    exists base_index, base_pindexes. split; [exact Hlen |].
    exists t0, cmd, later, m. split; [exact Hlog |]. split; [| exact Hanswer].
    rewrite <- Hall. now rewrite <- app_assoc.
Qed.

Ltac only_step :=
  first [ apply only_ret | apply only_lift
        | eapply only_run; [template_of | reflexivity]
        | apply only_first_index; exact I
        | apply only_when
        | apply only_bind; [| intros ?] ].

Lemma only_start_pane activate window_target base_pindex pindex pane :
  only (start_pane E activate window_target base_pindex pindex pane) tmux_event.
Proof. unfold start_pane. destruct activate; repeat only_step. Qed.

Lemma only_start_window session activate base_index index window :
  only (start_window E session activate base_index index window) tmux_event.
Proof.
  unfold start_window. destruct (Nat.eqb index 0); repeat only_step.
  all: apply only_for_enumerate; intros; apply only_start_pane.
Qed.

Lemma only_start_session (config : config) :
  only (start_session E config) tmux_event.
Proof.
  unfold start_session. repeat only_step.
  - apply only_for_each. intros kv. repeat only_step.
  - apply only_for_enumerate. intros. apply only_start_window.
Qed.

(** Asking the user runs nothing. *)
Lemma ask_log (prompt : string) : logs (ask E prompt) (fun _ t => t = []).
Proof.
  intros [m lines out l]. exists []. rewrite app_nil_r. split; [| reflexivity].
  unfold ask, try_except, raw_input, input, bind. simpl.
  destruct lines; reflexivity.
Qed.

Lemma only_attach_existing (config : config) :
  only (attach_existing E config) tmux_event.
Proof.
  unfold attach_existing. apply only_bind; [| intros ?; repeat only_step].
  eapply logs_weaken; [apply ask_log |]. intros r t ->. constructor.
Qed.

Lemma only_open_session (config : config) :
  only (open_session E config) tmux_event.
Proof.
  unfold open_session. apply only_bind; [repeat only_step |].
  intros status. destruct (status =? 0);
    [apply only_attach_existing | apply only_start_session].
Qed.

(** [config_for] reads the world and leaves it as it is. *)
Lemma config_for_world (env : string) (w : world) :
  snd (config_for E env w) = w.
Proof.
  unfold config_for, bind, os_path_exists, read_file, ret, raise. cbv zeta.
  destruct (fs w !! path_join (configs E) (env +:+ ".yml")) as [[text|]|] eqn:Hfs;
    simpl; rewrite ?Hfs; [| reflexivity | reflexivity].
  destruct (yaml_load E text); reflexivity.
Qed.

Lemma config_for_found (env : string) (w : world) (config : config) :
  fst (config_for E env w) = Ok config -> config_for E env w = (Ok config, w).
Proof.
  intros H. pose proof (config_for_world env w) as Hw.
  destruct (config_for E env w) as [r w']. simpl in *. now subst.
Qed.

(** [confirm_virtualenv] with nothing to delete first never fails, runs
    the commands of [virtualenv_events], and leaves the standard streams
    alone. *)
Lemma confirm_virtualenv_keep (config : config) (w : world) :
  exists m,
    confirm_virtualenv E config false w
    = (Ok tt, World m (stdin w) (stdout w)
                (log w ++ virtualenv_events E config (fs w))).
Proof.
  destruct w as [m lines out l].
  unfold confirm_virtualenv, virtualenv_events.
  destruct (virtualenv config) as [venv|]; simpl.
  - unfold bind at 1. unfold os_path_exists. simpl.
    destruct (m !! virtualenv_dir E config venv); simpl.
    + exists m. now rewrite app_nil_r.
    + unfold bind, when, ret. rewrite (run_eq _ _ _ _ _ (cl_virtualenv _ _ _)).
      unfold call. simpl. destruct (subprocess_call E _ _ _) as [m' status].
      exists m'. reflexivity.
  - exists m. unfold ret. now rewrite app_nil_r.
Qed.

Lemma start_configured (env : string) (w : world) (config : config) :
  fst (config_for E env w) = Ok config ->
  start E env w = open_session E config (world_at_probe E config w).
Proof.
  intros H. unfold start, world_at_probe. unfold bind at 1.
  rewrite (config_for_found _ _ _ H). unfold bind.
  destruct (confirm_virtualenv_keep config w) as (m & ->). reflexivity.
Qed.

Lemma open_session_probe (config : config) (w1 : world) :
  open_session E config w1
  = let status := snd (subprocess_call E (log w1)
                         ["tmux"; "has-session"; "-t"; session_name config] (fs w1)) in
    let w2 := add_log (has_session_command config)
                (set_fs (fst (subprocess_call E (log w1)
                           ["tmux"; "has-session"; "-t"; session_name config] (fs w1)))
                   w1) in
    if status =? 0 then attach_existing E config w2 else start_session E config w2.
Proof.
  unfold open_session, bind. rewrite (run_eq _ _ _ _ _ (cl_has_session _)).
  unfold call. destruct (subprocess_call E _ _ _) as [m status]. simpl.
  now destruct (status =? 0).
Qed.

Lemma world_at_probe_log (config : config) (w : world) :
  log (world_at_probe E config w) = log w ++ virtualenv_events E config (fs w)
  /\ stdin (world_at_probe E config w) = stdin w.
Proof.
  unfold world_at_probe.
  destruct (confirm_virtualenv_keep config w) as (m & ->). auto.
Qed.

End Start.

(** C1: for a configuration whose session does not exist yet, [start]
    runs, after the virtualenv command (if the directory is missing) and
    the question to tmux: new-session, the default-path option, the
    status-left-length option, one set-environment per entry of the
    environment, the list-windows query, then for each window in order its
    creation commands, the list-panes query, for each pane in order the
    split and the send-keys, the select-layout if there is a layout and the
    select-pane, and at the end attach-session.  It stops short of the end
    only at one of the two kinds of query, having run everything before it
    in that order and nothing after it, and only because tmux failed to
    answer the query, at that point, or answered without an index; so
    with a tmux that answers every query with an index [start] gets to
    the end. *)
Theorem start_command_order (E : host) (env : string) (w : world) (config : config) :
  fst (config_for E env w) = Ok config ->
  has_session_status E config w <> 0 ->
  let before := log w ++ virtualenv_events E config (fs w)
                ++ [has_session_command config] in
  (exists base_index base_pindexes,
     length base_pindexes = length (windows config)
     /\ match start E env w with
        | (Ok _, w') =>
            log w' = before ++ session_commands E config base_index base_pindexes
        | (Raise e, w') =>
            exists t cmd later m,
              log w' = before ++ t ++ [CheckOutput cmd]
              /\ session_commands E config base_index base_pindexes
                 = t ++ CheckOutput cmd :: later
              /\ query_answer E (before ++ t) cmd m = Raise e
        end)
  /\ ((forall h cmd m, exists n, query_answer E h cmd m = Ok n) ->
      fst (start E env w) = Ok tt).
Proof.
  intros Hconfig Hstatus before.
  rewrite (start_configured E env w config Hconfig), open_session_probe.
  unfold has_session_status in Hstatus. cbv zeta.
  apply Z.eqb_neq in Hstatus. rewrite Hstatus.
  match goal with |- context [start_session E config ?w2] =>
    assert (Hbefore : log w2 = before)
      by (simpl; destruct (world_at_probe_log E config w) as [-> _];
          unfold before; now rewrite <- app_assoc);
    destruct (start_session_trace E config w2)
      as (base_index & base_pindexes & Hlen & H);
    destruct (start_session E config w2) as [[[]|e] w'] eqn:Hrun
  end; rewrite Hbefore in H.
  - split; [| reflexivity]. exists base_index, base_pindexes. auto.
  - split; [exists base_index, base_pindexes; auto |].
    intros Hanswers. destruct H as (t & cmd & later & m & _ & _ & Hanswer).
    destruct (Hanswers (before ++ t) cmd m) as [n Hn]. congruence.
Qed.

(** The sample project, started from scratch: tmux answers [1: zsh] to
    every query, and [start] gets to the end. *)
Lemma start_command_order_witness :
  fst (config_for (sample_host 1) "proj" (sample_world [])) = Ok sample_config
  /\ has_session_status (sample_host 1) sample_config (sample_world []) <> 0
  /\ fst (start (sample_host 1) "proj" (sample_world [])) = Ok tt
  /\ exists base_index base_pindexes,
       length base_pindexes = length (windows sample_config)
       /\ log (snd (start (sample_host 1) "proj" (sample_world [])))
          = log (sample_world [])
            ++ virtualenv_events (sample_host 1) sample_config (fs (sample_world []))
            ++ [has_session_command sample_config]
            ++ session_commands (sample_host 1) sample_config
                 base_index base_pindexes.
Proof.
  assert (H1 : fst (config_for (sample_host 1) "proj" (sample_world []))
               = Ok sample_config) by (vm_compute; reflexivity).
  assert (H2 : has_session_status (sample_host 1) sample_config (sample_world []) <> 0)
    by (vm_compute; discriminate).
  pose proof (start_command_order _ _ _ _ H1 H2) as [H Hthrough].
  assert (Hok : fst (start (sample_host 1) "proj" (sample_world [])) = Ok tt).
  { apply Hthrough. intros h cmd m. exists 1. reflexivity. }
  split; [exact H1 |]. split; [exact H2 |]. split; [exact Hok |].
  destruct H as (base_index & base_pindexes & Hlen & H).
  exists base_index, base_pindexes. split; [exact Hlen |].
  destruct (start (sample_host 1) "proj" (sample_world [])) as [[[]|e] w'];
    [| discriminate Hok].
  simpl. rewrite H. now rewrite <- !app_assoc.
Defined.


(** The whole run of the sample, command by command. *)
Example start_sample_log :
  log (snd (start (sample_host 1) "proj" (sample_world [])))
  = [Call ["virtualenv"; "-p"; "/usr/bin/python"; "--system-site-packages";
           "/home/u/.virtualenvs/proj"];
     Call ["tmux"; "has-session"; "-t"; "proj"];
     Call ["tmux"; "new-session"; "-d"; "-s"; "proj"];
     Call ["tmux"; "set-option"; "-t"; "proj"; "default-path"; "/home/u/src"];
     Call ["tmux"; "set-option"; "-t"; "proj"; "status-left-length"; "6"];
     Call ["tmux"; "set-environment"; "-t"; "proj"; "MYKEY"; "my me value"];
     CheckOutput "tmux list-windows -t proj";
     Call ["tmux"; "new-window"; "-d"; "-t"; "proj:2"; "-n"; "One"];
     Call ["tmux"; "kill-window"; "-t"; "proj:1"];
     Call ["tmux"; "move-window"; "-s"; "proj:2"; "-t"; "proj:1"];
     CheckOutput "tmux list-panes -t proj:1";
     Call ["tmux"; "send-keys"; "-t"; "proj:1.1";
           "source /home/u/.virtualenvs/proj/bin/activate"; "ENTER"];
     Call ["tmux"; "send-keys"; "-t"; "proj:1.1"; "ls -l"; "ENTER"];
     Call ["tmux"; "select-pane"; "-t"; "proj:1.1"];
     Call ["tmux"; "new-window"; "-d"; "-t"; "proj:2"; "-n"; "Two"];
     CheckOutput "tmux list-panes -t proj:2";
     Call ["tmux"; "send-keys"; "-t"; "proj:2.1";
           "source /home/u/.virtualenvs/proj/bin/activate"; "ENTER"];
     Call ["tmux"; "send-keys"; "-t"; "proj:2.1"; "ls"; "ENTER"];
     Call ["tmux"; "split-window"; "-t"; "proj:2.0"];
     Call ["tmux"; "send-keys"; "-t"; "proj:2.2";
           "source /home/u/.virtualenvs/proj/bin/activate"; "ENTER"];
     Call ["tmux"; "split-window"; "-t"; "proj:2.0"];
     Call ["tmux"; "send-keys"; "-t"; "proj:2.3";
           "source /home/u/.virtualenvs/proj/bin/activate"; "ENTER"];
     Call ["tmux"; "send-keys"; "-t"; "proj:2.3"; "top"; "ENTER"];
     Call ["tmux"; "select-layout"; "-t"; "proj:2"; "main-vertical"];
     Call ["tmux"; "select-pane"; "-t"; "proj:2.1"];
     Call ["tmux"; "-2"; "attach-session"; "-t"; "proj"]].
Proof. vm_compute. reflexivity. Qed.

Section Attach.

Variable E : host.

Lemma attach_existing_log (config : config) (w : world) :
  log (snd (attach_existing E config w))
  = log w ++ match stdin w with [] => [] | _ :: _ => [attach_command config] end
  /\ fst (attach_existing E config w)
     = match stdin w with [] => Raise EOFError | _ :: _ => Ok tt end.
Proof.
  destruct w as [m lines out l].
  unfold attach_existing, ask, try_except, raw_input, input, bind. simpl.
  destruct lines as [|line rest]; simpl.
  - now rewrite app_nil_r.
  - rewrite (run_eq _ _ _ _ _ (cl_attach_session _)). unfold call. simpl.
    destruct (subprocess_call E _ _ _) as [m' status]. auto.
Qed.

Lemma tmux_event_no_creation (e : event) :
  tmux_event e -> environment_creation e = false.
Proof.
  destruct e as [[|program argv]|cmd]; simpl; try reflexivity.
  now intros ->.
Qed.

Lemma creations_app (t1 t2 : list event) :
  creations (t1 ++ t2) = (creations t1 + creations t2)%nat.
Proof. unfold creations. now rewrite List.filter_app, length_app. Qed.

Lemma creations_none (t : list event) :
  Forall tmux_event t -> creations t = 0%nat.
Proof.
  unfold creations. induction 1 as [|e t He _ IH]; [reflexivity |].
  simpl. now rewrite (tmux_event_no_creation e He).
Qed.

End Attach.

(** C2: when tmux answers that the session exists, [start] runs, after
    the virtualenv command (if the directory is missing) and the question
    to tmux, the attach-session command and nothing else, once the prompt
    is answered; none of these commands changes a session.  At the end of
    standard input the prompt raises and nothing is attached. *)
Theorem start_existing_session (E : host) (env : string) (w : world) (config : config) :
  fst (config_for E env w) = Ok config ->
  has_session_status E config w = 0 ->
  let answered := match stdin w with [] => false | _ :: _ => true end in
  let t := virtualenv_events E config (fs w)
           ++ [has_session_command config]
           ++ (if answered then [attach_command config] else []) in
  log (snd (start E env w)) = log w ++ t
  /\ Forall (fun e => session_modifying e = false) t
  /\ fst (start E env w) = if answered then Ok tt else Raise EOFError.
Proof.
  intros Hconfig Hstatus. cbv zeta.
  rewrite (start_configured E env w config Hconfig), open_session_probe.
  unfold has_session_status in Hstatus. cbv zeta. rewrite Hstatus. simpl Z.eqb.
  cbv iota.
  match goal with |- context [attach_existing E config ?w2] =>
    destruct (attach_existing_log E config w2) as [Hlog Hres]
  end.
  rewrite Hlog, Hres. simpl.
  destruct (world_at_probe_log E config w) as [-> ->].
  split; [| split].
  - rewrite <- !app_assoc. simpl. now destruct (stdin w).
  - apply Forall_app. split.
    + unfold virtualenv_events. destruct (virtualenv config); [| constructor].
      destruct (fs w !! _); repeat constructor.
    + destruct (stdin w); repeat constructor.
  - now destruct (stdin w).
Qed.

(** The sample project with its session running and the prompt answered. *)
Lemma start_existing_session_witness :
  fst (config_for (sample_host 0) "proj" (sample_world ["go"])) = Ok sample_config
  /\ has_session_status (sample_host 0) sample_config (sample_world ["go"]) = 0
  /\ log (snd (start (sample_host 0) "proj" (sample_world ["go"])))
     = [Call ["virtualenv"; "-p"; "/usr/bin/python"; "--system-site-packages";
              "/home/u/.virtualenvs/proj"];
        Call ["tmux"; "has-session"; "-t"; "proj"];
        Call ["tmux"; "-2"; "attach-session"; "-t"; "proj"]]
  /\ fst (start (sample_host 0) "proj" (sample_world ["go"])) = Ok tt.
Proof.
  assert (H1 : fst (config_for (sample_host 0) "proj" (sample_world ["go"]))
               = Ok sample_config) by (vm_compute; reflexivity).
  assert (H2 : has_session_status (sample_host 0) sample_config (sample_world ["go"]) = 0)
    by (vm_compute; reflexivity).
  pose proof (start_existing_session _ _ _ _ H1 H2) as H. cbv zeta in H.
  destruct H as (Hlog & _ & Hres).
  split; [exact H1 | split; [exact H2 | split]].
  - rewrite Hlog. vm_compute. reflexivity.
  - rewrite Hres. vm_compute. reflexivity.
Defined.

(** C7: [start] sees to the virtualenv before it gives tmux anything: its
    events are those of [virtualenv_events] and then events for tmux only,
    so a virtualenv is created exactly once when the configuration asks for
    one and its directory is missing, and never otherwise. *)
Theorem start_creates_environment (E : host) (env : string) (w : world) (config : config) :
  fst (config_for E env w) = Ok config ->
  exists rest,
    log (snd (start E env w)) = log w ++ virtualenv_events E config (fs w) ++ rest
    /\ Forall tmux_event rest
    /\ creations (virtualenv_events E config (fs w) ++ rest)
       = match virtualenv config with
         | None => 0%nat
         | Some venv =>
             match fs w !! virtualenv_dir E config venv with
             | Some _ => 0%nat
             | None => 1%nat
             end
         end.
Proof.
  intros Hconfig. rewrite (start_configured E env w config Hconfig).
  destruct (only_open_session E config (world_at_probe E config w))
    as (rest & Hlog & Hrest).
  exists rest. split; [| split; [exact Hrest |]].
  - rewrite Hlog. destruct (world_at_probe_log E config w) as [-> _].
    now rewrite <- app_assoc.
  - rewrite creations_app, (creations_none rest Hrest), Nat.add_0_r.
    unfold virtualenv_events. destruct (virtualenv config) as [venv|]; [| reflexivity].
    destruct (fs w !! _); reflexivity.
Qed.

(** The sample project has no virtualenv yet: one is created. *)
Lemma start_creates_environment_witness :
  fst (config_for (sample_host 1) "proj" (sample_world [])) = Ok sample_config
  /\ exists rest,
       log (snd (start (sample_host 1) "proj" (sample_world [])))
       = log (sample_world [])
         ++ virtualenv_events (sample_host 1) sample_config (fs (sample_world []))
         ++ rest
       /\ Forall tmux_event rest
       /\ creations (virtualenv_events (sample_host 1) sample_config
                       (fs (sample_world [])) ++ rest)
          = 1%nat.
Proof.
  assert (H1 : fst (config_for (sample_host 1) "proj" (sample_world []))
               = Ok sample_config) by (vm_compute; reflexivity).
  pose proof (start_creates_environment _ _ _ _ H1) as (rest & Hlog & Hrest & Hcount).
  split; [exact H1 |]. exists rest. split; [exact Hlog | split; [exact Hrest |]].
  rewrite Hcount. vm_compute. reflexivity.
Defined.

(** With the virtualenv in place, none is created. *)
Example start_sample_no_creation :
  creations (log (snd (start (sample_host 1) "proj" (sample_world_with_virtualenv []))))
  = 0%nat.
Proof. vm_compute. reflexivity. Qed.

(** ** Loading a configuration *)

(** C6: [config_for] raises its own exception, whose message names the
    path it checked, exactly when nothing exists at that path; when a file
    is there, it returns what the YAML loader makes of it. *)
Theorem config_for_spec (E : host) (env : string) (w : world) :
  let fn := path_join (configs E) (env +:+ ".yml") in
  ((exists msg, fst (config_for E env w) = Raise (Exception msg))
   <-> fs w !! fn = None)
  /\ (fs w !! fn = None ->
      config_for E env w
      = (Raise (Exception ("No configuration found for environment " +:+ dquote
                           +:+ env +:+ dquote +:+ ". (Checked: " +:+ fn +:+ ")")), w))
  /\ (forall text config,
        fs w !! fn = Some (File text) -> yaml_load E text = Some config ->
        config_for E env w = (Ok config, w)).
Proof.
  cbv zeta. unfold config_for, bind, os_path_exists, read_file, ret, raise.
  destruct (fs w !! path_join (configs E) (env +:+ ".yml")) as [[text|]|] eqn:Hfs;
    simpl; rewrite ?Hfs.
  - split; [| split].
    + split; [| discriminate]. intros [msg H].
      destruct (yaml_load E text); discriminate H.
    + discriminate.
    + intros text' config [= <-] ->. reflexivity.
  - split; [| split]; [split | |]; try discriminate.
    intros [msg H]. discriminate H.
  - split; [| split]; [split | |]; try discriminate; eauto.
Qed.

Example config_for_sample :
  fst (config_for (sample_host 1) "proj" (sample_world [])) = Ok sample_config
  /\ fst (config_for (sample_host 1) "other" (sample_world []))
     = Raise (Exception ("No configuration found for environment " +:+ dquote
                         +:+ "other" +:+ dquote
                         +:+ ". (Checked: /home/u/.tenper/other.yml)")).
Proof. split; vm_compute; reflexivity. Qed.

(** ** Rebuilding a virtualenv *)

(** C4 fails on the code: when the configuration asks for a virtualenv and
    nothing exists at its path, [rebuild] calls [shutil.rmtree] on the
    missing path and ends in [OSError], before any virtualenv is made. *)
Theorem rebuild_missing_virtualenv (E : host) (env : string) (w : world)
    (config : config) (venv : virtualenv_section) :
  fst (config_for E env w) = Ok config ->
  virtualenv config = Some venv ->
  fs w !! virtualenv_dir E config venv = None ->
  rebuild E env w = (Raise (OSError (virtualenv_dir E config venv)), w).
Proof.
  intros Hconfig Hvenv Hfs. unfold rebuild. unfold bind at 1.
  rewrite (config_for_found E env w config Hconfig).
  unfold confirm_virtualenv. rewrite Hvenv.
  unfold bind, os_path_exists, when, shutil_rmtree.
  rewrite Hfs. simpl. now rewrite Hfs.
Qed.

(** Rebuilding the sample project before its virtualenv exists. *)
Lemma rebuild_missing_virtualenv_witness :
  fst (config_for (sample_host 1) "proj" (sample_world [])) = Ok sample_config
  /\ fs (sample_world []) !! "/home/u/.virtualenvs/proj" = None
  /\ rebuild (sample_host 1) "proj" (sample_world [])
     = (Raise (OSError "/home/u/.virtualenvs/proj"), sample_world []).
Proof.
  assert (H1 : fst (config_for (sample_host 1) "proj" (sample_world []))
               = Ok sample_config) by (vm_compute; reflexivity).
  assert (H2 : fs (sample_world [])
               !! virtualenv_dir (sample_host 1) sample_config
                    {| python_binary := None; site_packages := Some true;
                       venv_path := None |} = None)
    by (vm_compute; reflexivity).
  pose proof (rebuild_missing_virtualenv (sample_host 1) "proj" (sample_world [])
                sample_config _ H1 eq_refl H2) as H.
  split; [exact H1 | split].
  - vm_compute. reflexivity.
  - rewrite H. vm_compute. reflexivity.
Defined.

(** With the directory in place [rebuild] removes it and runs virtualenv. *)
Example rebuild_sample_existing :
  let r := rebuild (sample_host 1) "proj" (sample_world_with_virtualenv []) in
  fst r = Ok tt
  /\ fs (snd r) = sample_fs
  /\ log (snd r) = [Call ["virtualenv"; "-p"; "/usr/bin/python";
                          "--system-site-packages"; "/home/u/.virtualenvs/proj"]].
Proof. repeat split; vm_compute; reflexivity. Qed.

(** ** Prefixes, suffixes and directory entries *)

Lemma append_assoc (s t u : string) : (s +:+ t) +:+ u = s +:+ t +:+ u.
Proof.
  induction s as [|c s IH]; [reflexivity |].
  rewrite !append_cons. now rewrite IH.
Qed.

Lemma strip_prefix_Some (p s r : string) :
  strip_prefix p s = Some r <-> s = p +:+ r.
Proof.
  revert s. induction p as [|a p IH]; intros s; simpl.
  - split; [now intros [= ->] | now intros ->].
  - destruct s as [|b s]; [split; discriminate |].
    rewrite append_cons. destruct (Ascii.eqb_spec a b) as [-> | Hne].
    + rewrite IH. split; [now intros -> | now intros [= ->]].
    + split; [discriminate | intros [= H _]; congruence].
Qed.

Lemma substring_all (t : string) : substring 0 (String.length t) t = t.
Proof. induction t as [|c t IH]; simpl; [reflexivity | now rewrite IH]. Qed.

Lemma substring_prefix (pre t : string) :
  substring 0 (String.length pre) (pre +:+ t) = pre.
Proof.
  induction pre as [|c pre IH].
  - change (EmptyString +:+ t) with t. now destruct t.
  - rewrite append_cons. simpl. now rewrite IH.
Qed.

Lemma substring_suffix (pre t : string) :
  substring (String.length pre) (String.length t) (pre +:+ t) = t.
Proof.
  induction pre as [|c pre IH].
  - change (EmptyString +:+ t) with t. apply substring_all.
  - rewrite append_cons. simpl. exact IH.
Qed.

Lemma substring_split (n : nat) (s : string) :
  (n <= String.length s)%nat ->
  s = substring 0 n s +:+ substring n (String.length s - n) s.
Proof.
  revert n. induction s as [|c s IH]; intros n Hn; simpl in *.
  - destruct n; [reflexivity | lia].
  - destruct n as [|n]; simpl.
    + now rewrite substring_all.
    + rewrite append_cons. rewrite <- IH by lia. reflexivity.
Qed.

Lemma ends_with_append (pre suf : string) : ends_with suf (pre +:+ suf) = true.
Proof.
  unfold ends_with. rewrite append_length.
  replace (String.length pre + String.length suf - String.length suf)%nat
    with (String.length pre) by lia.
  rewrite substring_suffix, String.eqb_refl, andb_true_r.
  apply Nat.leb_le. lia.
Qed.

Lemma drop_last_append (pre suf : string) :
  drop_last (String.length suf) (pre +:+ suf) = pre.
Proof.
  unfold drop_last. rewrite append_length.
  replace (String.length pre + String.length suf - String.length suf)%nat
    with (String.length pre) by lia.
  apply substring_prefix.
Qed.

Lemma ends_with_split (suf s : string) :
  ends_with suf s = true -> s = drop_last (String.length suf) s +:+ suf.
Proof.
  unfold ends_with, drop_last. intros H.
  apply andb_true_iff in H as [Hlen Heq].
  apply Nat.leb_le in Hlen. apply String.eqb_eq in Heq.
  rewrite (substring_split (String.length s - String.length suf) s) at 1 by lia.
  replace (String.length s - (String.length s - String.length suf))%nat
    with (String.length suf) by lia.
  now rewrite Heq.
Qed.

Lemma string_existsb_append (p : ascii -> bool) (s t : string) :
  string_existsb p (s +:+ t) = (string_existsb p s || string_existsb p t)%bool.
Proof.
  induction s as [|c s IH]; [reflexivity |].
  rewrite append_cons. simpl. rewrite IH. now rewrite orb_assoc.
Qed.

(** The entries of a directory are the names, with no slash in them, of
    what the filesystem holds directly below it. *)
Lemma elem_of_dir_entries (m : gmap string node) (d f : string) :
  f ∈ dir_entries m d
  <-> f <> EmptyString /\ string_existsb is_slash f = false
      /\ is_Some (m !! (d +:+ "/" +:+ f)).
Proof.
  unfold dir_entries. rewrite list_elem_of_omap. split.
  - intros ([p x] & Hin & Hname). apply elem_of_map_to_list in Hin.
    unfold entry_name in Hname. simpl in Hname.
    destruct (strip_prefix (d +:+ "/") p) as [name|] eqn:Hp; [| discriminate].
    apply strip_prefix_Some in Hp. rewrite append_assoc in Hp.
    destruct (String.eqb_spec name EmptyString) as [-> | Hne]; [discriminate |].
    simpl in Hname.
    destruct (string_existsb is_slash name) eqn:Hslash; [discriminate |].
    injection Hname as <-. subst p. eauto.
  - intros (Hne & Hslash & [x Hx]). exists (d +:+ "/" +:+ f, x). split.
    + now apply elem_of_map_to_list.
    + unfold entry_name. simpl.
      assert (Hp : strip_prefix (d +:+ "/") (d +:+ "/" +:+ f) = Some f)
        by (apply strip_prefix_Some; now rewrite append_assoc).
      rewrite Hp, Hslash. now rewrite (string_eqb_false _ _ Hne).
Qed.

(** The environment names are the entries ending in [.yml], less that
    suffix. *)
Lemma elem_of_yml_names (entries : list string) (name : string) :
  name ∈ yml_names entries <-> (name +:+ ".yml") ∈ entries.
Proof.
  unfold yml_names. rewrite list_elem_of_In, in_map_iff. split.
  - intros (f & <- & Hf). apply list_elem_of_In, list_elem_of_filter in Hf.
    destruct Hf as [Hyml Hf]. apply ends_with_split in Hyml. simpl in Hyml.
    now rewrite <- Hyml.
  - intros Hf. exists (name +:+ ".yml"). split.
    + apply (drop_last_append name ".yml").
    + apply list_elem_of_In, list_elem_of_filter. split; [| exact Hf].
      apply ends_with_append.
Qed.

Lemma elem_of_environments (m : gmap string node) (d name : string) :
  name ∈ yml_names (dir_entries m d)
  <-> string_existsb is_slash name = false
      /\ is_Some (m !! (d +:+ "/" +:+ name +:+ ".yml")).
Proof.
  rewrite elem_of_yml_names, elem_of_dir_entries, string_existsb_append.
  simpl. rewrite orb_false_r. split.
  - now intros (_ & H1 & H2).
  - intros [H1 H2]. split; [| auto]. now destruct name.
Qed.

Lemma NoDup_omap_inj {A B} (f : A -> option B) (l : list A) :
  (forall x y z, x ∈ l -> y ∈ l -> f x = Some z -> f y = Some z -> x = y) ->
  NoDup l -> NoDup (omap f l).
Proof.
  intros Hinj Hl. induction Hl as [|x l Hx Hl IH]; simpl; [constructor |].
  assert (IH' : NoDup (omap f l)).
  { apply IH. intros a b z Ha Hb. apply Hinj; now apply list_elem_of_further. }
  destruct (f x) as [z|] eqn:Hfx; [| exact IH'].
  constructor; [| exact IH'].
  intros Hz. apply list_elem_of_omap in Hz as (y & Hy & Hfy).
  assert (x = y) as -> by
    (apply (Hinj x y z); [apply list_elem_of_here | now apply list_elem_of_further | |];
     assumption).
  contradiction.
Qed.

(** A directory lists each of its entries once. *)
Lemma NoDup_dir_entries (m : gmap string node) (d : string) :
  NoDup (dir_entries m d).
Proof.
  unfold dir_entries. apply NoDup_omap_inj; [| apply NoDup_map_to_list].
  intros [p1 x1] [p2 x2] name H1 H2 Hn1 Hn2. unfold entry_name in *. simpl in *.
  destruct (strip_prefix (d +:+ "/") p1) as [n1|] eqn:Hp1; [| discriminate].
  destruct (strip_prefix (d +:+ "/") p2) as [n2|] eqn:Hp2; [| discriminate].
  apply strip_prefix_Some in Hp1, Hp2.
  destruct (String.eqb n1 EmptyString || string_existsb is_slash n1)%bool;
    [discriminate |].
  destruct (String.eqb n2 EmptyString || string_existsb is_slash n2)%bool;
    [discriminate |].
  injection Hn1 as ->. injection Hn2 as ->. subst p1 p2.
  f_equal. exact (map_to_list_unique m _ _ _ H1 H2).
Qed.

Lemma NoDup_yml_names (entries : list string) :
  NoDup entries -> NoDup (yml_names entries).
Proof.
  intros H. unfold yml_names.
  change (NoDup (drop_last 4 <$> filter (fun f => ends_with ".yml" f = true) entries)).
  apply NoDup_fmap_2_strong; [| now apply NoDup_filter].
  intros f g Hf Hg Heq.
  apply list_elem_of_filter in Hf as [Hf _], Hg as [Hg _].
  apply ends_with_split in Hf, Hg. simpl in Hf, Hg.
  rewrite Hf, Hg. now rewrite Heq.
Qed.

(** ** Completions *)

(** C10: [completions] prints one line: the four subcommands in order,
    then the environment names (the entries of the configuration directory
    that end in [.yml], less the suffix), joined by single spaces; with no
    configuration directory the line has the four subcommands only.  (A
    plain file in place of the directory makes [os.listdir] raise.) *)
Theorem completions_output (E : host) (w : world) :
  let subcommands := ["list"; "edit"; "rebuild"; "delete"] in
  match fs w !! configs E with
  | None =>
      completions E w = (Ok tt, add_stdout (Printed "list edit rebuild delete") w)
  | Some Dir =>
      exists names,
        completions E w
        = (Ok tt, add_stdout (Printed (join " " (subcommands ++ names))) w)
        /\ names = yml_names (dir_entries (fs w) (configs E))
        /\ NoDup names
        /\ forall name,
             name ∈ names
             <-> string_existsb is_slash name = false
                 /\ is_Some (fs w !! (configs E +:+ "/" +:+ name +:+ ".yml"))
  | Some (File _) => completions E w = (Raise (OSError (configs E)), w)
  end.
Proof.
  cbv zeta. unfold completions, bind, os_path_exists, os_listdir, ret, print.
  destruct (fs w !! configs E) as [[text|]|] eqn:Hfs; simpl; rewrite ?Hfs;
    try reflexivity.
  eexists. split; [reflexivity |]. split; [reflexivity |]. split.
  - apply NoDup_yml_names, NoDup_dir_entries.
  - intros name. apply elem_of_environments.
Qed.

Example completions_sample :
  stdout (snd (completions (sample_host 1) (sample_world [])))
  = [Printed "list edit rebuild delete proj"].
Proof. vm_compute. reflexivity. Qed.

(** ** Deleting an environment *)

Lemma path_join_relative (a b : string) :
  String.prefix "/" b = false -> path_join a b = a +:+ separator a +:+ b.
Proof.
  intros H. unfold path_join, separator. rewrite H.
  now destruct (String.eqb a EmptyString || ends_with "/" a)%bool.
Qed.

Lemma path_join_absolute (a b : string) :
  String.prefix "/" b = true -> path_join a b = b.
Proof. intros H. unfold path_join. now rewrite H. Qed.

Lemma ends_with_same_length (suf pre t : string) :
  String.length t = String.length suf ->
  ends_with suf (pre +:+ t) = String.eqb t suf.
Proof.
  intros Hlen. unfold ends_with. rewrite append_length, Hlen.
  replace (String.length pre + String.length suf - String.length suf)%nat
    with (String.length pre) by lia.
  rewrite <- Hlen, substring_suffix.
  replace (String.length t <=? String.length pre + String.length t)%nat with true;
    [reflexivity |].
  symmetry. apply Nat.leb_le. lia.
Qed.

Lemma separator_after (x t : string) (c : ascii) :
  c <> "/"%char -> separator (x +:+ t +:+ String c EmptyString) = "/".
Proof.
  intros Hc. unfold separator. rewrite <- append_assoc.
  rewrite (ends_with_same_length "/" (x +:+ t) (String c EmptyString) eq_refl).
  replace (String.eqb (String c EmptyString) "/") with false.
  - rewrite orb_false_r.
    destruct ((x +:+ t) +:+ String c EmptyString) as [|a s] eqn:H; [| reflexivity].
    apply (f_equal String.length) in H. rewrite append_length in H.
    simpl in H. lia.
  - symmetry. apply String.eqb_neq. congruence.
Qed.

Lemma prefix_slash_append (s t : string) :
  s <> EmptyString -> String.prefix "/" (s +:+ t) = String.prefix "/" s.
Proof.
  destruct s as [|c s]; [congruence |]. intros _. rewrite append_cons.
  change (String.prefix "/" (String c (s +:+ t)))
    with (if ascii_dec "/" c then String.prefix EmptyString (s +:+ t) else false).
  change (String.prefix "/" (String c s))
    with (if ascii_dec "/" c then String.prefix EmptyString s else false).
  destruct (ascii_dec "/" c); [| reflexivity].
  destruct (s +:+ t); destruct s; reflexivity.
Qed.

Section Delete.

Variable E : host.

Lemma virtualenvs_eq :
  virtualenvs E = home E +:+ separator (home E) +:+ ".virtualenvs".
Proof. now apply path_join_relative. Qed.

Lemma configs_eq : configs E = home E +:+ separator (home E) +:+ ".tenper".
Proof. now apply path_join_relative. Qed.

Lemma virtualenv_relative (env : string) :
  String.prefix "/" env = false ->
  path_join (virtualenvs E) env
  = home E +:+ separator (home E) +:+ ".virtualenvs" +:+ "/" +:+ env.
Proof.
  intros H. rewrite (path_join_relative _ _ H), virtualenvs_eq.
  assert (Hsep : separator (home E +:+ separator (home E) +:+ ".virtualenvs") = "/").
  { replace (home E +:+ separator (home E) +:+ ".virtualenvs")
      with ((home E +:+ separator (home E)) +:+ ".virtualenv" +:+ "s")
      by now rewrite append_assoc.
    apply separator_after. discriminate. }
  rewrite Hsep. now rewrite !append_assoc.
Qed.

Lemma config_file_relative (name : string) :
  String.prefix "/" name = false ->
  path_join (configs E) name
  = home E +:+ separator (home E) +:+ ".tenper" +:+ "/" +:+ name.
Proof.
  intros H. rewrite (path_join_relative _ _ H), configs_eq.
  assert (Hsep : separator (home E +:+ separator (home E) +:+ ".tenper") = "/").
  { replace (home E +:+ separator (home E) +:+ ".tenper")
      with ((home E +:+ separator (home E)) +:+ ".tenpe" +:+ "r")
      by now rewrite append_assoc.
    apply separator_after. discriminate. }
  rewrite Hsep. now rewrite !append_assoc.
Qed.

Lemma prefix_slash_yml (env : string) :
  String.prefix "/" (env +:+ ".yml") = String.prefix "/" env.
Proof.
  destruct env as [|c env]; [reflexivity |].
  now apply prefix_slash_append.
Qed.

(** The virtualenv of an environment is never its configuration file. *)
Lemma virtualenv_not_config_file (env : string) :
  path_join (virtualenvs E) env <> path_join (configs E) (env +:+ ".yml").
Proof.
  intros H. apply (f_equal String.length) in H.
  destruct (String.prefix "/" env) eqn:Habs.
  - rewrite !path_join_absolute in H by now rewrite ?prefix_slash_yml.
    rewrite append_length in H. simpl in H. lia.
  - rewrite virtualenv_relative, config_file_relative in H
      by now rewrite ?prefix_slash_yml.
    rewrite !append_length in H. simpl in H. lia.
Qed.

(** Nor the configuration directory, unless the environment is named by
    the path of that directory. *)
Lemma virtualenv_not_configs (env : string) :
  env <> configs E -> path_join (virtualenvs E) env <> configs E.
Proof.
  intros Hne H. destruct (String.prefix "/" env) eqn:Habs.
  - rewrite path_join_absolute in H by assumption. contradiction.
  - rewrite virtualenv_relative, configs_eq in H by assumption.
    apply (f_equal String.length) in H.
    rewrite !append_length in H. simpl in H. lia.
Qed.

Lemma delete_declined_run (env : string) (w : world) (resp : string)
    (rest : list string) :
  is_Some (fs w !! path_join (virtualenvs E) env) ->
  stdin w = resp :: rest ->
  affirmative resp = false ->
  match fs w !! path_join (configs E) (env +:+ ".yml") with
  | Some (File _) =>
      fst (delete E env w) = Ok tt
      /\ fs (snd (delete E env w)) = without_config E (fs w) env
  | _ =>
      fst (delete E env w) = Raise (OSError (path_join (configs E) (env +:+ ".yml")))
      /\ fs (snd (delete E env w)) = fs w
  end.
Proof.
  destruct w as [m lines out l]. simpl. intros [x Hvenv] -> Hresp.
  unfold delete, bind, os_path_exists. simpl. rewrite Hvenv. simpl.
  unfold ask, try_except, raw_input, bind. simpl. rewrite Hresp. simpl.
  unfold os_remove. simpl.
  destruct (m !! path_join (configs E) (env +:+ ".yml")) as [[text|]|] eqn:Hfile;
    simpl; auto.
  split.
  - unfold os_rmdir. simpl.
    destruct (base.delete _ m !! configs E) as [[|]|]; try reflexivity.
    now destruct (dir_entries _ _).
  - unfold os_rmdir, without_config. simpl.
    destruct (base.delete _ m !! configs E) as [[|]|]; try reflexivity.
    now destruct (dir_entries _ _).
Qed.

Lemma without_config_frame (m : gmap string node) (env p : string) :
  p <> path_join (configs E) (env +:+ ".yml") -> p <> configs E ->
  without_config E m env !! p = m !! p.
Proof.
  intros H1 H2. unfold without_config.
  destruct (base.delete _ m !! configs E) as [[|]|];
    [| destruct (dir_entries _ _) |];
    rewrite ?lookup_delete_ne by congruence; reflexivity.
Qed.

Lemma without_config_gone (m : gmap string node) (env : string) :
  without_config E m env !! path_join (configs E) (env +:+ ".yml") = None.
Proof.
  unfold without_config.
  destruct (base.delete _ m !! configs E) as [[|]|];
    [| destruct (dir_entries _ _) |].
  all: try apply lookup_delete_eq.
  destruct (decide (configs E = path_join (configs E) (env +:+ ".yml"))) as [<- | Hne].
  - apply lookup_delete_eq.
  - rewrite lookup_delete_ne by exact Hne. apply lookup_delete_eq.
Qed.

End Delete.

(** C5, as stated, fails: after a plain "n" the configuration file is
    gone, and an answer with blanks around "y", which is none of the four
    words, removes the virtualenv. *)
Lemma delete_declined_departures :
  (fs (sample_world_with_virtualenv ["n"]) !! "/home/u/.tenper/proj.yml"
   = Some (File "proj")
   /\ fs (snd (delete (sample_host 1) "proj" (sample_world_with_virtualenv ["n"])))
        !! "/home/u/.tenper/proj.yml" = None)
  /\ (~ In " y " ["yes"; "YES"; "y"; "Y"]
      /\ fs (snd (delete (sample_host 1) "proj" (sample_world_with_virtualenv [" y "])))
           !! "/home/u/.virtualenvs/proj" = None)
  /\ ~ delete_declined_changes_nothing.
Proof.
  assert (Hcfg : fs (sample_world_with_virtualenv ["n"]) !! "/home/u/.tenper/proj.yml"
                 = Some (File "proj")) by (vm_compute; reflexivity).
  assert (Hgone : fs (snd (delete (sample_host 1) "proj"
                             (sample_world_with_virtualenv ["n"])))
                    !! "/home/u/.tenper/proj.yml" = None) by (vm_compute; reflexivity).
  split; [auto |]. split.
  - split; [| vm_compute; reflexivity].
    simpl. intros [H | [H | [H | [H | []]]]]; discriminate H.
  - intros H.
    specialize (H (sample_host 1) "proj" (sample_world_with_virtualenv ["n"]) "n" []).
    rewrite H in Hgone.
    + rewrite Hcfg in Hgone. discriminate Hgone.
    + vm_compute. eauto.
    + reflexivity.
    + simpl. intros [H' | [H' | [H' | [H' | []]]]]; discriminate H'.
Qed.

(** ** Editing an environment *)

Lemma config_template_field :
  config_template = template_head +:+ "{env}" +:+ template_tail
  /\ ends_with "session name: " template_head = true.
Proof. split; vm_compute; reflexivity. Qed.

(** The text [edit] writes for a new environment: the template with the
    name in place of its field, on the [session name] line. *)
Lemma format_config_template (env : string) :
  format config_template [("env", PStr env)]
  = Ok (template_head +:+ env +:+ template_tail).
Proof. cbv -[append]. reflexivity. Qed.

Section Edit.

Variable E : host.

(** What [edit] writes is what [config_for] hands to the YAML loader
    afterwards, as long as the editor leaves the file as written.  Whether
    that text loads, and to which session name, is the loader's matter. *)
Lemma edit_then_config_for (env : string) (w : world) :
  let config_file := path_join (configs E) (env +:+ ".yml") in
  let text := template_head +:+ env +:+ template_tail in
  let written := <[config_file := File text]> (fs w) in
  fs w !! configs E = Some Dir ->
  fs w !! config_file = None ->
  is_dir (fs w) (dirname config_file) = true ->
  fst (subprocess_call E (log w) [py_str (editor E); config_file] written) = written ->
  fst (edit E env w) = Ok tt
  /\ fs (snd (edit E env w)) = written
  /\ fst (config_for E env (snd (edit E env w)))
     = match yaml_load E text with
       | Some config => Ok config
       | None => Raise YAMLError
       end.
Proof.
  cbv zeta. destruct w as [m lines out l]. simpl. intros Hdir Hnew Hparent Heditor.
  unfold edit. rewrite format_config_template.
  unfold bind, os_path_exists, lift, write_file. simpl.
  rewrite Hdir. simpl. rewrite Hnew. simpl. rewrite Hnew, Hparent. simpl.
  rewrite (run_eq _ _ _ _ _ (cl_editor _ _)). unfold call. simpl.
  destruct (subprocess_call E _ _ _) as [m' status]. simpl in *. subst m'.
  split; [reflexivity |]. split; [reflexivity |].
  unfold config_for, bind, os_path_exists, read_file. simpl.
  rewrite lookup_insert_eq. simpl. rewrite lookup_insert_eq.
  now destruct (yaml_load E _).
Qed.

End Edit.

(** * Further properties *)

(** ** Formatting *)

Lemma snoc_append (s : string) (c : ascii) (t : string) :
  snoc s c +:+ t = s +:+ String c t.
Proof.
  induction s as [|a s IH]; [reflexivity |].
  simpl snoc. rewrite !append_cons. now rewrite IH.
Qed.

Lemma format_from_char (kw : kwargs) (c : ascii) (s : string) :
  is_brace c = false ->
  format_from kw None (String c s) = result_map (String c) (format_from kw None s).
Proof.
  intros H.
  destruct c as [[] [] [] [] [] [] [] []]; try discriminate H; reflexivity.
Qed.

Lemma format_from_name_char (kw : kwargs) (acc : string) (c : ascii) (s : string) :
  Ascii.eqb c "}" = false ->
  format_from kw (Some acc) (String c s) = format_from kw (Some (snoc acc c)) s.
Proof.
  intros H.
  destruct c as [[] [] [] [] [] [] [] []]; try discriminate H; reflexivity.
Qed.

Lemma format_from_open (kw : kwargs) (c : ascii) (s : string) :
  Ascii.eqb c "{" = false ->
  format_from kw None (String "{" (String c s))
  = format_from kw (Some EmptyString) (String c s).
Proof.
  intros H.
  destruct c as [[] [] [] [] [] [] [] []]; try discriminate H; reflexivity.
Qed.

(** Inside a field, the name runs to the first closing brace. *)
Lemma format_from_field (kw : kwargs) (acc name rest : string) :
  string_existsb (fun c => Ascii.eqb c "}") name = false ->
  format_from kw (Some acc) (name +:+ String "}" rest)
  = result_bind (render_field (acc +:+ name) kw) (fun v =>
      result_map (String.append v) (format_from kw None rest)).
Proof.
  revert acc. induction name as [|c name IH]; intros acc Hname.
  - now rewrite append_empty_r.
  - simpl in Hname. apply orb_false_iff in Hname as [Hc Hname].
    rewrite append_cons, (format_from_name_char _ _ _ _ Hc), (IH _ Hname).
    now rewrite snoc_append.
Qed.

Lemma split_on_no_sep (sep : ascii) (s : string) :
  string_existsb (fun c => Ascii.eqb c sep) s = false -> split_on sep s = [s].
Proof.
  induction s as [|c s IH]; [reflexivity |]. simpl. intros H.
  apply orb_false_iff in H as [Hc Hs]. now rewrite Hc, (IH Hs).
Qed.

Lemma string_existsb_weaken (p q : ascii -> bool) (s : string) :
  (forall c, q c = true -> p c = true) ->
  string_existsb p s = false -> string_existsb q s = false.
Proof.
  intros Hpq. induction s as [|c s IH]; [reflexivity |]. simpl. intros H.
  apply orb_false_iff in H as [Hc Hs]. rewrite (IH Hs), orb_false_r.
  destruct (q c) eqn:Hq; [| reflexivity]. now rewrite (Hpq c Hq) in Hc.
Qed.

(** X1: a template that is one plain field becomes one argument, the value
    of the field as a string, whatever characters the value has (spaces,
    braces); with no keyword argument of that name, [command_list] raises
    [KeyError]. *)
Theorem command_list_field (name : string) (kw : kwargs) :
  plain_field name ->
  command_list ("{" +:+ name +:+ "}") kw
  = match kw_lookup name kw with
    | Some v => Ok [py_str v]
    | None => Raise (KeyError name)
    end.
Proof.
  intros (Hdigits & Hspecial & Hclose). unfold command_list.
  assert (Hspace : string_existsb (fun c => Ascii.eqb c " ") name = false).
  { revert Hclose. apply string_existsb_weaken. intros c ->. apply orb_true_r. }
  assert (Hbrace : string_existsb (fun c => Ascii.eqb c "}") name = false).
  { revert Hclose. apply string_existsb_weaken. now intros c ->. }
  rewrite split_on_no_sep.
  2:{ rewrite append_cons. change (EmptyString +:+ name +:+ "}") with (name +:+ "}").
      simpl. rewrite string_existsb_append, Hspace. reflexivity. }
  simpl map_result. unfold format.
  destruct name as [|c name]; [discriminate Hdigits |].
  change ("{" +:+ String c name +:+ "}") with (String "{" (String c (name +:+ "}"))).
  rewrite format_from_open.
  2:{ simpl in Hspecial. apply orb_false_iff in Hspecial as [Hc _].
      unfold special_field_char in Hc. now apply orb_false_iff in Hc as [_ Hc]. }
  change (String c (name +:+ "}")) with (String c name +:+ String "}" EmptyString).
  rewrite (format_from_field kw EmptyString (String c name) EmptyString Hbrace).
  change (EmptyString +:+ String c name) with (String c name).
  unfold render_field. rewrite Hdigits, Hspecial.
  destruct (kw_lookup (String c name) kw) as [v|]; [| reflexivity].
  simpl. now rewrite append_empty_r.
Qed.

(** A command whose value has spaces and braces in it. *)
Lemma command_list_field_witness :
  plain_field "command"
  /\ command_list "{command}" [("command", PStr "echo {a} b")] = Ok ["echo {a} b"]
  /\ command_list "{command}" [("other", PStr "x")] = Raise (KeyError "command").
Proof.
  assert (H : plain_field "command") by (repeat split).
  pose proof (command_list_field "command" [("command", PStr "echo {a} b")] H) as H1.
  pose proof (command_list_field "command" [("other", PStr "x")] H) as H2.
  split; [exact H |]. split; [exact H1 | exact H2].
Defined.

Lemma format_from_plain (kw : kwargs) (s : string) :
  string_existsb is_brace s = false -> format_from kw None s = Ok s.
Proof.
  induction s as [|c s IH]; [reflexivity |]. intros H. simpl in H.
  apply orb_false_iff in H as [Hc Hs].
  now rewrite (format_from_char _ _ _ Hc), (IH Hs).
Qed.

Lemma split_on_plain (sep : ascii) (p : ascii -> bool) (s : string) :
  string_existsb p s = false ->
  Forall (fun part => string_existsb p part = false) (split_on sep s).
Proof.
  induction s as [|c s IH]; simpl; intros H.
  - repeat constructor.
  - apply orb_false_iff in H as [Hc Hs]. specialize (IH Hs).
    destruct (Ascii.eqb c sep); [constructor; [reflexivity | exact IH] |].
    destruct (split_on sep s) as [|part parts].
    + repeat constructor. simpl. now rewrite Hc.
    + inversion IH as [|? ? Hpart Hparts]; subst.
      constructor; [| exact Hparts]. simpl. now rewrite Hc, Hpart.
Qed.

Lemma map_result_all_Ok {A} (f : A -> result A) (xs : list A) :
  Forall (fun x => f x = Ok x) xs -> map_result f xs = Ok xs.
Proof.
  induction 1 as [|x xs Hx _ IH]; [reflexivity |].
  simpl. now rewrite Hx, IH.
Qed.

Lemma split_on_not_nil (sep : ascii) (s : string) : split_on sep s <> [].
Proof.
  intros H. apply (f_equal length) in H. rewrite split_on_length in H.
  discriminate H.
Qed.

Lemma join_cons (sep p : string) (ps : list string) :
  ps <> [] -> join sep (p :: ps) = p +:+ sep +:+ join sep ps.
Proof. destruct ps; [congruence | reflexivity]. Qed.

(** Splitting on a character and joining with it gives the string back. *)
Lemma join_split_on (sep : ascii) (s : string) :
  join (String sep EmptyString) (split_on sep s) = s.
Proof.
  induction s as [|c s IH]; [reflexivity |]. simpl.
  destruct (Ascii.eqb_spec c sep) as [-> | Hne].
  - rewrite join_cons by apply split_on_not_nil. now rewrite IH.
  - pose proof (split_on_not_nil sep s) as Hnil.
    destruct (split_on sep s) as [|p ps]; [congruence |].
    destruct ps as [|q ps]; [simpl in *; now rewrite IH |].
    rewrite join_cons by discriminate. rewrite join_cons in IH by discriminate.
    rewrite append_cons. now rewrite IH.
Qed.

(** X2: a template without braces is split and nothing else, whatever the
    keyword arguments, and joining the arguments with single spaces gives
    the template back. *)
Theorem command_list_literal (template : string) (kw : kwargs) :
  string_existsb is_brace template = false ->
  command_list template kw = Ok (split_on " " template)
  /\ join " " (split_on " " template) = template.
Proof.
  intros H. split; [| apply join_split_on].
  unfold command_list. apply map_result_all_Ok.
  eapply Forall_impl; [apply (split_on_plain _ _ _ H) |].
  intros part Hpart. now apply format_from_plain.
Qed.

Lemma command_list_literal_witness :
  string_existsb is_brace "tmux  kill-server" = false
  /\ command_list "tmux  kill-server" [] = Ok ["tmux"; ""; "kill-server"]
  /\ join " " ["tmux"; ""; "kill-server"] = "tmux  kill-server".
Proof.
  assert (H : string_existsb is_brace "tmux  kill-server" = false) by reflexivity.
  pose proof (command_list_literal "tmux  kill-server" [] H) as [H1 H2].
  split; [exact H |]. split; [exact H1 | exact H2].
Defined.

(** ** Missing and settled prerequisites *)

Lemma without_tree_under (d p : string) (m : gmap string node) :
  under d p = true -> without_tree d m !! p = None.
Proof.
  intros H. apply map_lookup_filter_None_2. right. intros x _. simpl. congruence.
Qed.

Lemma without_tree_other (d p : string) (m : gmap string node) :
  under d p = false -> without_tree d m !! p = m !! p.
Proof.
  intros H. destruct (m !! p) as [x|] eqn:Hp.
  - now apply map_lookup_filter_Some_2.
  - apply map_lookup_filter_None_2. now left.
Qed.

(** X3: when [config_for] fails, for whatever reason (no file, a directory
    in its place, a text the loader rejects), [start] and [rebuild] fail
    the same way at once: no process is started, nothing is written or
    printed. *)
Theorem no_configuration_no_effect (E : host) (env : string) (w : world) (e : exn) :
  fst (config_for E env w) = Raise e ->
  start E env w = (Raise e, w) /\ rebuild E env w = (Raise e, w).
Proof.
  intros H. pose proof (config_for_world E env w) as Hw.
  unfold start, rebuild, bind.
  destruct (config_for E env w) as [r w']. simpl in *. subst. auto.
Qed.

Lemma no_configuration_no_effect_witness :
  fst (config_for (sample_host 1) "other" (sample_world ["x"]))
  = Raise (Exception ("No configuration found for environment " +:+ dquote
                      +:+ "other" +:+ dquote
                      +:+ ". (Checked: /home/u/.tenper/other.yml)"))
  /\ snd (start (sample_host 1) "other" (sample_world ["x"])) = sample_world ["x"]
  /\ snd (rebuild (sample_host 1) "other" (sample_world ["x"])) = sample_world ["x"].
Proof.
  assert (H : fst (config_for (sample_host 1) "other" (sample_world ["x"]))
              = Raise (Exception ("No configuration found for environment " +:+ dquote
                                  +:+ "other" +:+ dquote
                                  +:+ ". (Checked: /home/u/.tenper/other.yml)")))
    by (vm_compute; reflexivity).
  pose proof (no_configuration_no_effect _ "other" (sample_world ["x"]) _ H) as [H1 H2].
  split; [exact H |]. split; [now rewrite H1 | now rewrite H2].
Defined.

(** X4: [confirm_virtualenv] without deletion is a no-op, leaving the
    world as it is, when the configuration has no virtualenv or when
    something already exists at the virtualenv path. *)
Theorem confirm_virtualenv_settled (E : host) (config : config) (w : world) :
  virtualenv config = None
  \/ (exists venv, virtualenv config = Some venv
                   /\ is_Some (fs w !! virtualenv_dir E config venv)) ->
  confirm_virtualenv E config false w = (Ok tt, w).
Proof.
  unfold confirm_virtualenv. intros [-> | (venv & -> & [x Hx])]; [reflexivity |].
  unfold bind, os_path_exists. now rewrite Hx.
Qed.

Lemma confirm_virtualenv_settled_witness :
  (exists venv, virtualenv sample_config = Some venv
                /\ is_Some (fs (sample_world_with_virtualenv [])
                              !! virtualenv_dir (sample_host 1) sample_config venv))
  /\ confirm_virtualenv (sample_host 1) sample_config false
       (sample_world_with_virtualenv [])
     = (Ok tt, sample_world_with_virtualenv []).
Proof.
  assert (H : exists venv, virtualenv sample_config = Some venv
                /\ is_Some (fs (sample_world_with_virtualenv [])
                              !! virtualenv_dir (sample_host 1) sample_config venv)).
  { eexists. split; [reflexivity |]. vm_compute. eauto. }
  pose proof (confirm_virtualenv_settled (sample_host 1) sample_config
                (sample_world_with_virtualenv []) (or_intror H)) as H1.
  split; [exact H | exact H1].
Defined.

(** ** Rebuilding, when there is something to rebuild *)

(** X5: for a configuration with a virtualenv whose directory exists,
    [rebuild] removes the directory with everything below it, leaves every
    other path alone, and then runs the virtualenv command once, on the
    filesystem so cleaned; for a configuration without virtualenv it does
    nothing at all. *)
Theorem rebuild_existing_virtualenv (E : host) (env : string) (w : world)
    (config : config) :
  fst (config_for E env w) = Ok config ->
  match virtualenv config with
  | None => rebuild E env w = (Ok tt, w)
  | Some venv =>
      let dir := virtualenv_dir E config venv in
      fs w !! dir = Some Dir ->
      let cleaned := without_tree dir (fs w) in
      let argv := ["virtualenv"; "-p"; default "/usr/bin/python" (python_binary venv);
                   if default false (site_packages venv)
                   then "--system-site-packages" else "--no-site-packages"; dir] in
      rebuild E env w
      = (Ok tt, add_log (Call argv)
                  (set_fs (fst (subprocess_call E (log w) argv cleaned)) w))
      /\ (forall p, under dir p = true -> cleaned !! p = None)
      /\ (forall p, under dir p = false -> cleaned !! p = fs w !! p)
  end.
Proof.
  intros Hconfig.
  assert (Hrun : rebuild E env w = confirm_virtualenv E config true w).
  { unfold rebuild. unfold bind at 1.
    now rewrite (config_for_found E env w config Hconfig). }
  rewrite Hrun. unfold confirm_virtualenv.
  destruct (virtualenv config) as [venv|]; [| reflexivity].
  cbv zeta. intros Hdir. split; [| split].
  - unfold bind, os_path_exists, when, shutil_rmtree.
    rewrite Hdir. simpl. rewrite Hdir.
    rewrite (run_eq _ _ _ _ _ (cl_virtualenv _ _ _)). unfold call. simpl.
    now destruct (subprocess_call E _ _ _).
  - intros p. apply without_tree_under.
  - intros p. apply without_tree_other.
Qed.

Lemma rebuild_existing_virtualenv_witness :
  fst (config_for (sample_host 1) "proj" (sample_world_with_virtualenv []))
  = Ok sample_config
  /\ fs (sample_world_with_virtualenv []) !! "/home/u/.virtualenvs/proj" = Some Dir
  /\ fs (snd (rebuild (sample_host 1) "proj" (sample_world_with_virtualenv [])))
       !! "/home/u/.virtualenvs/proj/bin" = None.
Proof.
  assert (H1 : fst (config_for (sample_host 1) "proj" (sample_world_with_virtualenv []))
               = Ok sample_config) by (vm_compute; reflexivity).
  assert (H2 : fs (sample_world_with_virtualenv []) !! "/home/u/.virtualenvs/proj"
               = Some Dir) by (vm_compute; reflexivity).
  pose proof (rebuild_existing_virtualenv (sample_host 1) "proj"
                (sample_world_with_virtualenv []) sample_config H1) as H.
  simpl in H.
  split; [exact H1 |]. split; [exact H2 |].
  destruct (H H2) as (Hrun & _ & _). rewrite Hrun. vm_compute. reflexivity.
Defined.

(** ** Deleting, when the virtualenv goes too or was never there *)

Lemma prefix_cons (a b : ascii) (s t : string) :
  String.prefix (String a s) (String b t)
  = if ascii_dec a b then String.prefix s t else false.
Proof. reflexivity. Qed.

Lemma prefix_append_same (a b c : string) :
  String.prefix (a +:+ b) (a +:+ c) = String.prefix b c.
Proof.
  induction a as [|x a IH]; [reflexivity |].
  rewrite !append_cons, prefix_cons. now destruct (ascii_dec x x).
Qed.

Section DeletePaths.

Variable E : host.

(** The configuration file of an environment is never inside its
    virtualenv. *)
Lemma config_file_not_under_virtualenv (env : string) :
  under (path_join (virtualenvs E) env) (path_join (configs E) (env +:+ ".yml"))
  = false.
Proof.
  unfold under. apply orb_false_iff. split.
  - apply String.eqb_neq. intros H. symmetry in H.
    now apply virtualenv_not_config_file in H.
  - destruct (String.prefix "/" env) eqn:Habs.
    + rewrite !path_join_absolute by now rewrite ?prefix_slash_yml.
      now rewrite prefix_append_same.
    + rewrite virtualenv_relative, config_file_relative
        by now rewrite ?prefix_slash_yml.
      rewrite !append_assoc, !prefix_append_same. reflexivity.
Qed.

Lemma config_file_not_configs (env : string) :
  path_join (configs E) (env +:+ ".yml") <> configs E.
Proof.
  intros H. destruct (String.prefix "/" env) eqn:Habs.
  - rewrite path_join_absolute, configs_eq in H by now rewrite prefix_slash_yml.
    apply (f_equal (ends_with ".yml")) in H. rewrite ends_with_append in H.
    replace (home E +:+ separator (home E) +:+ ".tenper")
      with (((home E +:+ separator (home E)) +:+ ".te") +:+ "nper") in H
      by now rewrite !append_assoc.
    now rewrite (ends_with_same_length ".yml" _ "nper" eq_refl) in H.
  - rewrite config_file_relative, configs_eq in H by now rewrite prefix_slash_yml.
    apply (f_equal String.length) in H. rewrite !append_length in H.
    simpl in H. lia.
Qed.

Lemma without_config_None (m : gmap string node) (env p : string) :
  m !! p = None -> without_config E m env !! p = None.
Proof.
  intros H. unfold without_config.
  destruct (base.delete _ m !! configs E) as [[|]|];
    [| destruct (dir_entries _ _) |].
  all: repeat (apply lookup_delete_None; right); exact H.
Qed.

Lemma delete_confirmed_run (env : string) (w : world) (resp : string)
    (rest : list string) (text : string) :
  let virtualenv := path_join (virtualenvs E) env in
  let config_file := path_join (configs E) (env +:+ ".yml") in
  fs w !! virtualenv = Some Dir ->
  stdin w = resp :: rest ->
  affirmative resp = true ->
  fs w !! config_file = Some (File text) ->
  delete E env w
  = (Ok tt,
     World (without_config E (without_tree virtualenv (fs w)) env) rest
       (stdout w
        ++ [Prompted ("There's a virtualenv for this environment in " +:+ virtualenv
                      +:+ ". Do you want to delete it? ");
            Printed ("Deleted " +:+ virtualenv +:+ ".");
            Printed ("Removed " +:+ config_file +:+ ".")])
       (log w)).
Proof.
  cbv zeta. destruct w as [m lines out l]. simpl. intros Hvenv -> Hresp Hfile.
  assert (Hkept : without_tree (path_join (virtualenvs E) env) m
                    !! path_join (configs E) (env +:+ ".yml") = Some (File text)).
  { rewrite without_tree_other; [exact Hfile |].
    apply config_file_not_under_virtualenv. }
  unfold delete, bind, os_path_exists. simpl. rewrite Hvenv. simpl.
  unfold ask, try_except, raw_input, bind. simpl. rewrite Hresp. simpl.
  unfold shutil_rmtree. simpl. rewrite Hvenv. simpl.
  unfold os_remove. simpl. fold (without_tree (path_join (virtualenvs E) env) m).
  rewrite Hkept. simpl.
  unfold os_rmdir, without_config, add_stdout, set_fs. simpl.
  rewrite <- !app_assoc. simpl.
  destruct (base.delete _ _ !! configs E) as [[|]|]; try reflexivity.
  now destruct (dir_entries _ _).
Qed.

Lemma delete_plain_run (env : string) (w : world) (text : string) :
  let config_file := path_join (configs E) (env +:+ ".yml") in
  fs w !! path_join (virtualenvs E) env = None ->
  fs w !! config_file = Some (File text) ->
  delete E env w
  = (Ok tt,
     World (without_config E (fs w) env) (stdin w)
       (stdout w ++ [Printed ("Removed " +:+ config_file +:+ ".")]) (log w)).
Proof.
  cbv zeta. destruct w as [m lines out l]. simpl. intros Hvenv Hfile.
  unfold delete, bind, os_path_exists. simpl. rewrite Hvenv. simpl.
  unfold os_remove. simpl. rewrite Hfile. simpl.
  unfold try_except, os_rmdir, without_config, add_stdout, set_fs. simpl.
  destruct (base.delete (path_join (configs E) (env +:+ ".yml")) m !! configs E)
    as [[|]|]; try reflexivity.
  now destruct (dir_entries _ _).
Qed.

(** The configuration directory survives [delete] exactly when something
    other than the deleted file is left in it. *)
Lemma without_config_cleanup (m : gmap string node) (env : string) :
  m !! configs E = Some Dir ->
  without_config E m env !! configs E = None
  <-> forall f, f ∈ dir_entries m (configs E) ->
                configs E +:+ "/" +:+ f = path_join (configs E) (env +:+ ".yml").
Proof.
  intros Hdir. unfold without_config.
  pose proof (config_file_not_configs env) as Hne.
  rewrite (lookup_delete_ne m) by exact Hne. rewrite Hdir.
  destruct (dir_entries (base.delete _ m) (configs E)) as [|g gs] eqn:Hentries.
  - rewrite lookup_delete_eq. split; [intros _ | reflexivity].
    intros f Hf. apply elem_of_dir_entries in Hf as (Hf1 & Hf2 & Hf3).
    destruct (decide (configs E +:+ "/" +:+ f = path_join (configs E) (env +:+ ".yml")))
      as [Heq | Hother]; [exact Heq | exfalso].
    assert (Hin : f ∈ dir_entries (base.delete (path_join (configs E) (env +:+ ".yml")) m)
                      (configs E)).
    { apply elem_of_dir_entries. repeat split; try assumption.
      rewrite lookup_delete_ne by congruence. exact Hf3. }
    rewrite Hentries in Hin. inversion Hin.
  - rewrite (lookup_delete_ne m) by exact Hne. rewrite Hdir.
    split; [discriminate |]. intros Hall. exfalso.
    assert (Hg : g ∈ dir_entries (base.delete (path_join (configs E) (env +:+ ".yml")) m)
                     (configs E)) by (rewrite Hentries; apply list_elem_of_here).
    apply elem_of_dir_entries in Hg as (Hg1 & Hg2 & [x Hg3]).
    apply lookup_delete_Some in Hg3 as [Hother Hg3].
    apply Hother. symmetry. apply Hall.
    apply elem_of_dir_entries. eauto.
Qed.

(** The configuration directory after [delete]: gone or as it was, and
    as it was unless it was a directory. *)
Lemma without_config_directory (m : gmap string node) (env : string) :
  (without_config E m env !! configs E = None
   \/ without_config E m env !! configs E = m !! configs E)
  /\ (m !! configs E <> Some Dir ->
      without_config E m env !! configs E = m !! configs E).
Proof.
  unfold without_config.
  pose proof (config_file_not_configs env) as Hne.
  rewrite (lookup_delete_ne m) by exact Hne.
  destruct (m !! configs E) as [[text|]|] eqn:Hdir.
  - rewrite lookup_delete_ne, Hdir by exact Hne. auto.
  - split; [| congruence].
    destruct (dir_entries _ _); [left; apply lookup_delete_eq |].
    right. now rewrite lookup_delete_ne by exact Hne.
  - rewrite lookup_delete_ne, Hdir by exact Hne. auto.
Qed.

End DeletePaths.

(** C5, amended: when [delete] asks about an existing virtualenv and the
    answer, blanks stripped, is none of the four affirmatives, the
    configuration file is removed all the same, and with it the
    configuration directory, exactly when that leaves it empty; no other
    path changes.  So the virtualenv stays, unless the environment is
    named by the path of the configuration directory itself, which is
    then the directory removed when empty.  Without a configuration file
    [delete] raises and changes nothing. *)
Theorem delete_declined (E : host) (env : string) (w : world) (resp : string)
    (rest : list string) :
  is_Some (fs w !! path_join (virtualenvs E) env) ->
  stdin w = resp :: rest ->
  affirmative resp = false ->
  let config_file := path_join (configs E) (env +:+ ".yml") in
  let after := fs (snd (delete E env w)) in
  match fs w !! config_file with
  | Some (File _) =>
      fst (delete E env w) = Ok tt
      /\ after !! config_file = None
      /\ (after !! configs E = None
          <-> fs w !! configs E = None
              \/ (fs w !! configs E = Some Dir
                  /\ forall f, f ∈ dir_entries (fs w) (configs E) ->
                               configs E +:+ "/" +:+ f = config_file))
      /\ (after !! configs E = None \/ after !! configs E = fs w !! configs E)
      /\ (forall p, p <> config_file -> p <> configs E -> after !! p = fs w !! p)
      /\ (env <> configs E ->
          after !! path_join (virtualenvs E) env
          = fs w !! path_join (virtualenvs E) env)
  | _ =>
      fst (delete E env w) = Raise (OSError config_file)
      /\ after = fs w
  end.
Proof.
  intros Hvenv Hin Hresp. cbv zeta.
  pose proof (delete_declined_run E env w resp rest Hvenv Hin Hresp) as H.
  destruct (fs w !! path_join (configs E) (env +:+ ".yml")) as [[text|]|];
    [| exact H | exact H].
  destruct H as [Hres ->].
  destruct (without_config_directory E (fs w) env) as [Hdir Hplain].
  split; [exact Hres |]. split; [apply without_config_gone |].
  split; [| split; [exact Hdir | split]].
  - destruct (fs w !! configs E) as [[other|]|] eqn:Hconfigs.
    + rewrite Hplain by discriminate. split; [discriminate |].
      intros [H | [H _]]; discriminate H.
    + rewrite (without_config_cleanup E (fs w) env Hconfigs).
      split; [auto |]. now intros [H | [_ H]]; [discriminate H |].
    + rewrite Hplain by discriminate. split; auto.
  - intros p H1 H2. now apply without_config_frame.
  - intros Hne. apply without_config_frame.
    + apply virtualenv_not_config_file.
    + now apply virtualenv_not_configs.
Qed.

(** Deleting the sample project and keeping its virtualenv: the
    configuration file goes, the configuration directory stays because of
    the notes in it. *)
Lemma delete_declined_witness :
  is_Some (fs (sample_world_with_virtualenv ["n"])
             !! path_join (virtualenvs (sample_host 1)) "proj")
  /\ affirmative "n" = false
  /\ fst (delete (sample_host 1) "proj" (sample_world_with_virtualenv ["n"])) = Ok tt
  /\ fs (snd (delete (sample_host 1) "proj" (sample_world_with_virtualenv ["n"])))
       !! "/home/u/.tenper/proj.yml" = None
  /\ fs (snd (delete (sample_host 1) "proj" (sample_world_with_virtualenv ["n"])))
       !! "/home/u/.tenper" = Some Dir
  /\ fs (snd (delete (sample_host 1) "proj" (sample_world_with_virtualenv ["n"])))
       !! "/home/u/.virtualenvs/proj" = Some Dir.
Proof.
  assert (H1 : is_Some (fs (sample_world_with_virtualenv ["n"])
                          !! path_join (virtualenvs (sample_host 1)) "proj"))
    by (vm_compute; eauto).
  assert (H2 : affirmative "n" = false) by reflexivity.
  pose proof (delete_declined (sample_host 1) "proj"
                (sample_world_with_virtualenv ["n"]) "n" [] H1 eq_refl H2) as H.
  cbv zeta in H.
  assert (Hfile : fs (sample_world_with_virtualenv ["n"])
                    !! path_join (configs (sample_host 1)) ("proj" +:+ ".yml")
                  = Some (File "proj")) by (vm_compute; reflexivity).
  rewrite Hfile in H. destruct H as (Hres & Hgone & Hiff & Hdir & _ & Hkeep).
  assert (Hname : "proj" <> configs (sample_host 1)) by (vm_compute; discriminate).
  assert (Hpath : path_join (virtualenvs (sample_host 1)) "proj"
                  = "/home/u/.virtualenvs/proj") by (vm_compute; reflexivity).
  assert (Hcfile : path_join (configs (sample_host 1)) ("proj" +:+ ".yml")
                   = "/home/u/.tenper/proj.yml") by (vm_compute; reflexivity).
  assert (Hconfigs : configs (sample_host 1) = "/home/u/.tenper")
    by (vm_compute; reflexivity).
  assert (Hwas : fs (sample_world_with_virtualenv ["n"]) !! "/home/u/.tenper" = Some Dir)
    by (vm_compute; reflexivity).
  rewrite Hpath in Hkeep. rewrite Hcfile in Hgone, Hiff. rewrite Hconfigs in Hiff, Hdir.
  split; [exact H1 |]. split; [exact H2 |]. split; [exact Hres |].
  split; [exact Hgone |]. split.
  - destruct Hdir as [Hnone | Hsame]; [exfalso | now rewrite Hsame].
    apply Hiff in Hnone as [Hnone | [_ Hall]]; [congruence |].
    assert (Hin : "notes.txt" ∈ dir_entries (fs (sample_world_with_virtualenv ["n"]))
                                  "/home/u/.tenper").
    { apply elem_of_dir_entries.
      split; [discriminate | split; [reflexivity | vm_compute; eauto]]. }
    specialize (Hall _ Hin). discriminate Hall.
  - rewrite (Hkeep Hname). vm_compute. reflexivity.
Defined.

(** X6: when [delete] asks about an existing virtualenv directory and the
    answer, blanks stripped, is one of yes/YES/y/Y, the directory goes with
    everything below it, then the configuration file; nothing else changes
    but the configuration directory, removed if left empty.  One line of
    input is consumed, no process is started. *)
Theorem delete_confirmed (E : host) (env : string) (w : world) (resp : string)
    (rest : list string) (text : string) :
  fs w !! path_join (virtualenvs E) env = Some Dir ->
  stdin w = resp :: rest ->
  affirmative resp = true ->
  fs w !! path_join (configs E) (env +:+ ".yml") = Some (File text) ->
  let after := snd (delete E env w) in
  fst (delete E env w) = Ok tt
  /\ (forall p, under (path_join (virtualenvs E) env) p = true -> fs after !! p = None)
  /\ fs after !! path_join (configs E) (env +:+ ".yml") = None
  /\ (forall p, under (path_join (virtualenvs E) env) p = false ->
                p <> path_join (configs E) (env +:+ ".yml") -> p <> configs E ->
                fs after !! p = fs w !! p)
  /\ stdin after = rest
  /\ log after = log w.
Proof.
  intros Hvenv Hin Hresp Hfile. cbv zeta.
  rewrite (delete_confirmed_run E env w resp rest text Hvenv Hin Hresp Hfile).
  simpl. repeat split.
  - intros p Hp. apply without_config_None. now apply without_tree_under.
  - apply without_config_gone.
  - intros p Hp H1 H2. rewrite without_config_frame by assumption.
    now apply without_tree_other.
Qed.

Lemma delete_confirmed_witness :
  affirmative " yes " = true
  /\ fst (delete (sample_host 1) "proj" (sample_world_with_virtualenv [" yes "]))
     = Ok tt
  /\ fs (snd (delete (sample_host 1) "proj" (sample_world_with_virtualenv [" yes "])))
       !! "/home/u/.virtualenvs/proj/bin" = None
  /\ fs (snd (delete (sample_host 1) "proj" (sample_world_with_virtualenv [" yes "])))
       !! "/home/u/.tenper/notes.txt" = Some (File "to do").
Proof.
  assert (H1 : fs (sample_world_with_virtualenv [" yes "])
                 !! path_join (virtualenvs (sample_host 1)) "proj" = Some Dir)
    by (vm_compute; reflexivity).
  assert (H2 : affirmative " yes " = true) by reflexivity.
  assert (H3 : fs (sample_world_with_virtualenv [" yes "])
                 !! path_join (configs (sample_host 1)) ("proj" +:+ ".yml")
               = Some (File "proj")) by (vm_compute; reflexivity).
  pose proof (delete_confirmed (sample_host 1) "proj"
                (sample_world_with_virtualenv [" yes "]) " yes " [] "proj"
                H1 eq_refl H2 H3) as H.
  cbv zeta in H. destruct H as (Hres & Hgone & _ & Hkeep & _).
  split; [exact H2 |]. split; [exact Hres |]. split.
  - apply Hgone. vm_compute. reflexivity.
  - rewrite Hkeep; [vm_compute; reflexivity | vm_compute; reflexivity | |];
      vm_compute; discriminate.
Defined.

(** X7: without a virtualenv at [~/.virtualenvs/<env>] [delete] asks
    nothing: standard input is left alone, no process is started, the
    configuration file is removed and reported, and nothing else changes
    but the configuration directory, removed if left empty.  Without a
    configuration file it raises [OSError] and changes nothing. *)
Theorem delete_without_virtualenv (E : host) (env : string) (w : world) :
  fs w !! path_join (virtualenvs E) env = None ->
  let config_file := path_join (configs E) (env +:+ ".yml") in
  let after := snd (delete E env w) in
  match fs w !! config_file with
  | Some (File _) =>
      fst (delete E env w) = Ok tt
      /\ fs after !! config_file = None
      /\ (forall p, p <> config_file -> p <> configs E -> fs after !! p = fs w !! p)
      /\ stdin after = stdin w
      /\ stdout after = stdout w ++ [Printed ("Removed " +:+ config_file +:+ ".")]
      /\ log after = log w
  | _ => delete E env w = (Raise (OSError config_file), w)
  end.
Proof.
  intros Hvenv. cbv zeta.
  destruct (fs w !! path_join (configs E) (env +:+ ".yml")) as [[text|]|] eqn:Hfile.
  - rewrite (delete_plain_run E env w text Hvenv Hfile). simpl. repeat split.
    + apply without_config_gone.
    + intros p H1 H2. now apply without_config_frame.
  - destruct w as [m lines out l]. simpl in *.
    unfold delete, bind, os_path_exists, os_remove. simpl.
    rewrite Hvenv. simpl. now rewrite Hfile.
  - destruct w as [m lines out l]. simpl in *.
    unfold delete, bind, os_path_exists, os_remove. simpl.
    rewrite Hvenv. simpl. now rewrite Hfile.
Qed.

Lemma delete_without_virtualenv_witness :
  fs (sample_world ["y"]) !! path_join (virtualenvs (sample_host 1)) "proj" = None
  /\ fst (delete (sample_host 1) "proj" (sample_world ["y"])) = Ok tt
  /\ stdin (snd (delete (sample_host 1) "proj" (sample_world ["y"]))) = ["y"]
  /\ delete (sample_host 1) "other" (sample_world ["y"])
     = (Raise (OSError "/home/u/.tenper/other.yml"), sample_world ["y"]).
Proof.
  assert (H1 : fs (sample_world ["y"])
                 !! path_join (virtualenvs (sample_host 1)) "proj" = None)
    by (vm_compute; reflexivity).
  assert (H2 : fs (sample_world ["y"])
                 !! path_join (virtualenvs (sample_host 1)) "other" = None)
    by (vm_compute; reflexivity).
  pose proof (delete_without_virtualenv (sample_host 1) "proj" (sample_world ["y"]) H1)
    as Hproj.
  pose proof (delete_without_virtualenv (sample_host 1) "other" (sample_world ["y"]) H2)
    as Hother.
  cbv zeta in Hproj, Hother.
  assert (Hfile : fs (sample_world ["y"])
                    !! path_join (configs (sample_host 1)) ("proj" +:+ ".yml")
                  = Some (File "proj")) by (vm_compute; reflexivity).
  assert (Hnone : fs (sample_world ["y"])
                    !! path_join (configs (sample_host 1)) ("other" +:+ ".yml")
                  = None) by (vm_compute; reflexivity).
  rewrite Hfile in Hproj. rewrite Hnone in Hother.
  destruct Hproj as (Hres & _ & _ & Hin & _).
  split; [exact H1 |]. split; [exact Hres |]. split; [exact Hin |].
  rewrite Hother. vm_compute. reflexivity.
Defined.

(** X8: after a [delete] that asked nothing, the configuration directory
    is gone exactly when the deleted file was its only entry. *)
Theorem delete_cleans_up (E : host) (env : string) (w : world) (text : string) :
  fs w !! path_join (virtualenvs E) env = None ->
  fs w !! path_join (configs E) (env +:+ ".yml") = Some (File text) ->
  fs w !! configs E = Some Dir ->
  fs (snd (delete E env w)) !! configs E = None
  <-> forall f, f ∈ dir_entries (fs w) (configs E) ->
                configs E +:+ "/" +:+ f = path_join (configs E) (env +:+ ".yml").
Proof.
  intros Hvenv Hfile Hdir.
  rewrite (delete_plain_run E env w text Hvenv Hfile). simpl.
  now apply without_config_cleanup.
Qed.

Lemma delete_cleans_up_witness :
  fs (sample_world []) !! configs (sample_host 1) = Some Dir
  /\ fs (snd (delete (sample_host 1) "proj" (sample_world []))) !! configs (sample_host 1)
     = Some Dir
  /\ "notes.txt" ∈ dir_entries (fs (sample_world [])) (configs (sample_host 1)).
Proof.
  assert (H1 : fs (sample_world []) !! path_join (virtualenvs (sample_host 1)) "proj"
               = None) by (vm_compute; reflexivity).
  assert (H2 : fs (sample_world [])
                 !! path_join (configs (sample_host 1)) ("proj" +:+ ".yml")
               = Some (File "proj")) by (vm_compute; reflexivity).
  assert (H3 : fs (sample_world []) !! configs (sample_host 1) = Some Dir)
    by (vm_compute; reflexivity).
  pose proof (delete_cleans_up (sample_host 1) "proj" (sample_world []) "proj" H1 H2 H3)
    as H.
  assert (Hnotes : "notes.txt" ∈ dir_entries (fs (sample_world []))
                                   (configs (sample_host 1))).
  { apply elem_of_dir_entries. repeat split; [discriminate |]. vm_compute. eauto. }
  split; [exact H3 |]. split; [| exact Hnotes].
  destruct (fs (snd (delete (sample_host 1) "proj" (sample_world [])))
              !! configs (sample_host 1)) as [[t|]|] eqn:Hafter.
  - vm_compute in Hafter. discriminate Hafter.
  - reflexivity.
  - exfalso. apply proj1 in H. specialize (H eq_refl "notes.txt" Hnotes).
    vm_compute in H. discriminate H.
Defined.

(** ** Editing *)

Lemma upto_last_slash_none (s : string) :
  string_existsb is_slash s = false -> upto_last_slash s = EmptyString.
Proof. destruct s as [|c s]; [reflexivity |]. simpl. now intros ->. Qed.

Lemma upto_last_slash_append (d name : string) :
  string_existsb is_slash name = false ->
  upto_last_slash (d +:+ "/" +:+ name) = d +:+ "/".
Proof.
  intros Hname. induction d as [|c d IH].
  - change (EmptyString +:+ "/" +:+ name) with (String "/" name).
    simpl. now rewrite (upto_last_slash_none _ Hname).
  - change (String c d +:+ "/" +:+ name) with (String c (d +:+ "/" +:+ name)).
    change (String c d +:+ "/") with (String c (d +:+ "/")).
    change (upto_last_slash (String c (d +:+ "/" +:+ name)))
      with (if string_existsb is_slash (String c (d +:+ "/" +:+ name))
            then String c (upto_last_slash (d +:+ "/" +:+ name)) else EmptyString).
    rewrite IH. replace (string_existsb is_slash (String c (d +:+ "/" +:+ name)))
      with true; [reflexivity |].
    simpl. rewrite string_existsb_append. simpl. now rewrite !orb_true_r.
Qed.

Lemma rstrip_with_drop (p : ascii -> bool) (s : string) (c : ascii) :
  p c = true -> rstrip_with p (s +:+ String c EmptyString) = rstrip_with p s.
Proof.
  intros Hc. induction s as [|a s IH].
  - simpl. now rewrite Hc.
  - rewrite append_cons. simpl. now rewrite IH.
Qed.

Lemma rstrip_with_keep (p : ascii -> bool) (s : string) (c : ascii) :
  p c = false -> rstrip_with p (s +:+ String c EmptyString) = s +:+ String c EmptyString.
Proof.
  intros Hc. induction s as [|a s IH].
  - simpl. now rewrite Hc.
  - rewrite append_cons. simpl. rewrite IH.
    destruct s; reflexivity.
Qed.

Lemma string_forallb_append (p : ascii -> bool) (s t : string) :
  string_forallb p (s +:+ t) = (string_forallb p s && string_forallb p t)%bool.
Proof.
  induction s as [|c s IH]; [reflexivity |].
  rewrite append_cons. simpl. rewrite IH. now rewrite andb_assoc.
Qed.

Section EditPaths.

Variable E : host.

(** The configuration file of a name without slash lies directly in the
    configuration directory. *)
Lemma dirname_config_file (env : string) :
  string_existsb is_slash env = false ->
  path_join (configs E) (env +:+ ".yml") = configs E +:+ "/" +:+ env +:+ ".yml"
  /\ dirname (path_join (configs E) (env +:+ ".yml")) = configs E.
Proof.
  intros Henv.
  assert (Hrel : String.prefix "/" (env +:+ ".yml") = false).
  { rewrite prefix_slash_yml. destruct env as [|c env]; [reflexivity |].
    simpl in Henv. apply orb_false_iff in Henv as [Hc _].
    rewrite prefix_cons. destruct (ascii_dec "/" c) as [<- |]; [discriminate Hc |].
    reflexivity. }
  assert (Hfile : path_join (configs E) (env +:+ ".yml")
                  = configs E +:+ "/" +:+ env +:+ ".yml").
  { rewrite (config_file_relative E _ Hrel), configs_eq. now rewrite !append_assoc. }
  split; [exact Hfile |]. rewrite Hfile. unfold dirname.
  rewrite upto_last_slash_append
    by (rewrite string_existsb_append, Henv; reflexivity).
  assert (Hconfigs : configs E = (home E +:+ separator (home E) +:+ ".tenpe") +:+ "r")
    by (rewrite configs_eq; now rewrite !append_assoc).
  replace (string_forallb is_slash (configs E +:+ "/")) with false.
  - rewrite (rstrip_with_drop is_slash (configs E) "/" eq_refl).
    rewrite Hconfigs. now apply rstrip_with_keep.
  - rewrite Hconfigs, !string_forallb_append. simpl.
    now rewrite andb_false_r.
Qed.

Lemma edit_new_run (env : string) (w : world) :
  let config_file := path_join (configs E) (env +:+ ".yml") in
  let argv := [py_str (editor E); config_file] in
  string_existsb is_slash env = false ->
  fs w !! configs E = Some Dir
  \/ (fs w !! configs E = None /\ is_dir (fs w) (dirname (configs E)) = true) ->
  fs w !! config_file = None ->
  edit E env w
  = (Ok tt, add_log (Call argv)
              (set_fs (fst (subprocess_call E (log w) argv (prepared_for E w env))) w)).
Proof.
  cbv zeta. intros Henv Hdir Hnew.
  destruct (dirname_config_file env Henv) as [_ Hparent].
  pose proof (config_file_not_configs E env) as Hne.
  destruct w as [m lines out l]. unfold prepared_for. simpl in *.
  unfold edit. rewrite format_config_template.
  unfold bind, os_path_exists, lift, write_file, os_mkdir. simpl.
  destruct Hdir as [Hdir | [Hdir Hhome]]; rewrite Hdir; simpl.
  - rewrite Hnew. simpl. rewrite Hnew, Hparent. unfold is_dir. rewrite Hdir. simpl.
    rewrite (run_eq _ _ _ _ _ (cl_editor _ _)). unfold call. simpl.
    rewrite (insert_id m (configs E) Dir Hdir).
    now destruct (subprocess_call E _ _ _).
  - rewrite Hdir, Hhome. simpl.
    rewrite (lookup_insert_ne m) by congruence. rewrite Hnew. simpl.
    rewrite (lookup_insert_ne m) by congruence. rewrite Hnew, Hparent.
    unfold is_dir. rewrite lookup_insert_eq. simpl.
    rewrite (run_eq _ _ _ _ _ (cl_editor _ _)). unfold call. simpl.
    now destruct (subprocess_call E _ _ _).
Qed.

End EditPaths.

(** X9: for a new environment whose name has no slash, and with EDITOR
    naming the editor (a program that can be started), [edit] makes the
    configuration directory if it is missing, writes the template with the
    name in place of its field to [<name>.yml] in it, and then starts the
    editor on that file: the editor is the first to see the new file, and
    [edit] itself changes nothing else. *)
Theorem edit_new_environment (E : host) (env : string) (w : world) (program : string) :
  environ E "EDITOR" = Some program ->
  string_existsb is_slash env = false ->
  fs w !! configs E = Some Dir
  \/ (fs w !! configs E = None /\ is_dir (fs w) (dirname (configs E)) = true) ->
  fs w !! path_join (configs E) (env +:+ ".yml") = None ->
  let config_file := path_join (configs E) (env +:+ ".yml") in
  let argv := [program; config_file] in
  edit E env w
  = (Ok tt, add_log (Call argv)
              (set_fs (fst (subprocess_call E (log w) argv (prepared_for E w env))) w))
  /\ prepared_for E w env !! config_file
     = Some (File (template_head +:+ env +:+ template_tail))
  /\ prepared_for E w env !! configs E = Some Dir
  /\ (forall p, p <> config_file -> p <> configs E ->
                prepared_for E w env !! p = fs w !! p).
Proof.
  intros Heditor Henv Hdir Hnew. cbv zeta. split.
  - rewrite (edit_new_run E env w Henv Hdir Hnew). unfold editor.
    now rewrite Heditor.
  - pose proof (config_file_not_configs E env) as Hne.
    unfold prepared_for. split; [apply lookup_insert_eq |]. split.
    + rewrite lookup_insert_ne by exact Hne. apply lookup_insert_eq.
    + intros p H1 H2. now rewrite !lookup_insert_ne by congruence.
Qed.

Lemma edit_new_environment_witness :
  environ sample_host_with_editor "EDITOR" = Some "vim"
  /\ string_existsb is_slash "new" = false
  /\ fst (edit sample_host_with_editor "new" (sample_world [])) = Ok tt
  /\ log (snd (edit sample_host_with_editor "new" (sample_world [])))
     = [Call ["vim"; "/home/u/.tenper/new.yml"]]
  /\ is_Some (fs (snd (edit sample_host_with_editor "new" (sample_world [])))
                !! "/home/u/.tenper/new.yml").
Proof.
  assert (H0 : environ sample_host_with_editor "EDITOR" = Some "vim") by reflexivity.
  assert (H1 : string_existsb is_slash "new" = false) by reflexivity.
  assert (H2 : fs (sample_world []) !! configs sample_host_with_editor = Some Dir)
    by (vm_compute; reflexivity).
  assert (H3 : fs (sample_world [])
                 !! path_join (configs sample_host_with_editor) ("new" +:+ ".yml") = None)
    by (vm_compute; reflexivity).
  pose proof (edit_new_environment sample_host_with_editor "new" (sample_world []) "vim"
                H0 H1 (or_introl H2) H3) as H.
  cbv zeta in H. destruct H as (Hrun & Hfile & _).
  split; [exact H0 |]. split; [exact H1 |]. rewrite Hrun.
  split; [reflexivity |]. split.
  - vm_compute. reflexivity.
  - assert (Hpath : path_join (configs sample_host_with_editor) ("new" +:+ ".yml")
                    = "/home/u/.tenper/new.yml") by (vm_compute; reflexivity).
    rewrite Hpath in Hfile. simpl. rewrite Hfile. eauto.
Defined.

(** X10: [edit] never rewrites a configuration that exists: with the
    directory and the file in place, and with EDITOR naming the editor (a
    program that can be started), it starts the editor on the file, on the
    filesystem as it is, and does nothing else. *)
Theorem edit_existing_environment (E : host) (env : string) (w : world)
    (program : string) :
  environ E "EDITOR" = Some program ->
  is_Some (fs w !! configs E) ->
  is_Some (fs w !! path_join (configs E) (env +:+ ".yml")) ->
  let argv := [program; path_join (configs E) (env +:+ ".yml")] in
  edit E env w
  = (Ok tt, add_log (Call argv)
              (set_fs (fst (subprocess_call E (log w) argv (fs w))) w)).
Proof.
  intros Heditor [d Hdir] [f Hfile]. cbv zeta.
  unfold edit, bind, os_path_exists. simpl. rewrite Hdir. simpl.
  rewrite Hfile. simpl.
  rewrite (run_eq _ _ _ _ _ (cl_editor _ _)). unfold call, editor. simpl.
  rewrite Heditor. now destruct (subprocess_call E _ _ _).
Qed.

Lemma edit_existing_environment_witness :
  environ sample_host_with_editor "EDITOR" = Some "vim"
  /\ is_Some (fs (sample_world []) !! configs sample_host_with_editor)
  /\ is_Some (fs (sample_world [])
                !! path_join (configs sample_host_with_editor) ("proj" +:+ ".yml"))
  /\ edit sample_host_with_editor "proj" (sample_world [])
     = (Ok tt, World sample_fs [] [] [Call ["vim"; "/home/u/.tenper/proj.yml"]]).
Proof.
  assert (H0 : environ sample_host_with_editor "EDITOR" = Some "vim") by reflexivity.
  assert (H1 : is_Some (fs (sample_world []) !! configs sample_host_with_editor))
    by (vm_compute; eauto).
  assert (H2 : is_Some (fs (sample_world [])
                          !! path_join (configs sample_host_with_editor)
                               ("proj" +:+ ".yml")))
    by (vm_compute; eauto).
  pose proof (edit_existing_environment sample_host_with_editor "proj" (sample_world [])
                "vim" H0 H1 H2) as H.
  cbv zeta in H. split; [exact H0 |]. split; [exact H1 |]. split; [exact H2 |].
  rewrite H. vm_compute. reflexivity.
Defined.

(** X11: what [edit] writes for a new environment is what [config_for]
    reads back: if the editor leaves the new file as written, [config_for]
    afterwards returns what the YAML loader makes of the template with the
    name on its [session name] line, or [YAMLError] if the loader rejects
    that text. *)
Theorem edit_then_load (E : host) (env : string) (w : world) :
  string_existsb is_slash env = false ->
  fs w !! configs E = Some Dir
  \/ (fs w !! configs E = None /\ is_dir (fs w) (dirname (configs E)) = true) ->
  fs w !! path_join (configs E) (env +:+ ".yml") = None ->
  fst (subprocess_call E (log w)
         [py_str (editor E); path_join (configs E) (env +:+ ".yml")]
         (prepared_for E w env))
  = prepared_for E w env ->
  config_for E env (snd (edit E env w))
  = (match yaml_load E (template_head +:+ env +:+ template_tail) with
     | Some config => Ok config
     | None => Raise YAMLError
     end, snd (edit E env w))
  /\ ends_with "session name: " template_head = true.
Proof.
  intros Henv Hdir Hnew Heditor. split; [| reflexivity].
  rewrite (edit_new_run E env w Henv Hdir Hnew). simpl. rewrite Heditor.
  unfold config_for, bind, os_path_exists, read_file. simpl.
  unfold prepared_for. rewrite lookup_insert_eq. simpl. rewrite lookup_insert_eq.
  now destruct (yaml_load E _).
Qed.

Lemma edit_then_load_witness :
  string_existsb is_slash "new" = false
  /\ fst (config_for (sample_host 1) "new" (snd (edit (sample_host 1) "new" (sample_world []))))
     = Raise YAMLError.
Proof.
  assert (H1 : string_existsb is_slash "new" = false) by reflexivity.
  assert (H2 : fs (sample_world []) !! configs (sample_host 1) = Some Dir)
    by (vm_compute; reflexivity).
  assert (H3 : fs (sample_world [])
                 !! path_join (configs (sample_host 1)) ("new" +:+ ".yml") = None)
    by (vm_compute; reflexivity).
  pose proof (edit_then_load (sample_host 1) "new" (sample_world [])
                H1 (or_introl H2) H3 eq_refl) as [H _].
  split; [exact H1 |]. rewrite H. vm_compute. reflexivity.
Defined.

(** X12: when neither the configuration directory nor its parent exists,
    [edit] fails in [os.mkdir] with [OSError] and changes nothing: no file
    is written, no editor started. *)
Theorem edit_without_home (E : host) (env : string) (w : world) :
  fs w !! configs E = None ->
  is_dir (fs w) (dirname (configs E)) = false ->
  edit E env w = (Raise (OSError (configs E)), w).
Proof.
  intros Hdir Hhome. unfold edit, bind, os_path_exists, os_mkdir. simpl.
  rewrite Hdir. simpl. now rewrite Hdir, Hhome.
Qed.

Lemma edit_without_home_witness :
  edit (sample_host 1) "new" (World ∅ [] [] [])
  = (Raise (OSError "/home/u/.tenper"), World ∅ [] [] []).
Proof.
  pose proof (edit_without_home (sample_host 1) "new" (World ∅ [] [] [])
                eq_refl eq_refl) as H.
  rewrite H. reflexivity.
Defined.

(** ** Listing *)

Lemma for_each_print (names : list string) (w : world) :
  for_each print names w
  = (Ok tt, World (fs w) (stdin w) (stdout w ++ map Printed names) (log w)).
Proof.
  revert w. induction names as [|name names IH]; intros [m lines out l]; simpl.
  - unfold ret. now rewrite app_nil_r.
  - unfold bind, print. simpl. rewrite IH. simpl.
    now rewrite <- app_assoc.
Qed.

(** X13: [list_envs] and [completions] agree: unless a plain file stands
    in place of the configuration directory, [list_envs] prints some names
    one per line and [completions] prints its four subcommands followed by
    the same names in the same order; neither reads input, starts a
    process or changes the filesystem.  With no configuration directory
    [list_envs] prints nothing. *)
Theorem list_envs_and_completions (E : host) (w : world) :
  (forall text, fs w !! configs E <> Some (File text)) ->
  exists names,
    list_envs E w
    = (Ok tt, World (fs w) (stdin w) (stdout w ++ map Printed names) (log w))
    /\ completions E w
       = (Ok tt, World (fs w) (stdin w)
                   (stdout w ++ [Printed (join " " (["list"; "edit"; "rebuild"; "delete"]
                                                    ++ names))])
                   (log w))
    /\ (fs w !! configs E = None -> names = [])
    /\ (fs w !! configs E = Some Dir ->
        forall name, name ∈ names <-> (name +:+ ".yml") ∈ dir_entries (fs w) (configs E)).
Proof.
  intros Hfile. destruct w as [m lines out l]. simpl in *.
  unfold list_envs, completions, bind, os_path_exists, os_listdir, ret, print, when.
  simpl. destruct (m !! configs E) as [[text|]|] eqn:Hdir; simpl; rewrite ?Hdir.
  - now destruct (Hfile text).
  - exists (yml_names (dir_entries m (configs E))). rewrite for_each_print. simpl.
    repeat split; try discriminate; now apply elem_of_yml_names.
  - exists []. simpl. rewrite app_nil_r. repeat split; discriminate.
Qed.

Lemma list_envs_and_completions_witness :
  stdout (snd (list_envs (sample_host 1) (sample_world []))) = [Printed "proj"]
  /\ stdout (snd (completions (sample_host 1) (sample_world [])))
     = [Printed "list edit rebuild delete proj"].
Proof.
  assert (H : forall text, fs (sample_world []) !! configs (sample_host 1)
                           <> Some (File text)) by (intros text; vm_compute; discriminate).
  pose proof (list_envs_and_completions (sample_host 1) (sample_world []) H)
    as (names & Hlist & Hcompl & _ & _).
  assert (Hnames : map Printed names = [Printed "proj"]).
  { apply (f_equal (fun r => stdout (snd r))) in Hlist. simpl in Hlist.
    rewrite <- Hlist. vm_compute. reflexivity. }
  split.
  - rewrite Hlist. simpl. exact Hnames.
  - destruct names as [|name [|]]; try discriminate Hnames.
    injection Hnames as ->. rewrite Hcompl. reflexivity.
Defined.

(** ** Environment variables in values *)

Lemma sub_environ_char (E : host) (c : ascii) (s : string) :
  Ascii.eqb c "$" = false ->
  sub_environ E None (String c s) = String c (sub_environ E None s).
Proof.
  intros H.
  destruct c as [[] [] [] [] [] [] [] []]; try discriminate H; reflexivity.
Qed.

Lemma sub_environ_dollar (E : host) (a : ascii) (s : string) :
  sub_environ E None (String "$" (String a s))
  = if is_alpha a then sub_environ E (Some (String a EmptyString)) s
    else String "$" (sub_environ E None (String a s)).
Proof. reflexivity. Qed.

Lemma sub_environ_name (E : host) (n : string) (c : ascii) (s : string) :
  is_name_char c = true ->
  sub_environ E (Some n) (String c s) = sub_environ E (Some (snoc n c)) s.
Proof. intros H. simpl. now rewrite H. Qed.

Lemma sub_environ_end (E : host) (n rest : string) :
  name_ends rest = true ->
  sub_environ E (Some n) rest
  = default EmptyString (environ E n) +:+ sub_environ E None rest.
Proof.
  destruct rest as [|c rest]; intros H.
  - simpl. now rewrite append_empty_r.
  - simpl in H. apply negb_true_iff in H.
    change (sub_environ E (Some n) (String c rest))
      with (if is_name_char c then sub_environ E (Some (snoc n c)) rest
            else default EmptyString (environ E n) +:+ sub_environ E None (String c rest)).
    now rewrite H.
Qed.

Lemma sub_environ_names (E : host) (n name rest : string) :
  string_forallb is_name_char name = true ->
  sub_environ E (Some n) (name +:+ rest) = sub_environ E (Some (n +:+ name)) rest.
Proof.
  revert n. induction name as [|c name IH]; intros n H.
  - now rewrite append_empty_r.
  - simpl in H. apply andb_true_iff in H as [Hc Hname].
    rewrite append_cons, (sub_environ_name _ _ _ _ Hc), (IH _ Hname).
    now rewrite snoc_append.
Qed.

(** X14: in a value of the [environment] mapping, a dollar sign followed
    by a name (a letter, then letters, digits and underscores, as far as
    they go) is replaced by the value of that variable in the environment
    of the process, or by nothing if it is not set; the replacement is not
    scanned again, and the scan goes on after the name. *)
Theorem sub_environ_variable (E : host) (a : ascii) (name rest : string) :
  is_alpha a = true ->
  string_forallb is_name_char name = true ->
  name_ends rest = true ->
  sub_environ E None (String "$" (String a name) +:+ rest)
  = default EmptyString (environ E (String a name)) +:+ sub_environ E None rest.
Proof.
  intros Ha Hname Hrest.
  change (String "$" (String a name) +:+ rest)
    with (String "$" (String a (name +:+ rest))).
  rewrite sub_environ_dollar, Ha, (sub_environ_names _ _ _ _ Hname).
  now apply sub_environ_end.
Qed.

Lemma sub_environ_variable_witness :
  sub_environ (sample_host 1) None "$USER/bin" = "me/bin"
  /\ sub_environ (sample_host 1) None "$HOME_2/bin" = "/bin".
Proof.
  pose proof (sub_environ_variable (sample_host 1) "U" "SER" "/bin"
                eq_refl eq_refl eq_refl) as H1.
  pose proof (sub_environ_variable (sample_host 1) "H" "OME_2" "/bin"
                eq_refl eq_refl eq_refl) as H2.
  split; [exact H1 | exact H2].
Defined.

(** X15: a value without dollar sign goes to tmux as it is. *)
Theorem sub_environ_plain (E : host) (v : string) :
  string_existsb (fun c => Ascii.eqb c "$") v = false ->
  sub_environ E None v = v.
Proof.
  induction v as [|c v IH]; [reflexivity |]. intros H. simpl in H.
  apply orb_false_iff in H as [Hc Hv].
  now rewrite (sub_environ_char _ _ _ Hc), (IH Hv).
Qed.

Lemma sub_environ_plain_witness :
  sub_environ (sample_host 1) None "myvalue" = "myvalue".
Proof. exact (sub_environ_plain (sample_host 1) "myvalue" eq_refl). Defined.

(** ** The range of the dispatch *)

(** X16: a single argument never reaches the edit, rebuild or delete
    handler: whatever is not [list] or [completions] is a project to
    start, the names of the subcommands included. *)
Theorem parse_args_single (a : string) (h : handler) (p : option string) :
  parse_args [a] = Ok (h, p) ->
  h <> Handler_edit /\ h <> Handler_rebuild /\ h <> Handler_delete
  /\ (h = Handler_start <-> a <> "list" /\ a <> "completions")
  /\ p = (if String.eqb a EmptyString then None else Some a).
Proof.
  unfold parse_args. destruct (taken_as_option a); [discriminate |].
  unfold dispatch, truthy_name. intros [= <- <-].
  destruct (String.eqb_spec a "list") as [-> | Hl].
  - repeat split; try discriminate. now intros [H _].
  - destruct (String.eqb_spec a "completions") as [-> | Hc].
    + repeat split; try discriminate. now intros [_ H].
    + repeat split; try discriminate; try assumption.
      now destruct (String.eqb a EmptyString).
Qed.

Lemma parse_args_single_witness :
  parse_args ["edit"] = Ok (Handler_start, Some "edit")
  /\ Handler_start <> Handler_edit.
Proof.
  assert (H : parse_args ["edit"] = Ok (Handler_start, Some "edit")) by reflexivity.
  pose proof (parse_args_single "edit" Handler_start (Some "edit") H) as (H1 & _).
  split; [exact H | exact H1].
Defined.

Lemma no_separator (l : list string) :
  ~ In "--" l -> List.filter (String.eqb "--") l = [].
Proof.
  induction l as [|a l IH]; [reflexivity |]. intros H. cbn [List.filter].
  destruct (String.eqb_spec "--" a) as [<- | _].
  - exfalso. apply H. now left.
  - apply IH. intros Hin. apply H. now right.
Qed.

(** X17: with two arguments or more, none after the first being the
    separator [--], [parse_args] returns only for exactly two, the first
    of them edit, rebuild or delete and the second a positional value; it
    then never returns the start handler, and the project is the second
    argument, or [None] if that is empty.  With an unknown subcommand or
    a surplus argument it does not return. *)
Theorem parse_args_subcommand (command name : string) (rest : list string)
    (h : handler) (p : option string) :
  ~ In "--" (name :: rest) ->
  parse_args (command :: name :: rest) = Ok (h, p) ->
  rest = []
  /\ In command ["edit"; "rebuild"; "delete"]
  /\ taken_as_option name = false
  /\ h <> Handler_start
  /\ p = (if String.eqb name EmptyString then None else Some name).
Proof.
  intros Hsep. unfold parse_args. destruct (taken_as_option command); [discriminate |].
  unfold subcommand.
  destruct (String.eqb_spec command "edit") as [-> | He];
    [| destruct (String.eqb_spec command "rebuild") as [-> | Hr];
       [| destruct (String.eqb_spec command "delete") as [-> | Hd]; [| discriminate]]].
  all: destruct rest as [|extra rest];
    [| cbv beta iota; rewrite (no_separator _ Hsep); discriminate].
  all: destruct (taken_as_option name); [discriminate |].
  all: unfold dispatch, truthy_name; intros [= <- <-].
  all: split; [reflexivity |]; split; [simpl; auto |]; split; [reflexivity |].
  all: split; [| now destruct (String.eqb name EmptyString)].
  all: destruct (String.eqb name "list"); [discriminate |].
  all: destruct (String.eqb name "completions"); discriminate.
Qed.

Lemma parse_args_subcommand_witness :
  ~ In "--" ["proj"]
  /\ parse_args ["rebuild"; "proj"] = Ok (Handler_rebuild, Some "proj")
  /\ In "rebuild" ["edit"; "rebuild"; "delete"]
  /\ parse_args [] = Raise SystemExit
  /\ parse_args ["remove"; "proj"] = Raise SystemExit
  /\ parse_args ["edit"; "proj"; "more"] = Raise SystemExit.
Proof.
  assert (Hsep : ~ In "--" ["proj"]) by (intros [H | []]; discriminate H).
  assert (H : parse_args ["rebuild"; "proj"] = Ok (Handler_rebuild, Some "proj"))
    by reflexivity.
  pose proof (parse_args_subcommand "rebuild" "proj" [] _ _ Hsep H) as (_ & Hin & _).
  split; [exact Hsep |]. split; [exact H |]. split; [exact Hin |]. repeat split.
Defined.

(** ** When tmux does not answer *)

Section Failure.

Variable E : host.

Lemma logs_run_then {A} (cmd : string) (kw : kwargs) (argv : list string)
    (k : M A) (P : result A -> list event -> Prop) :
  command_list cmd kw = Ok argv -> logs k P ->
  logs (_ <- run E cmd kw ;; k) (fun r t => exists t', t = Call argv :: t' /\ P r t').
Proof.
  intros H Hk. eapply (logs_bind _ _ _ (fun _ => P));
    [apply (run_log E _ _ _ H) | intros ?; exact Hk | |].
  - intros a t1 r t2 [_ ->] HP. now exists t2.
  - intros e t [[status [=]] _].
Qed.

Lemma logs_seq {A} (m : M unit) (k : M A) (t1 : list event)
    (P : result A -> list event -> Prop) :
  emits m t1 -> logs k P ->
  logs (m ;; k) (fun r t => exists t', t = t1 ++ t' /\ P r t').
Proof.
  intros Hm Hk. eapply (logs_bind _ _ _ (fun _ => P));
    [exact Hm | intros ?; exact Hk | |].
  - intros a u1 r u2 [_ ->] HP. now exists u2.
  - intros e t [[=] _].
Qed.

Lemma first_index_fails {A} (cmd : string) (k : Z -> M A) :
  (forall h m, snd (subprocess_check_output E h cmd m) = None) ->
  logs (bind (first_index E cmd) k)
       (fun r t => r = Raise (CalledProcessError cmd) /\ t = [CheckOutput cmd]).
Proof.
  intros Hfail w. exists [CheckOutput cmd].
  unfold first_index, bind, check_output.
  specialize (Hfail (log w) (fs w)).
  destruct (subprocess_check_output E (log w) cmd (fs w)) as [m out].
  simpl in Hfail. subst out. auto.
Qed.

Lemma start_session_fails (config : config) :
  (forall h m,
      snd (subprocess_check_output E h ("tmux list-windows -t " +:+ session_name config) m)
      = None) ->
  logs (start_session E config)
       (fun r t =>
          r = Raise (CalledProcessError ("tmux list-windows -t " +:+ session_name config))
          /\ t = [Call ["tmux"; "new-session"; "-d"; "-s"; session_name config];
                  Call ["tmux"; "set-option"; "-t"; session_name config; "default-path";
                        expandvars E (project_root config)];
                  Call ["tmux"; "set-option"; "-t"; session_name config;
                        "status-left-length";
                        str_of_Z (Z.of_nat (String.length (session_name config)) + 2)]]
                 ++ map (set_environment_command E (session_name config))
                      (environment config)
                 ++ [CheckOutput ("tmux list-windows -t " +:+ session_name config)]).
Proof.
  intros Hfail. unfold start_session. eapply logs_weaken.
  - eapply logs_run_then; [apply cl_new_session |].
    eapply logs_run_then; [apply cl_default_path |].
    eapply logs_run_then; [apply cl_status_left_length |].
    eapply logs_seq; [apply emits_set_environment |].
    rewrite format_list_windows. apply logs_lift_Ok.
    apply (first_index_fails _ _ Hfail).
  - intros r t (t1 & -> & t2 & -> & t3 & -> & t4 & -> & -> & ->). auto.
Qed.

End Failure.

(** X18: nothing is undone when tmux fails to list the windows of the
    session just created: [start] raises [CalledProcessError] after
    new-session, the two options and the environment variables, so the
    session stays, detached and with its first window only; no window is
    created and nothing is attached. *)
Theorem start_query_failure (E : host) (env : string) (w : world) (config : config) :
  fst (config_for E env w) = Ok config ->
  has_session_status E config w <> 0 ->
  (forall h m,
      snd (subprocess_check_output E h ("tmux list-windows -t " +:+ session_name config) m)
      = None) ->
  fst (start E env w)
  = Raise (CalledProcessError ("tmux list-windows -t " +:+ session_name config))
  /\ log (snd (start E env w))
     = log w ++ virtualenv_events E config (fs w)
       ++ [has_session_command config;
           Call ["tmux"; "new-session"; "-d"; "-s"; session_name config];
           Call ["tmux"; "set-option"; "-t"; session_name config; "default-path";
                 expandvars E (project_root config)];
           Call ["tmux"; "set-option"; "-t"; session_name config; "status-left-length";
                 str_of_Z (Z.of_nat (String.length (session_name config)) + 2)]]
       ++ map (set_environment_command E (session_name config)) (environment config)
       ++ [CheckOutput ("tmux list-windows -t " +:+ session_name config)].
Proof.
  intros Hconfig Hstatus Hfail.
  rewrite (start_configured E env w config Hconfig), open_session_probe.
  unfold has_session_status in Hstatus. cbv zeta.
  apply Z.eqb_neq in Hstatus. rewrite Hstatus.
  match goal with |- context [start_session E config ?w2] =>
    destruct (start_session_fails E config Hfail w2) as (t & Hlog & Hres & ->)
  end.
  split; [exact Hres |]. rewrite Hlog. simpl.
  destruct (world_at_probe_log E config w) as [-> _].
  rewrite <- !app_assoc. reflexivity.
Qed.

Lemma start_query_failure_witness :
  fst (config_for sample_host_tmux_silent "proj" (sample_world [])) = Ok sample_config
  /\ has_session_status sample_host_tmux_silent sample_config (sample_world []) <> 0
  /\ fst (start sample_host_tmux_silent "proj" (sample_world []))
     = Raise (CalledProcessError "tmux list-windows -t proj")
  /\ log (snd (start sample_host_tmux_silent "proj" (sample_world [])))
     = [Call ["virtualenv"; "-p"; "/usr/bin/python"; "--system-site-packages";
              "/home/u/.virtualenvs/proj"];
        Call ["tmux"; "has-session"; "-t"; "proj"];
        Call ["tmux"; "new-session"; "-d"; "-s"; "proj"];
        Call ["tmux"; "set-option"; "-t"; "proj"; "default-path"; "/home/u/src"];
        Call ["tmux"; "set-option"; "-t"; "proj"; "status-left-length"; "6"];
        Call ["tmux"; "set-environment"; "-t"; "proj"; "MYKEY"; "my me value"];
        CheckOutput "tmux list-windows -t proj"].
Proof.
  assert (H1 : fst (config_for sample_host_tmux_silent "proj" (sample_world []))
               = Ok sample_config) by (vm_compute; reflexivity).
  assert (H2 : has_session_status sample_host_tmux_silent sample_config (sample_world [])
               <> 0) by (vm_compute; discriminate).
  pose proof (start_query_failure sample_host_tmux_silent "proj" (sample_world [])
                sample_config H1 H2 (fun _ _ => eq_refl)) as [Hres Hlog].
  split; [exact H1 |]. split; [exact H2 |]. split; [exact Hres |].
  rewrite Hlog. vm_compute. reflexivity.
Defined.

(** ** Absolute names *)

(** X19: an environment name that is an absolute path is not looked up in
    the configuration directory: its configuration is the file at that
    path with [.yml] added, and its virtualenv for [delete] the path
    itself, whatever the home directory. *)
Theorem absolute_environment_name (E : host) (env : string) (w : world) :
  String.prefix "/" env = true ->
  path_join (configs E) (env +:+ ".yml") = env +:+ ".yml"
  /\ path_join (virtualenvs E) env = env
  /\ (forall text config,
        fs w !! (env +:+ ".yml") = Some (File text) -> yaml_load E text = Some config ->
        config_for E env w = (Ok config, w)).
Proof.
  intros Habs.
  assert (Hfile : path_join (configs E) (env +:+ ".yml") = env +:+ ".yml")
    by (apply path_join_absolute; now rewrite prefix_slash_yml).
  split; [exact Hfile |]. split; [now apply path_join_absolute |].
  intros text config Hfs Hload.
  unfold config_for, bind, os_path_exists, read_file, ret. rewrite Hfile.
  simpl. rewrite Hfs. simpl. now rewrite Hfs, Hload.
Qed.

Lemma absolute_environment_name_witness :
  String.prefix "/" "/home/u/.tenper/proj" = true
  /\ config_for (sample_host 1) "/home/u/.tenper/proj" (World sample_fs [] [] [])
     = (Ok sample_config, World sample_fs [] [] []).
Proof.
  assert (H : String.prefix "/" "/home/u/.tenper/proj" = true) by reflexivity.
  pose proof (absolute_environment_name (sample_host 1) "/home/u/.tenper/proj"
                (World sample_fs [] [] []) H) as (_ & _ & Hload).
  split; [exact H |].
  apply (Hload "proj"); vm_compute; reflexivity.
Defined.

(** ** Counting windows and panes *)

Lemma count_tmux_app (sub : string) (t1 t2 : list event) :
  count_tmux sub (t1 ++ t2) = (count_tmux sub t1 + count_tmux sub t2)%nat.
Proof. unfold count_tmux. now rewrite List.filter_app, length_app. Qed.

Lemma count_pane_commands activate window_target base_pindex pindex pane :
  let t := pane_commands activate window_target base_pindex pindex pane in
  count_tmux "new-window" t = 0%nat
  /\ count_tmux "kill-window" t = 0%nat
  /\ count_tmux "split-window" t = (if Nat.eqb pindex 0 then 0 else 1)%nat.
Proof.
  cbv zeta. unfold pane_commands.
  destruct (Nat.eqb pindex 0), activate, (truthy (Some pane)); repeat split.
Qed.

Lemma count_panes_commands activate window_target base_pindex pindex panes :
  let t := panes_commands activate window_target base_pindex pindex panes in
  count_tmux "new-window" t = 0%nat
  /\ count_tmux "kill-window" t = 0%nat
  /\ count_tmux "split-window" t
     = (if Nat.eqb pindex 0 then pred (length panes) else length panes).
Proof.
  cbv zeta. revert pindex. induction panes as [|pane panes IH]; intros pindex.
  - simpl. now destruct (Nat.eqb pindex 0).
  - simpl panes_commands. rewrite !count_tmux_app.
    destruct (count_pane_commands activate window_target base_pindex pindex pane)
      as (-> & -> & ->).
    destruct (IH (S pindex)) as (-> & -> & ->). simpl.
    now destruct (Nat.eqb pindex 0).
Qed.

Lemma count_window_commands session activate base_index index window base_pindex :
  let t := window_commands session activate base_index index window base_pindex in
  count_tmux "new-window" t = 1%nat
  /\ count_tmux "kill-window" t = (if Nat.eqb index 0 then 1 else 0)%nat
  /\ count_tmux "split-window" t = pred (length (w_panes window)).
Proof.
  cbv zeta. unfold window_commands. rewrite !count_tmux_app.
  destruct (count_panes_commands activate
              (session +:+ ":" +:+ str_of_Z (base_index + Z.of_nat index))
              base_pindex 0 (w_panes window)) as (-> & -> & ->).
  destruct (Nat.eqb index 0), (truthy (w_layout window));
    repeat split; unfold count_tmux; simpl; lia.
Qed.

Lemma count_windows_commands session activate base_index index ws base_pindexes :
  length base_pindexes = length ws ->
  let t := windows_commands session activate base_index index ws base_pindexes in
  count_tmux "new-window" t = length ws
  /\ count_tmux "kill-window" t
     = (if Nat.eqb index 0 then Nat.min 1 (length ws) else 0)%nat
  /\ count_tmux "split-window" t = splits ws.
Proof.
  cbv zeta. revert index base_pindexes.
  induction ws as [|window ws IH]; intros index [|base_pindex rest] Hlen;
    try discriminate Hlen.
  - simpl. now destruct (Nat.eqb index 0).
  - simpl windows_commands. rewrite !count_tmux_app.
    destruct (count_window_commands session activate base_index index window base_pindex)
      as (-> & -> & ->).
    injection Hlen as Hlen.
    destruct (IH (S index) rest Hlen) as (-> & -> & ->).
    unfold splits. simpl. repeat split. now destruct (Nat.eqb index 0).
Qed.

Lemma runs_set_environment (E : host) (sub session : string) (kv : string * string) :
  runs_tmux sub (set_environment_command E session kv)
  = String.eqb "set-environment" sub.
Proof. reflexivity. Qed.

Lemma count_set_environment (E : host) (sub session : string)
    (vars : list (string * string)) :
  String.eqb "set-environment" sub = false ->
  count_tmux sub (map (set_environment_command E session) vars) = 0%nat.
Proof.
  intros H. induction vars as [|kv vars IH]; [reflexivity |].
  unfold count_tmux in *. cbn [map List.filter].
  now rewrite runs_set_environment, H.
Qed.

(** X20: a [start] that gets through creates one window for each window
    of the configuration, splits once for each pane after the first of its
    window, and kills one window, the initial one, unless the
    configuration has no windows at all. *)
Theorem start_windows_and_panes (E : host) (env : string) (w : world) (config : config) :
  fst (config_for E env w) = Ok config ->
  has_session_status E config w <> 0 ->
  match start E env w with
  | (Ok _, w') =>
      exists t,
        log w' = log w ++ t
        /\ count_tmux "new-window" t = length (windows config)
        /\ count_tmux "split-window" t = splits (windows config)
        /\ count_tmux "kill-window" t = Nat.min 1 (length (windows config))
  | (Raise e, _) => query_failure e
  end.
Proof.
  intros Hconfig Hstatus.
  rewrite (start_configured E env w config Hconfig), open_session_probe.
  unfold has_session_status in Hstatus. cbv zeta.
  apply Z.eqb_neq in Hstatus. rewrite Hstatus.
  match goal with |- context [start_session E config ?w2] =>
    destruct (may_start_session E config w2) as (t & Hlog & H);
    destruct (start_session E config w2) as [[[]|e] w'] eqn:Hrun
  end; simpl in *; [| exact H].
  destruct H as (base_index & base_pindexes & Hlen & ->).
  destruct (world_at_probe_log E config w) as [Hprobe _].
  eexists. split; [rewrite Hlog, Hprobe, <- !app_assoc; reflexivity |].
  assert (Hprelude : forall sub,
             count_tmux sub (virtualenv_events E config (fs w)) = 0%nat).
  { intros sub. unfold virtualenv_events. destruct (virtualenv config); [| reflexivity].
    now destruct (fs w !! _). }
  unfold session_commands. rewrite !count_tmux_app, !Hprelude.
  rewrite !count_set_environment by reflexivity.
  destruct (count_windows_commands (session_name config) (activate_path E config)
              base_index 0 (windows config) base_pindexes Hlen) as (-> & -> & ->).
  unfold count_tmux. simpl. repeat split; lia.
Qed.

Lemma start_windows_and_panes_witness :
  fst (config_for (sample_host 1) "proj" (sample_world [])) = Ok sample_config
  /\ has_session_status (sample_host 1) sample_config (sample_world []) <> 0
  /\ count_tmux "new-window" (log (snd (start (sample_host 1) "proj" (sample_world []))))
     = 2%nat
  /\ count_tmux "split-window" (log (snd (start (sample_host 1) "proj" (sample_world []))))
     = 2%nat.
Proof.
  assert (H1 : fst (config_for (sample_host 1) "proj" (sample_world []))
               = Ok sample_config) by (vm_compute; reflexivity).
  assert (H2 : has_session_status (sample_host 1) sample_config (sample_world []) <> 0)
    by (vm_compute; discriminate).
  pose proof (start_windows_and_panes (sample_host 1) "proj" (sample_world [])
                sample_config H1 H2) as H.
  split; [exact H1 |]. split; [exact H2 |].
  destruct (start (sample_host 1) "proj" (sample_world [])) as [[[]|e] w'] eqn:Hrun.
  - destruct H as (t & Hlog & Hnew & Hsplit & _). simpl. rewrite Hlog.
    change (log (sample_world [])) with (@nil event). simpl.
    rewrite Hnew, Hsplit. split; reflexivity.
  - exfalso. apply (f_equal fst) in Hrun. vm_compute in Hrun. discriminate Hrun.
Defined.

(** ** Indexes as tmux prints them *)














